(** * File deduplication and metadata service: the five Lambda handlers

    A shallow embedding of the handlers under [upload_file], [get_hashes],
    [get_file], [get_metadata] and [get_stats], together with the parts of
    the Python runtime and of the two stores (a DynamoDB table pair and an
    S3 bucket) their behaviour depends on.

    Conventions.
    - A Python [str] is a list of code points, a [bytes] a list of octets,
      both over [Z].
    - Python objects reaching the handlers are JSON-shaped values; numbers
      are integers (API Gateway delivers parameters, headers and bodies as
      strings), and a DynamoDB number read back through the resource API is
      an integral [Decimal].
    - Handlers run in a state-and-exception monad over a [world] holding
      the stores, the sources of fresh identifiers and time, an oracle that
      decides which store calls fail, and the log of store calls made. *)

From Stdlib Require Import ZArith List Bool Lia String Ascii.

From stdpp Require Import base tactics option list numbers gmap.

Import ListNotations.

Local Open Scope Z_scope.

(* ===================================================================== *)
(** ** Python text and values *)
(* ===================================================================== *)

Module Py.

(** [str]: a sequence of code points; [bytes]: a sequence of octets. *)
Definition pystr := list Z.

Definition bytes := list Z.

(** A literal of the source, written as a Rocq string of ASCII characters. *)
Definition lit (s : string) : pystr :=
  map (fun a => Z.of_nat (nat_of_ascii a)) (list_ascii_of_string s).

Definition valid_cp (c : Z) : Prop := 0 <= c < 0x110000.

Definition is_surrogate (c : Z) : bool := (0xD800 <=? c) && (c <=? 0xDFFF).

(** A scalar value: a code point that UTF-8 can carry. *)
Definition scalar (c : Z) : Prop := valid_cp c /\ is_surrogate c = false.

Definition str_eqb (a b : pystr) : bool := bool_decide (a = b).

#[local] Set Warnings "-register-all".

Inductive pyval :=
| VNone
| VBool (b : bool)
| VInt (z : Z)
| VDecimal (z : Z)          (* decimal.Decimal with an integral value *)
| VStr (s : pystr)
| VList (l : list pyval)
| VDict (d : list (pystr * pyval)).

(** A dict with string keys, in insertion order. *)
Definition pydict := list (pystr * pyval).

(** [bool(v)] *)
Definition truthy (v : pyval) : bool :=
  match v with
  | VNone => false
  | VBool b => b
  | VInt z | VDecimal z => negb (z =? 0)
  | VStr s => negb (bool_decide (s = []))
  | VList l => match l with [] => false | _ => true end
  | VDict d => match d with [] => false | _ => true end
  end.

(** [k in d], [d.get(k)], [d.get(k, dflt)] and [d[k] = v]. *)
Fixpoint dict_get (d : pydict) (k : pystr) : option pyval :=
  match d with
  | [] => None
  | (k', v) :: d' => if str_eqb k' k then Some v else dict_get d' k
  end.

Definition dict_has (d : pydict) (k : pystr) : bool :=
  match dict_get d k with Some _ => true | None => false end.

Definition dict_get_or (d : pydict) (k : pystr) (dflt : pyval) : pyval :=
  match dict_get d k with Some v => v | None => dflt end.

Fixpoint dict_set (d : pydict) (k : pystr) (v : pyval) : pydict :=
  match d with
  | [] => [(k, v)]
  | (k', v') :: d' =>
      if str_eqb k' k then (k', v) :: d' else (k', v') :: dict_set d' k v
  end.

(** Decimal digits of a natural number, most significant first. *)
Fixpoint digits_fuel (fuel : nat) (n : Z) (acc : pystr) : pystr :=
  match fuel with
  | O => acc
  | S f =>
      let acc' := (48 + n mod 10) :: acc in
      if n <? 10 then acc' else digits_fuel f (n / 10) acc'
  end.

Definition digits (n : Z) : pystr := digits_fuel (S (Z.to_nat (Z.log2 n))) n [].

(** [str(z)] for an int. *)
Definition str_of_int (z : Z) : pystr :=
  if z <? 0 then 45 :: digits (- z) else digits z.

Definition hex_digit (upper : bool) (d : Z) : Z :=
  if d <? 10 then 48 + d else (if upper then 55 else 87) + d.

(** Value of a hexadecimal digit character. *)
Definition hex_val (c : Z) : option Z :=
  if (48 <=? c) && (c <=? 57) then Some (c - 48)
  else if (65 <=? c) && (c <=? 70) then Some (c - 55)
  else if (97 <=? c) && (c <=? 102) then Some (c - 87)
  else None.

End Py.

Export Py.

(* ===================================================================== *)
(** ** UTF-8 *)
(* ===================================================================== *)

Module Utf8.

(** Octets of one code point; [None] where [str.encode('utf-8')] raises
    [UnicodeEncodeError] (a surrogate) . *)
Definition encode_cp (c : Z) : option bytes :=
  if c <? 0x80 then Some [c]
  else if c <? 0x800 then
    Some [Z.lor 0xC0 (Z.shiftr c 6); Z.lor 0x80 (Z.land c 0x3F)]
  else if is_surrogate c then None
  else if c <? 0x10000 then
    Some [Z.lor 0xE0 (Z.shiftr c 12);
          Z.lor 0x80 (Z.land (Z.shiftr c 6) 0x3F);
          Z.lor 0x80 (Z.land c 0x3F)]
  else
    Some [Z.lor 0xF0 (Z.shiftr c 18);
          Z.lor 0x80 (Z.land (Z.shiftr c 12) 0x3F);
          Z.lor 0x80 (Z.land (Z.shiftr c 6) 0x3F);
          Z.lor 0x80 (Z.land c 0x3F)].

(** [s.encode('utf-8')] *)
Fixpoint encode (s : pystr) : option bytes :=
  match s with
  | [] => Some []
  | c :: s' =>
      match encode_cp c, encode s' with
      | Some b, Some bs => Some (b ++ bs)
      | _, _ => None
      end
  end.

Definition in_range (lo hi b : Z) : bool := (lo <=? b) && (b <=? hi).

Definition cont (b : Z) : bool := in_range 0x80 0xBF b.

(** [b.decode('utf-8', 'replace')]: an ill-formed sequence is replaced by
    U+FFFD, one per maximal subpart. *)
Fixpoint decode_replace_fuel (fuel : nat) (b : bytes) : pystr :=
  match fuel with
  | O => []
  | S f =>
      match b with
      | [] => []
      | b0 :: r0 =>
          if b0 <? 0x80 then b0 :: decode_replace_fuel f r0
          else if in_range 0xC2 0xDF b0 then
            match r0 with
            | b1 :: r1 =>
                if cont b1
                then (Z.lor (Z.shiftl (Z.land b0 0x1F) 6) (Z.land b1 0x3F))
                       :: decode_replace_fuel f r1
                else 0xFFFD :: decode_replace_fuel f r0
            | [] => [0xFFFD]
            end
          else if in_range 0xE0 0xEF b0 then
            let lo := if b0 =? 0xE0 then 0xA0 else 0x80 in
            let hi := if b0 =? 0xED then 0x9F else 0xBF in
            match r0 with
            | b1 :: r1 =>
                if in_range lo hi b1 then
                  match r1 with
                  | b2 :: r2 =>
                      if cont b2
                      then (Z.lor (Z.shiftl (Z.land b0 0x0F) 12)
                              (Z.lor (Z.shiftl (Z.land b1 0x3F) 6) (Z.land b2 0x3F)))
                             :: decode_replace_fuel f r2
                      else 0xFFFD :: decode_replace_fuel f r1
                  | [] => [0xFFFD]
                  end
                else 0xFFFD :: decode_replace_fuel f r0
            | [] => [0xFFFD]
            end
          else if in_range 0xF0 0xF4 b0 then
            let lo := if b0 =? 0xF0 then 0x90 else 0x80 in
            let hi := if b0 =? 0xF4 then 0x8F else 0xBF in
            match r0 with
            | b1 :: r1 =>
                if in_range lo hi b1 then
                  match r1 with
                  | b2 :: r2 =>
                      if cont b2 then
                        match r2 with
                        | b3 :: r3 =>
                            if cont b3
                            then (Z.lor (Z.shiftl (Z.land b0 0x07) 18)
                                    (Z.lor (Z.shiftl (Z.land b1 0x3F) 12)
                                       (Z.lor (Z.shiftl (Z.land b2 0x3F) 6)
                                          (Z.land b3 0x3F))))
                                   :: decode_replace_fuel f r3
                            else 0xFFFD :: decode_replace_fuel f r2
                        | [] => [0xFFFD]
                        end
                      else 0xFFFD :: decode_replace_fuel f r1
                  | [] => [0xFFFD]
                  end
                else 0xFFFD :: decode_replace_fuel f r0
            | [] => [0xFFFD]
            end
          else 0xFFFD :: decode_replace_fuel f r0
      end
  end.

Definition decode_replace (b : bytes) : pystr :=
  decode_replace_fuel (length b) b.

End Utf8.

(* ===================================================================== *)
(** ** SHA-256 ([hashlib.sha256(b).hexdigest()]) *)
(* ===================================================================== *)

Module Sha256.

Definition w32 (x : Z) : Z := x mod 2 ^ 32.

Definition add32 (x y : Z) : Z := w32 (x + y).

Definition rotr (n x : Z) : Z :=
  Z.lor (Z.shiftr x n) (w32 (Z.shiftl x (32 - n))).

Definition Ch (x y z : Z) : Z := Z.lxor (Z.land x y) (Z.land (w32 (Z.lnot x)) z).

Definition Maj (x y z : Z) : Z :=
  Z.lxor (Z.lxor (Z.land x y) (Z.land x z)) (Z.land y z).

Definition Sigma0 (x : Z) : Z := Z.lxor (Z.lxor (rotr 2 x) (rotr 13 x)) (rotr 22 x).

Definition Sigma1 (x : Z) : Z := Z.lxor (Z.lxor (rotr 6 x) (rotr 11 x)) (rotr 25 x).

Definition sigma0 (x : Z) : Z := Z.lxor (Z.lxor (rotr 7 x) (rotr 18 x)) (Z.shiftr x 3).

Definition sigma1 (x : Z) : Z := Z.lxor (Z.lxor (rotr 17 x) (rotr 19 x)) (Z.shiftr x 10).

(** The constants, as the standard defines them: the first 32 bits of the
    fractional parts of the cube roots of the first 64 primes, and of the
    square roots of the first 8. *)
Definition is_prime (p : Z) : bool :=
  forallb (fun d => negb (p mod Z.of_nat d =? 0)) (seq 2 (Z.to_nat p - 2)).

Definition primes : list Z :=
  List.filter is_prime (map Z.of_nat (seq 2 310)).

(** The largest [r] below [2 ^ bits] with [r ^ 3 <= n], bit by bit. *)
Fixpoint cube_root (bits : nat) (n r : Z) : Z :=
  match bits with
  | O => r
  | S b =>
      let r' := r + 2 ^ Z.of_nat b in
      cube_root b n (if r' ^ 3 <=? n then r' else r)
  end.

Definition K : list Z :=
  Eval vm_compute in map (fun p => w32 (cube_root 36 (p * 2 ^ 96) 0)) primes.

Definition H0 : list Z :=
  Eval vm_compute in map (fun p => w32 (Z.sqrt (p * 2 ^ 64))) (firstn 8 primes).

(** Message padding: a 1 bit, zeros, and the bit length on 64 bits. *)
Definition be_bytes (n : nat) (x : Z) : bytes :=
  map (fun i => Z.land (Z.shiftr x (8 * Z.of_nat i)) 0xFF) (rev (seq 0 n)).

Definition pad (m : bytes) : bytes :=
  let len := Z.of_nat (length m) in
  let zeros := Z.to_nat ((55 - len) mod 64) in
  m ++ [0x80] ++ repeat 0 zeros ++ be_bytes 8 (8 * len).

Fixpoint be_word (b : bytes) (acc : Z) : Z :=
  match b with
  | [] => acc
  | x :: b' => be_word b' (Z.lor (Z.shiftl acc 8) x)
  end.

(** Split into chunks of [n] items. *)
Fixpoint chunks_fuel {A} (fuel : nat) (n : nat) (l : list A) : list (list A) :=
  match fuel with
  | O => []
  | S f =>
      match l with
      | [] => []
      | _ => firstn n l :: chunks_fuel f n (skipn n l)
      end
  end.

Definition chunks {A} (n : nat) (l : list A) : list (list A) :=
  chunks_fuel (length l) n l.

(** Message schedule, most recent word first. *)
Fixpoint extend (n : nat) (w : list Z) : list Z :=
  match n with
  | O => w
  | S n' =>
      let x := add32 (add32 (sigma1 (nth 1 w 0)) (nth 6 w 0))
                     (add32 (sigma0 (nth 14 w 0)) (nth 15 w 0)) in
      extend n' (x :: w)
  end.

Definition schedule (block : bytes) : list Z :=
  rev (extend 48 (rev (map (fun c => be_word c 0) (chunks 4 block)))).

Definition round (s : list Z) (kw : Z * Z) : list Z :=
  match s with
  | [a; b; c; d; e; f; g; h] =>
      let t1 := add32 (add32 (add32 h (Sigma1 e)) (add32 (Ch e f g) (fst kw))) (snd kw) in
      let t2 := add32 (Sigma0 a) (Maj a b c) in
      [add32 t1 t2; a; b; c; add32 d t1; e; f; g]
  | _ => s
  end.

Definition compress (h : list Z) (block : bytes) : list Z :=
  let s := fold_left round (combine K (schedule block)) h in
  map (fun p => add32 (fst p) (snd p)) (combine h s).

Definition digest_words (m : bytes) : list Z :=
  fold_left compress (chunks 64 (pad m)) H0.

Definition hex_byte (b : Z) : pystr :=
  [hex_digit false (Z.shiftr b 4); hex_digit false (Z.land b 0xF)].

Definition hexdigest (m : bytes) : pystr :=
  concat (map (fun w => concat (map hex_byte (be_bytes 4 w))) (digest_words m)).

End Sha256.

(* ===================================================================== *)
(** ** Outcomes of a computation *)
(* ===================================================================== *)

Module Exc.

(** A raised exception, by its class.  The text of [str(e)] is not
    reproduced: it varies with the interpreter and with the service. *)
Record exn := Exn { exn_class : pystr }.

(** A computation returns, raises, or leaves the modelled fragment of
    Python ([Beyond]): a fractional number, the [repr] of a container, a
    non-ASCII digit given to [int], the interpreter's recursion limit. *)
Inductive outcome (A : Type) :=
| Ok (a : A)
| Raise (e : exn)
| Beyond.

Arguments Ok {A} a.
Arguments Raise {A} e.

Arguments Beyond {A}.

Definition obind {A B} (o : outcome A) (k : A -> outcome B) : outcome B :=
  match o with
  | Ok a => k a
  | Raise e => Raise e
  | Beyond => Beyond
  end.

Definition raise {A} (cls : string) : outcome A := Raise (Exn (lit cls)).

End Exc.

Export Exc.

#[global] Instance outcome_ret : MRet outcome := fun A a => Ok a.

#[global] Instance outcome_bind : MBind outcome := fun A B k o => obind o k.

(* ===================================================================== *)
(** ** base64.b64decode(s) *)
(* ===================================================================== *)

Module Base64.

Definition table_a2b (c : Z) : option Z :=
  if (65 <=? c) && (c <=? 90) then Some (c - 65)
  else if (97 <=? c) && (c <=? 122) then Some (c - 71)
  else if (48 <=? c) && (c <=? 57) then Some (c + 4)
  else if c =? 43 then Some 62
  else if c =? 47 then Some 63
  else None.

(** The loop of [binascii.a2b_base64] outside strict mode: characters off
    the alphabet are skipped, a complete pad sequence ends the input, and
    a dangling quad is an error.  [out] is the output so far, reversed. *)
Fixpoint a2b_loop (s : bytes) (quad_pos leftchar pads : Z) (out : bytes)
  : outcome bytes :=
  match s with
  | [] =>
      if quad_pos =? 0 then Ok (rev out) else raise "binascii.Error"
  | c :: s' =>
      if c =? 61 then
        if 2 <=? quad_pos then
          if 4 <=? quad_pos + (pads + 1) then Ok (rev out)
          else a2b_loop s' quad_pos leftchar (pads + 1) out
        else a2b_loop s' quad_pos leftchar pads out
      else
        match table_a2b c with
        | None => a2b_loop s' quad_pos leftchar pads out
        | Some v =>
            if quad_pos =? 0 then a2b_loop s' 1 v 0 out
            else if quad_pos =? 1 then
              a2b_loop s' 2 (Z.land v 0x0F) 0
                (Z.land (Z.lor (Z.shiftl leftchar 2) (Z.shiftr v 4)) 0xFF :: out)
            else if quad_pos =? 2 then
              a2b_loop s' 3 (Z.land v 0x03) 0
                (Z.land (Z.lor (Z.shiftl leftchar 4) (Z.shiftr v 2)) 0xFF :: out)
            else
              a2b_loop s' 0 0 0
                (Z.land (Z.lor (Z.shiftl leftchar 6) v) 0xFF :: out)
        end
  end.

(** [base64.b64decode(v)] for an object [v]: a [str] must be ASCII; any
    other object of the model is not bytes-like. *)
Definition b64decode (v : pyval) : outcome bytes :=
  match v with
  | VStr s =>
      if forallb (fun c => c <? 0x80) s then a2b_loop s 0 0 0 []
      else raise "ValueError"
  | _ => raise "TypeError"
  end.

End Base64.

(* ===================================================================== *)
(** ** json.dumps and json.loads *)
(* ===================================================================== *)

Module Json.

Definition hex4 (c : Z) : pystr :=
  [hex_digit false (Z.land (Z.shiftr c 12) 0xF);
   hex_digit false (Z.land (Z.shiftr c 8) 0xF);
   hex_digit false (Z.land (Z.shiftr c 4) 0xF);
   hex_digit false (Z.land c 0xF)].

(** One character under [ensure_ascii]: everything outside [' '..'~'],
    the quote and the backslash are escaped; a code point above the BMP
    becomes a surrogate pair. *)
Definition escape_char (c : Z) : pystr :=
  if c =? 34 then lit "\" ++ [34]
  else if c =? 92 then lit "\\"
  else if c =? 10 then lit "\n"
  else if c =? 13 then lit "\r"
  else if c =? 9 then lit "\t"
  else if c =? 8 then lit "\b"
  else if c =? 12 then lit "\f"
  else if (32 <=? c) && (c <=? 126) then [c]
  else if c <? 0x10000 then lit "\u" ++ hex4 c
  else
    let v := c - 0x10000 in
    lit "\u" ++ hex4 (Z.lor 0xD800 (Z.land (Z.shiftr v 10) 0x3FF))
    ++ lit "\u" ++ hex4 (Z.lor 0xDC00 (Z.land v 0x3FF)).

Definition encode_basestring_ascii (s : pystr) : pystr :=
  [34] ++ concat (map escape_char s) ++ [34].

(** Layout: [None] is the compact default ([", "] and [": "]); [Some n]
    is [indent=n]. *)
Definition newline_indent (indent : option nat) (level : nat) : pystr :=
  match indent with
  | None => []
  | Some n => 10 :: repeat 32 (n * level)
  end.

Definition item_separator (indent : option nat) (level : nat) : pystr :=
  match indent with
  | None => lit ", "
  | Some _ => 44 :: newline_indent indent level
  end.

Fixpoint join (sep : pystr) (parts : list pystr) : pystr :=
  match parts with
  | [] => []
  | [p] => p
  | p :: ps => p ++ sep ++ join sep ps
  end.

Definition bracket (indent : option nat) (level : nat) (op cl : Z)
    (parts : list pystr) : pystr :=
  match parts with
  | [] => [op; cl]
  | _ => [op] ++ newline_indent indent (S level)
         ++ join (item_separator indent (S level)) parts
         ++ newline_indent indent level ++ [cl]
  end.

(** [json.dumps(v, indent=indent)], with [cls=DecimalEncoder] when [dec]
    is set: a [Decimal] is not serializable by the default encoder. *)
Fixpoint dumps_at (indent : option nat) (dec : bool) (level : nat) (v : pyval)
  : outcome pystr :=
  match v with
  | VNone => Ok (lit "null")
  | VBool true => Ok (lit "true")
  | VBool false => Ok (lit "false")
  | VInt z => Ok (str_of_int z)
  | VDecimal z =>
      if dec then Ok (str_of_int z)
      else raise "TypeError"
  | VStr s => Ok (encode_basestring_ascii s)
  | VList l =>
      let fix items (l : list pyval) : outcome (list pystr) :=
        match l with
        | [] => Ok []
        | x :: r =>
            p ← dumps_at indent dec (S level) x;
            ps ← items r;
            Ok (p :: ps)
        end in
      parts ← items l;
      Ok (bracket indent level 91 93 parts)
  | VDict d =>
      let fix members (d : list (pystr * pyval)) : outcome (list pystr) :=
        match d with
        | [] => Ok []
        | (k, x) :: r =>
            p ← dumps_at indent dec (S level) x;
            ps ← members r;
            Ok ((encode_basestring_ascii k ++ lit ": " ++ p) :: ps)
        end in
      parts ← members d;
      Ok (bracket indent level 123 125 parts)
  end.

Definition dumps (v : pyval) : outcome pystr := dumps_at None false 0 v.

Definition dumps_indent (n : nat) (v : pyval) : outcome pystr :=
  dumps_at (Some n) false 0 v.

Definition dumps_DecimalEncoder (v : pyval) : outcome pystr :=
  dumps_at None true 0 v.

(** *** The decoder *)

Definition is_ws (c : Z) : bool :=
  (c =? 32) || (c =? 9) || (c =? 10) || (c =? 13).

Fixpoint skip_ws (s : pystr) : pystr :=
  match s with
  | c :: r => if is_ws c then skip_ws r else s
  | [] => []
  end.

(** A [JSONDecodeError]; [msg] names the failure for the reader. *)
Definition decode_error {A} (msg : string) : outcome A :=
  raise "JSONDecodeError".

(** Four hexadecimal digits. *)
Definition hex4_val (s : pystr) : option (Z * pystr) :=
  match s with
  | a :: b :: c :: d :: r =>
      match hex_val a, hex_val b, hex_val c, hex_val d with
      | Some x, Some y, Some z, Some w =>
          Some (Z.lor (Z.shiftl x 12) (Z.lor (Z.shiftl y 8) (Z.lor (Z.shiftl z 4) w)), r)
      | _, _, _, _ => None
      end
  | _ => None
  end.

Definition is_high_surrogate (c : Z) : bool := (0xD800 <=? c) && (c <=? 0xDBFF).

Definition is_low_surrogate (c : Z) : bool := (0xDC00 <=? c) && (c <=? 0xDFFF).

Definition join_surrogates (hi lo : Z) : Z :=
  0x10000 + Z.lor (Z.shiftl (Z.land hi 0x3FF) 10) (Z.land lo 0x3FF).

(** The character after a backslash: quote, backslash, slash, b, f, n, r, t. *)
Definition simple_escape (c : Z) : option Z :=
  if c =? 34 then Some 34
  else if c =? 92 then Some 92
  else if c =? 47 then Some 47
  else if c =? 98 then Some 8
  else if c =? 102 then Some 12
  else if c =? 110 then Some 10
  else if c =? 114 then Some 13
  else if c =? 116 then Some 9
  else None.

(** The body of a string, after its opening quote (strict mode): the
    decoded text, reversed in [acc], and the input after the closing
    quote. *)
Fixpoint scanstring (fuel : nat) (s : pystr) (acc : pystr)
  : outcome (pystr * pystr) :=
  match fuel with
  | O => decode_error "Unterminated string starting at"
  | S f =>
      match s with
      | [] => decode_error "Unterminated string starting at"
      | c :: r =>
          if c =? 34 then Ok (rev acc, r)
          else if c =? 92 then
            match r with
            | [] => decode_error "Unterminated string starting at"
            | e :: r' =>
                if e =? 117 then
                  match hex4_val r' with
                  | None => decode_error "Invalid \uXXXX escape"
                  | Some (u, r'') =>
                      if is_high_surrogate u then
                        match r'' with
                        | 92 :: 117 :: r3 =>
                            match hex4_val r3 with
                            | None => decode_error "Invalid \uXXXX escape"
                            | Some (u2, r4) =>
                                if is_low_surrogate u2
                                then scanstring f r4 (join_surrogates u u2 :: acc)
                                else scanstring f r'' (u :: acc)
                            end
                        | _ => scanstring f r'' (u :: acc)
                        end
                      else scanstring f r'' (u :: acc)
                  end
                else
                  match simple_escape e with
                  | Some x => scanstring f r' (x :: acc)
                  | None => decode_error "Invalid \escape"
                  end
            end
          else if c <? 32 then decode_error "Invalid control character at"
          else scanstring f r (c :: acc)
      end
  end.

Definition is_digit (c : Z) : bool := (48 <=? c) && (c <=? 57).

Fixpoint span_digits (s : pystr) (acc : Z) : Z * pystr :=
  match s with
  | c :: r => if is_digit c then span_digits r (10 * acc + (c - 48)) else (acc, s)
  | [] => (acc, [])
  end.

(** Does a fraction or an exponent follow the integer part? *)
Definition float_follows (s : pystr) : bool :=
  match s with
  | 46 :: d :: _ => is_digit d
  | e :: r =>
      if (e =? 101) || (e =? 69) then
        match r with
        | d :: r' =>
            if is_digit d then true
            else if (d =? 43) || (d =? 45)
            then match r' with d' :: _ => is_digit d' | [] => false end
            else false
        | [] => false
        end
      else false
  | [] => false
  end.

(** The integer part at the head of [s]: an optional minus sign, then
    either a single 0 or a run of digits that does not start with 0. *)
Definition match_int (s : pystr) : option (Z * pystr) :=
  let '(neg, r) := match s with 45 :: r => (true, r) | _ => (false, s) end in
  match r with
  | d :: r' =>
      if d =? 48 then Some (0, r')
      else if is_digit d then
        let '(n, rest) := span_digits r 0 in
        Some (if neg then - n else n, rest)
      else None
  | [] => None
  end.

Fixpoint starts_with (p s : pystr) : option pystr :=
  match p, s with
  | [], _ => Some s
  | a :: p', b :: s' => if a =? b then starts_with p' s' else None
  | _ :: _, [] => None
  end.

(** One value at the head of [s] and the input after it.  [fuel] bounds
    the number of nested calls; [loads] supplies enough of it for any
    input, so that running out stands for Python's own recursion limit. *)
Fixpoint scan_once (fuel : nat) (s : pystr) : outcome (pyval * pystr) :=
  match fuel with
  | O => Beyond
  | S f =>
      match s with
      | 34 :: r =>
          '(str, rest) ← scanstring (length r) r [];
          Ok (VStr str, rest)
      | 123 :: r =>
          match skip_ws r with
          | 125 :: rest => Ok (VDict [], rest)
          | r' => parse_object f r' []
          end
      | 91 :: r =>
          match skip_ws r with
          | 93 :: rest => Ok (VList [], rest)
          | r' => parse_array f r' []
          end
      | _ =>
          match starts_with (lit "null") s, starts_with (lit "true") s,
                starts_with (lit "false") s with
          | Some rest, _, _ => Ok (VNone, rest)
          | _, Some rest, _ => Ok (VBool true, rest)
          | _, _, Some rest => Ok (VBool false, rest)
          | None, None, None =>
              match starts_with (lit "NaN") s, starts_with (lit "Infinity") s,
                    starts_with (lit "-Infinity") s with
              | None, None, None =>
                  match match_int s with
                  | Some (n, rest) =>
                      if float_follows rest then Beyond else Ok (VInt n, rest)
                  | None => decode_error "Expecting value"
                  end
              | _, _, _ => Beyond
              end
          end
      end
  end
with parse_object (fuel : nat) (s : pystr) (acc : pydict)
  : outcome (pyval * pystr) :=
  match fuel with
  | O => Beyond
  | S f =>
      match s with
      | 34 :: r =>
          '(key, r1) ← scanstring (length r) r [];
          match skip_ws r1 with
          | 58 :: r2 =>
              '(v, r3) ← scan_once f (skip_ws r2);
              let acc' := dict_set acc key v in
              match skip_ws r3 with
              | 125 :: rest => Ok (VDict acc', rest)
              | 44 :: r4 => parse_object f (skip_ws r4) acc'
              | _ => decode_error "Expecting ',' delimiter"
              end
          | _ => decode_error "Expecting ':' delimiter"
          end
      | _ => decode_error "Expecting property name enclosed in double quotes"
      end
  end
with parse_array (fuel : nat) (s : pystr) (acc : list pyval)
  : outcome (pyval * pystr) :=
  match fuel with
  | O => Beyond
  | S f =>
      '(v, r1) ← scan_once f s;
      match skip_ws r1 with
      | 93 :: rest => Ok (VList (rev (v :: acc)), rest)
      | 44 :: r2 => parse_array f (skip_ws r2) (v :: acc)
      | _ => decode_error "Expecting ',' delimiter"
      end
  end.

(** [json.loads(s)] for a [str]. *)
Definition loads (s : pystr) : outcome pyval :=
  match s with
  | 0xFEFF :: _ => decode_error "Unexpected UTF-8 BOM (decode using utf-8-sig)"
  | _ =>
      '(v, rest) ← scan_once (2 * length s + 2) (skip_ws s);
      match skip_ws rest with
      | [] => Ok v
      | _ => decode_error "Extra data"
      end
  end.

End Json.

(* ===================================================================== *)
(** ** urllib.parse.quote_plus and unquote_plus *)
(* ===================================================================== *)

Module Url.

(** Letters, digits and [_.-~] are never quoted. *)
Definition always_safe (b : Z) : bool :=
  ((65 <=? b) && (b <=? 90)) || ((97 <=? b) && (b <=? 122))
  || ((48 <=? b) && (b <=? 57))
  || (b =? 95) || (b =? 46) || (b =? 45) || (b =? 126).

Definition quote_byte (b : Z) : pystr :=
  if always_safe b then [b]
  else if b =? 32 then [43]
  else [37; hex_digit true (Z.shiftr b 4); hex_digit true (Z.land b 0xF)].

(** [quote_plus(s)]: the UTF-8 octets of [s], each kept, turned into a
    plus sign (a space) or percent-encoded. *)
Definition quote_plus (s : pystr) : outcome pystr :=
  match Utf8.encode s with
  | Some b => Ok (concat (map quote_byte b))
  | None => raise "UnicodeEncodeError"
  end.

(** [unquote_to_bytes] on an ASCII run: a percent sign followed by two
    hexadecimal digits is one octet, any other character stands for
    itself. *)
Fixpoint unquote_to_bytes (s : pystr) : bytes :=
  match s with
  | [] => []
  | c :: r =>
      if c =? 37 then
        match r with
        | h :: l :: r' =>
            match hex_val h, hex_val l with
            | Some x, Some y => (16 * x + y) :: unquote_to_bytes r'
            | _, _ => c :: unquote_to_bytes r
            end
        | _ => c :: unquote_to_bytes r
        end
      else c :: unquote_to_bytes r
  end.

Definition unquote_run (rev_run : pystr) : pystr :=
  Utf8.decode_replace (unquote_to_bytes (rev rev_run)).

(** The string is cut into runs of ASCII characters, each percent-decoded
    and read as UTF-8 with replacement; the characters between the runs
    are kept.  [rev_run] is the run being collected, reversed. *)
Fixpoint unquote_runs (s : pystr) (rev_run : pystr) : pystr :=
  match s with
  | [] => unquote_run rev_run
  | c :: r =>
      if c <? 0x80 then unquote_runs r (c :: rev_run)
      else unquote_run rev_run ++ c :: unquote_runs r []
  end.

Definition unquote (s : pystr) : pystr :=
  if existsb (Z.eqb 37) s then unquote_runs s [] else s.

(** [unquote_plus(v)]: only a [str] has [replace]. *)
Definition unquote_plus (v : pyval) : outcome pystr :=
  match v with
  | VStr s => Ok (unquote (map (fun c => if c =? 43 then 32 else c) s))
  | _ => raise "AttributeError"
  end.

End Url.

(* ===================================================================== *)
(** ** Builtins used by the handlers *)
(* ===================================================================== *)

Module Builtins.

Definition is_space (c : Z) : bool := ((9 <=? c) && (c <=? 13)) || (c =? 32).

Fixpoint lstrip (s : pystr) : pystr :=
  match s with
  | c :: r => if is_space c then lstrip r else s
  | [] => []
  end.

Definition strip (s : pystr) : pystr := rev (lstrip (rev (lstrip s))).

(** Decimal digits, single underscores allowed between them. *)
Fixpoint int_digits (s : pystr) (acc : Z) (after_underscore : bool) : option Z :=
  match s with
  | [] => if after_underscore then None else Some acc
  | c :: r =>
      if Json.is_digit c then int_digits r (10 * acc + (c - 48)) false
      else if c =? 95 then
        if after_underscore then None else int_digits r acc true
      else None
  end.

Definition int_literal (s : pystr) : option Z :=
  let '(neg, r) :=
    match s with
    | 45 :: r => (true, r)
    | 43 :: r => (false, r)
    | _ => (false, s)
    end in
  match r with
  | c :: _ =>
      if Json.is_digit c
      then match int_digits r 0 false with
           | Some n => Some (if neg then - n else n)
           | None => None
           end
      else None
  | [] => None
  end.

(** [int(v)].  A string with a character outside ASCII may still be a
    number for Python (other decimal digits, other spaces): [Beyond]. *)
Definition int (v : pyval) : outcome Z :=
  match v with
  | VInt z | VDecimal z => Ok z
  | VBool b => Ok (if b then 1 else 0)
  | VStr s =>
      if forallb (fun c => c <? 0x80) s then
        match int_literal (strip s) with
        | Some n => Ok n
        | None => raise "ValueError"
        end
      else Beyond
  | VNone | VList _ | VDict _ => raise "TypeError"
  end.

(** [str(v)], as an f-string formats [v].  The [repr] of a container is
    not reproduced. *)
Definition str (v : pyval) : outcome pystr :=
  match v with
  | VStr s => Ok s
  | VInt z | VDecimal z => Ok (str_of_int z)
  | VBool b => Ok (lit (if b then "True" else "False"))
  | VNone => Ok (lit "None")
  | VList _ | VDict _ => Beyond
  end.

(** [v.encode('utf-8')]: only a [str] has the method, and a surrogate
    cannot be encoded. *)
Definition encode_utf8 (v : pyval) : outcome bytes :=
  match v with
  | VStr s =>
      match Utf8.encode s with
      | Some b => Ok b
      | None => raise "UnicodeEncodeError"
      end
  | _ => raise "AttributeError"
  end.

End Builtins.

(* ===================================================================== *)
(** ** The stores: a DynamoDB table pair and an S3 bucket *)
(* ===================================================================== *)

Module Aws.

Record s3_object := S3Object {
  Body : bytes;
  ContentType : pystr;
  ServerSideEncryption : pystr
}.

(** The calls a handler makes on the two services. *)
Inductive call :=
| GetItem (attr : pystr) (value : pyval)      (* metadata table, by key *)
| ScanFilterHash (h : pystr)                  (* scan, FilterExpression #h = :val *)
| ScanPage (limit : Z) (start : option pyval) (* scan, Limit and ExclusiveStartKey *)
| ScanHashes                                  (* scan, ProjectionExpression #h *)
| UpdateCounters (inc file_size : Z)          (* counters table, update_item *)
| GetCounters                                 (* counters table, get_item *)
| PutItem (item : pydict)
| PutObject (key : pystr) (body : bytes) (content_type : pyval)
| GeneratePresignedUrl (bucket key : pystr) (expires_in : Z).

(** The world a handler runs in.  The environment variables are set
    (the modules do not load otherwise).

    The metadata table has one partition key, a string attribute named
    [pk]; an item is kept as its key value and its other attributes, in
    scan order.  The counters table holds at most the one item the
    service uses.  [faults n] says whether the call number [n] fails in the
    service (throttling, timeout, missing permission); [log] lists the
    calls made, each with whether it returned. *)
Record world := World {
  pk : pystr;
  S3_BUCKET : pystr;
  faults : nat -> bool;
  uuids : nat -> pystr;
  utcnow : pystr;
  signer : pystr -> pystr -> Z -> pystr;
  table : list (pystr * pydict);
  counters : option pydict;
  bucket : gmap pystr s3_object;
  uuid_next : nat;
  log : list (call * bool)
}.

Definition with_table (t : list (pystr * pydict)) (w : world) : world :=
  World (pk w) (S3_BUCKET w) (faults w) (uuids w) (utcnow w) (signer w)
        t (counters w) (bucket w) (uuid_next w) (log w).

Definition with_counters (c : option pydict) (w : world) : world :=
  World (pk w) (S3_BUCKET w) (faults w) (uuids w) (utcnow w) (signer w)
        (table w) c (bucket w) (uuid_next w) (log w).

Definition with_bucket (b : gmap pystr s3_object) (w : world) : world :=
  World (pk w) (S3_BUCKET w) (faults w) (uuids w) (utcnow w) (signer w)
        (table w) (counters w) b (uuid_next w) (log w).

Definition with_uuid_next (n : nat) (w : world) : world :=
  World (pk w) (S3_BUCKET w) (faults w) (uuids w) (utcnow w) (signer w)
        (table w) (counters w) (bucket w) n (log w).

Definition with_log (l : list (call * bool)) (w : world) : world :=
  World (pk w) (S3_BUCKET w) (faults w) (uuids w) (utcnow w) (signer w)
        (table w) (counters w) (bucket w) (uuid_next w) l.

(** *** The monad of handlers: state and exceptions *)

Definition M (A : Type) : Type := world -> outcome A * world.

Definition ret {A} (a : A) : M A := fun w => (Ok a, w).

Definition bind {A B} (m : M A) (k : A -> M B) : M B :=
  fun w =>
    match m w with
    | (Ok a, w') => k a w'
    | (Raise e, w') => (Raise e, w')
    | (Beyond, w') => (Beyond, w')
    end.

(** A pure computation that may raise. *)
Definition lift {A} (o : outcome A) : M A := fun w => (o, w).

(** [try: m except Exception as e: h e] *)
Definition try_except {A} (m : M A) (h : exn -> M A) : M A :=
  fun w =>
    match m w with
    | (Raise e, w') => h e w'
    | r => r
    end.

End Aws.

Export Aws.

Declare Scope handler_scope.

Delimit Scope handler_scope with handler.

Notation "'do' x <- m ; k" := (bind m (fun x => k))
  (at level 10, x name, m at level 100, k at level 200) : handler_scope.

Notation "'do' ' p <- m ; k" := (bind m (fun x => let 'p := x in k))
  (at level 10, p pattern, m at level 100, k at level 200) : handler_scope.

Notation "'perform' m ; k" := (bind m (fun _ => k))
  (at level 10, m at level 100, k at level 200) : handler_scope.

Local Open Scope handler_scope.

Module Store.

(** A number written through the resource API is read back as a
    [Decimal]. *)
Fixpoint to_ddb (v : pyval) : pyval :=
  match v with
  | VInt z => VDecimal z
  | VList l => VList (map to_ddb l)
  | VDict d => VDict (map (fun kv => let '(k, x) := kv in (k, to_ddb x)) d)
  | _ => v
  end.

(** The item as a read returns it: the key attribute and the others. *)
Definition item_of (w : world) (row : pystr * pydict) : pydict :=
  (pk w, VStr (fst row)) :: snd row.

Definition find_row (k : pystr) (t : list (pystr * pydict)) : option (pystr * pydict) :=
  List.find (fun row => str_eqb (fst row) k) t.

(** A key value of the table: a non-empty string. *)
Definition key_value (v : pyval) : option pystr :=
  match v with
  | VStr [] => None
  | VStr s => Some s
  | _ => None
  end.

(** One call on a service: it is logged; it fails when the oracle says
    so, or when the service rejects the request, and then has no effect. *)
Definition service {A} (c : call) (effect : world -> outcome (A * world)) : M A :=
  fun w =>
    if faults w (length (log w))
    then (raise "ClientError", with_log (log w ++ [(c, false)]) w)
    else
      match effect w with
      | Ok (a, w') => (Ok a, with_log (log w ++ [(c, true)]) w')
      | Raise e => (Raise e, with_log (log w ++ [(c, false)]) w)
      | Beyond => (Beyond, w)
      end.

(** [dynamo.get_item(Key={attr: value}).get('Item')]: a key that does not
    match the schema of the table is rejected. *)
Definition get_item (attr : pystr) (value : pyval) : M (option pydict) :=
  service (GetItem attr value) (fun w =>
    if str_eqb attr (pk w) then
      match key_value value with
      | Some k => Ok (item_of w <$> find_row k (table w), w)
      | None => raise "ClientError"
      end
    else raise "ClientError").

(** [dynamo.scan(FilterExpression='#h = :val', ...)['Items']] *)
Definition scan_filter_hash (h : pystr) : M (list pydict) :=
  service (ScanFilterHash h) (fun w =>
    Ok (List.filter
          (fun it => match dict_get it (lit "hash") with
                     | Some (VStr x) => str_eqb x h
                     | _ => false
                     end)
          (map (item_of w) (table w)), w)).

(** The rows after the one with key [k]. *)
Fixpoint rows_after (k : pystr) (t : list (pystr * pydict))
  : option (list (pystr * pydict)) :=
  match t with
  | [] => None
  | row :: t' => if str_eqb (fst row) k then Some t' else rows_after k t'
  end.

Definition project (attrs : list pystr) (it : pydict) : pydict :=
  List.filter (fun kv => existsb (str_eqb (fst kv)) attrs) it.

(** [dynamo.scan(Limit=limit, ProjectionExpression=..., ExclusiveStartKey=start)]:
    the items of the page and the [LastEvaluatedKey], present when the
    page was cut by the limit.  The position of a start key that is not in
    the table is for the store to define: [Beyond]. *)
Definition scan_page (limit : Z) (start : option pyval) (attrs : list pystr)
  : M (list pydict * option pydict) :=
  service (ScanPage limit start) (fun w =>
    if limit <? 1 then raise "ParamValidationError"
    else
      rows ←
        match start with
        | None => Ok (table w)
        | Some (VDict [(a, v)]) =>
            if str_eqb a (pk w) then
              match key_value v with
              | Some k =>
                  match rows_after k (table w) with
                  | Some rows => Ok rows
                  | None => Beyond
                  end
              | None => raise "ClientError"
              end
            else raise "ClientError"
        | Some _ => raise "ClientError"
        end;
      let page := firstn (Z.to_nat limit) rows in
      let lek :=
        if (Z.of_nat (length page) =? limit)
        then (fun row => [(pk w, VStr (fst row))]) <$> last page
        else None in
      Ok ((map (fun row => project attrs (item_of w row)) page, lek), w)).

(** [dynamo_metadata.scan(ProjectionExpression='#h', ...)['Items']] *)
Definition scan_hashes : M (list pydict) :=
  service ScanHashes (fun w =>
    Ok (map (fun row => project [lit "hash"] (item_of w row)) (table w), w)).

(** The counter after [SET a = if_not_exists(a, :zero) + :delta]; the
    operand must be a number. *)
Definition incremented (item : pydict) (a : pystr) (delta : Z) : outcome pydict :=
  match dict_get item a with
  | None => Ok (dict_set item a (VDecimal (0 + delta)))
  | Some (VDecimal z) => Ok (dict_set item a (VDecimal (z + delta)))
  | Some _ => raise "ClientError"
  end.

(** [dynamo_counters.update_item(Key={'counter_id': 'deduplication_stats'}, ...)]:
    the item is created when it does not exist. *)
Definition update_counters (inc file_size : Z) : M unit :=
  service (UpdateCounters inc file_size) (fun w =>
    let item :=
      match counters w with
      | Some it => it
      | None => [(lit "counter_id", VStr (lit "deduplication_stats"))]
      end in
    it1 ← incremented item (lit "duplicates_avoided") inc;
    it2 ← incremented it1 (lit "total_s3_size_saved") file_size;
    Ok (tt, with_counters (Some it2) w)).

(** [dynamo_counters.get_item(Key={'counter_id': 'deduplication_stats'}).get('Item', {})] *)
Definition get_counters : M pydict :=
  service GetCounters (fun w => Ok (default [] (counters w), w)).

Definition remove_attr (a : pystr) (it : pydict) : pydict :=
  List.filter (fun kv => negb (str_eqb (fst kv) a)) it.

Fixpoint put_row (row : pystr * pydict) (t : list (pystr * pydict))
  : list (pystr * pydict) :=
  match t with
  | [] => [row]
  | r :: t' => if str_eqb (fst r) (fst row) then row :: t' else r :: put_row row t'
  end.

(** [dynamo.put_item(Item=item)]: the item replaces the one with its key,
    if any. *)
Definition put_item (item : pydict) : M unit :=
  service (PutItem item) (fun w =>
    match dict_get item (pk w) with
    | Some v =>
        match key_value v with
        | Some k =>
            let rest := map (fun kv => let '(a, x) := kv in (a, to_ddb x))
                            (remove_attr (pk w) item) in
            Ok (tt, with_table (put_row (k, rest) (table w)) w)
        | None => raise "ClientError"
        end
    | None => raise "ClientError"
    end).

(** [s3.put_object(Bucket=S3_BUCKET, Key=key, Body=body, ContentType=content_type,
    ServerSideEncryption='aws:kms')]: the content type must be a string. *)
Definition put_object (key : pystr) (body : bytes) (content_type : pyval) : M unit :=
  service (PutObject key body content_type) (fun w =>
    match content_type with
    | VStr ct =>
        Ok (tt, with_bucket (<[key := S3Object body ct (lit "aws:kms")]> (bucket w)) w)
    | _ => raise "ParamValidationError"
    end).

(** [s3.generate_presigned_url('get_object', Params={'Bucket': b, 'Key': key},
    ExpiresIn=ttl)]: the key must be a string. *)
Definition generate_presigned_url (b : pystr) (key : pyval) (ttl : Z) : M pystr :=
  match key with
  | VStr k => service (GeneratePresignedUrl b k ttl) (fun w => Ok (signer w b k ttl, w))
  | _ => lift (raise "ParamValidationError")
  end.

(** [str(uuid.uuid4())] *)
Definition uuid4 : M pystr :=
  fun w => (Ok (uuids w (uuid_next w)), with_uuid_next (S (uuid_next w)) w).

(** [datetime.utcnow().isoformat()] *)
Definition utcnow_isoformat : M pystr := fun w => (Ok (utcnow w), w).

Definition get_S3_BUCKET : M pystr := fun w => (Ok (S3_BUCKET w), w).

End Store.

Export Store.

(* ===================================================================== *)
(** ** The handlers *)
(* ===================================================================== *)

Module Lambda.

(** The dict a handler returns.  [body] is a JSON text; it is [None] for
    a text that embeds [str(e)], which is not reproduced. *)
Record response := Response {
  statusCode : Z;
  headers : option pydict;
  body : option pystr
}.

Definition json_headers : option pydict :=
  Some [(lit "Content-Type", VStr (lit "application/json"))].

(** [return {'statusCode': status, 'headers': hdrs, 'body': json.dumps(...)}] *)
Definition respond (status : Z) (hdrs : option pydict) (text : outcome pystr)
  : M response :=
  do b <- lift text; ret (Response status hdrs (Some b)).

(** The same, for a document that embeds [str(e)]. *)
Definition respond_with_message (status : Z) (hdrs : option pydict) (e : exn)
  : M response :=
  ret (Response status hdrs None).

Definition error_doc (msg : string) : outcome pystr :=
  Json.dumps (VDict [(lit "error", VStr (lit msg))]).

(** [try: x = m  except Exception as e: return h e] followed by [k x]. *)
Definition try_return {A B} (m : M A) (h : exn -> M B) (k : A -> M B) : M B :=
  fun w =>
    match m w with
    | (Ok a, w') => k a w'
    | (Raise e, w') => h e w'
    | (Beyond, w') => (Beyond, w')
    end.

(** [v.get(k)] and [v.get(k, dflt)] on an object: only a dict has [get]. *)
Definition get_method (v : pyval) (k : pystr) (dflt : pyval) : outcome pyval :=
  match v with
  | VDict d => Ok (dict_get_or d k dflt)
  | _ => raise "AttributeError"
  end.

(** [d[k]] *)
Definition subscript (d : pydict) (k : pystr) : outcome pyval :=
  match dict_get d k with
  | Some v => Ok v
  | None => raise "KeyError"
  end.

End Lambda.

Export Lambda.

Notation "'try' x <- m 'except' e => h ; k" := (try_return m (fun e => h) (fun x => k))
  (at level 10, x name, e name, m at level 100, h at level 100, k at level 200)
  : handler_scope.

(** *** upload_file/lambda_function.py *)

Module upload_file.

(** [json.dumps(obj, cls=DecimalEncoder)]: [default] turns an integral
    [Decimal] into an [int]. *)
Definition dumps_DecimalEncoder := Json.dumps_DecimalEncoder.

(** The duplicate check: [get_item] by hash, and a filtered scan when
    that raises. *)
Definition find_existing (file_hash : pystr) : M (option pydict) :=
  try_except
    (get_item (lit "hash") (VStr file_hash))
    (fun _ =>
       do existing_items <- scan_filter_hash file_hash;
       ret (match existing_items with it :: _ => Some it | [] => None end)).

(** [base64.b64decode(body)] or [body.encode('utf-8')] *)
Definition decode_body (is_base64_encoded body : pyval) : outcome bytes :=
  if truthy is_base64_encoded then Base64.b64decode body
  else Builtins.encode_utf8 body.

Definition lambda_handler (event : pyval) : M response :=
  try_except
    (match event with
     | VDict ev =>
         if negb (dict_has ev (lit "body")) then
           respond 400 json_headers (error_doc "No file content provided")
         else
           match dict_get ev (lit "headers") with
           | Some (VDict hdrs) =>
               let body := dict_get_or ev (lit "body") VNone in
               let is_base64_encoded :=
                 dict_get_or ev (lit "isBase64Encoded") (VBool false) in
               try file_bytes <- lift (decode_body is_base64_encoded body)
               except e => respond_with_message 400 json_headers e;
               do filename <-
                 (let f := dict_get_or hdrs (lit "filename") VNone in
                  if truthy f then ret f
                  else do u <- uuid4; ret (VStr (u ++ lit ".bin")));
               let content_type :=
                 dict_get_or hdrs (lit "content-type")
                   (VStr (lit "application/octet-stream")) in
               let file_size := Z.of_nat (length file_bytes) in
               let file_hash := Sha256.hexdigest file_bytes in
               do existing_item <- find_existing file_hash;
               match existing_item with
               | Some ((_ :: _) as item) =>
                   perform
                     try_except
                       (update_counters 1 file_size)
                       (fun _ => ret tt);
                   respond 409 json_headers (dumps_DecimalEncoder (VDict item))
               | _ =>
                   do name <- lift (Builtins.str filename);
                   let s3_key := lit "files/" ++ file_hash ++ lit "/" ++ name in
                   try _u <- put_object s3_key file_bytes content_type
                   except e => respond_with_message 500 json_headers e;
                   do file_id <- uuid4;
                   do created_at <- utcnow_isoformat;
                   do bucket_name <- get_S3_BUCKET;
                   let s3_url :=
                     lit "https://" ++ bucket_name ++ lit ".s3.amazonaws.com/"
                     ++ s3_key in
                   let metadata :=
                     [(lit "file_id", VStr file_id);
                      (lit "name", filename);
                      (lit "size", VInt file_size);
                      (lit "type", content_type);
                      (lit "hash", VStr file_hash);
                      (lit "created_at", VStr created_at);
                      (lit "s3_key", VStr s3_key);
                      (lit "download_url", VStr s3_url)] in
                   try _u <- put_item metadata
                   except e => respond_with_message 500 json_headers e;
                   respond 201 json_headers (Json.dumps (VDict metadata))
               end
           | _ => respond 400 json_headers (error_doc "Missing or invalid headers")
           end
     | _ => respond 400 json_headers (error_doc "Invalid event structure")
     end)
    (fun e => respond_with_message 500 json_headers e).

End upload_file.

(** *** get_hashes/lambda_function.py *)

Module get_hashes.

Fixpoint convert_decimals (obj : pyval) : pyval :=
  match obj with
  | VList l => VList (map convert_decimals l)
  | VDict d => VDict (map (fun kv => let '(k, v) := kv in (k, convert_decimals v)) d)
  | VDecimal z => VInt z
  | _ => obj
  end.

Definition alias_map : list (pystr * pystr) :=
  [(lit "#h", lit "hash"); (lit "#fi", lit "file_id"); (lit "#n", lit "name");
   (lit "#s", lit "size"); (lit "#t", lit "type"); (lit "#ca", lit "created_at");
   (lit "#sk", lit "s3_key"); (lit "#du", lit "download_url")].

(** The loop that copies the attributes present in [item], in the order
    of [alias_map.values()]. *)
Definition rename (item : pydict) : pydict :=
  fold_left
    (fun new_item attr =>
       match dict_get item attr with
       | Some v => dict_set new_item attr v
       | None => new_item
       end)
    (map snd alias_map) [].

(** [json.loads(unquote_plus(params['last_evaluated_key']))] *)
Definition decode_cursor (token : pyval) : outcome pyval :=
  s ← Url.unquote_plus token; Json.loads s.

(** [quote_plus(json.dumps(response['LastEvaluatedKey']))] *)
Definition encode_cursor (key : pydict) : outcome pystr :=
  s ← Json.dumps (VDict key); Url.quote_plus s.

Definition lambda_handler (event : pyval) : M response :=
  try_except
    (do qs <- lift (get_method event (lit "queryStringParameters") (VDict []));
     let params := if truthy qs then qs else VDict [] in
     do limit_arg <- lift (get_method params (lit "limit") (VInt 10));
     do limit <- lift (Builtins.int limit_arg);
     do last_evaluated_key <-
       lift (match params with
             | VDict p =>
                 match dict_get p (lit "last_evaluated_key") with
                 | Some token => decode_cursor token
                 | None => Ok VNone
                 end
             | _ => raise "TypeError"
             end);
     let start :=
       if truthy last_evaluated_key then Some last_evaluated_key else None in
     do '(items, lek) <- scan_page limit start (map snd alias_map);
     let renamed_items := map rename items in
     let result := [(lit "hashes", convert_decimals (VList (map VDict renamed_items)))] in
     do result <-
       match lek with
       | Some key =>
           do token <- lift (encode_cursor key);
           ret (dict_set result (lit "next_page")
                  (VStr (lit "?limit=" ++ str_of_int limit
                         ++ lit "&last_evaluated_key=" ++ token)))
       | None => ret result
       end;
     respond 200 json_headers (Json.dumps_indent 2 (VDict result)))
    (fun e => respond_with_message 500 json_headers e).

End get_hashes.

(** *** get_file/lambda_function.py *)

Module get_file.

(** The first statement stands before the [try]. *)
Definition lambda_handler (event : pyval) : M response :=
  do path_parameters <- lift (get_method event (lit "pathParameters") (VDict []));
  do file_id <- lift (get_method path_parameters (lit "id") VNone);
  if negb (truthy file_id) then
    respond 400 None (error_doc "File ID is required")
  else
    try_except
      (do resp <- get_item (lit "file_id") file_id;
       match resp with
       | None => respond 404 None (error_doc "File not found")
       | Some item =>
           do s3_key <- lift (subscript item (lit "s3_key"));
           do bucket_name <- get_S3_BUCKET;
           do url <- generate_presigned_url bucket_name s3_key 3600;
           do size <- lift (Builtins.int (dict_get_or item (lit "size") (VInt 0)));
           respond 200 json_headers
             (Json.dumps
                (VDict [(lit "download_url", VStr url);
                        (lit "filename",
                         dict_get_or item (lit "filename") (VStr (lit "file")));
                        (lit "size", VInt size)]))
       end)
      (fun e => respond_with_message 500 None e).

End get_file.

(** *** get_metadata/lambda_function.py *)

Module get_metadata.

Fixpoint replace_decimals (obj : pyval) : pyval :=
  match obj with
  | VDecimal z => VInt z
  | VDict d => VDict (map (fun kv => let '(k, v) := kv in (k, replace_decimals v)) d)
  | VList l => VList (map replace_decimals l)
  | _ => obj
  end.

Definition lambda_handler (event : pyval) : M response :=
  try_except
    (do path_parameters <- lift (get_method event (lit "pathParameters") (VDict []));
     do file_id <- lift (get_method path_parameters (lit "id") VNone);
     match file_id with
     | VNone => respond 400 json_headers (error_doc "File ID is required in the path")
     | _ =>
         do resp <- get_item (lit "file_id") file_id;
         match resp with
         | Some item =>
             let clean_item := replace_decimals (VDict item) in
             respond 200 json_headers (Json.dumps clean_item)
         | None => respond 404 json_headers (error_doc "File not found")
         end
     end)
    (fun _ => respond 500 json_headers (error_doc "Internal server error")).

End get_metadata.

(** *** get_stats/lambda_function.py *)

Module get_stats.

Definition convert_decimals := get_hashes.convert_decimals.

(** [len({item['hash'] for item in items})].  Python's equality between
    values that are not strings is not reproduced. *)
Fixpoint hash_values (items : list pydict) : outcome (list pystr) :=
  match items with
  | [] => Ok []
  | item :: r =>
      v ← subscript item (lit "hash");
      match v with
      | VStr h => hs ← hash_values r; Ok (h :: hs)
      | _ => Beyond
      end
  end.

Definition get_unique_file_count : M Z :=
  do items <- scan_hashes;
  do hs <- lift (hash_values items);
  ret (Z.of_nat (length (remove_dups hs))).

Definition get_deduplication_stats : M (pyval * pyval) :=
  do item <- get_counters;
  match convert_decimals (VDict item) with
  | VDict counters =>
      ret (dict_get_or counters (lit "duplicates_avoided") (VInt 0),
           dict_get_or counters (lit "total_s3_size_saved") (VInt 0))
  | _ => lift (raise "AttributeError")
  end.

Definition lambda_handler (event : pyval) : M response :=
  try_except
    (do total_files <- get_unique_file_count;
     do '(duplicates_avoided, total_s3_size_saved) <- get_deduplication_stats;
     respond 200 json_headers
       (Json.dumps
          (VDict [(lit "total_files", VInt total_files);
                  (lit "duplicates_avoided", duplicates_avoided);
                  (lit "total_s3_size_saved", total_s3_size_saved)])))
    (fun _ => respond 500 json_headers (error_doc "Internal server error")).

End get_stats.

(* ===================================================================== *)
(** * Properties: definitions *)
(* ===================================================================== *)

Local Open Scope handler_scope.

(** The new entries of the log after a run started in [w]. *)
Definition calls_since (w w' : world) : list (call * bool) :=
  skipn (length (log w)) (log w').

(** The value a run returned, when it returned one. *)
Definition returned {A} (r : outcome A * world) : option A :=
  match fst r with Ok a => Some a | _ => None end.

(* ===================================================================== *)
(** ** Handlers whose body stands in a [try] *)
(* ===================================================================== *)

(** The metadata item the upload handler writes, as a record. *)
Record FileRecord := {
  file_id : pystr;
  name : pystr;
  size : Z;
  type : pystr;
  hash : pystr;
  created_at : pystr;
  s3_key : pystr;
  download_url : pystr
}.

(** Its row in a table keyed by [file_id]. *)
Definition row_by_id (r : FileRecord) : pystr * pydict :=
  (file_id r,
   [(lit "name", VStr (name r)); (lit "size", VDecimal (size r));
    (lit "type", VStr (type r)); (lit "hash", VStr (hash r));
    (lit "created_at", VStr (created_at r)); (lit "s3_key", VStr (s3_key r));
    (lit "download_url", VStr (download_url r))]).

(* ===================================================================== *)
(** ** Runs of the handlers *)
(* ===================================================================== *)

(** [post m w Q]: the run of [m] from [w] ends in an outcome and a world
    that satisfy [Q]. *)
Definition post {A} (m : M A) (w : world) (Q : outcome A -> world -> Prop) : Prop :=
  Q (fst (m w)) (snd (m w)).

(** The world with one more entry in its log. *)
Definition logged (c : call) (ok : bool) (w : world) : world :=
  with_log (log w ++ [(c, ok)]) w.

(** The counters item an update starts from: the stored one, or the
    key alone. *)
Definition counters_item (w : world) : pydict :=
  match counters w with
  | Some it => it
  | None => [(lit "counter_id", VStr (lit "deduplication_stats"))]
  end.

(** The record the duplicate check finds for a hash: the first item, in
    scan order, whose [hash] attribute is that string. *)
Definition hash_is (h : pystr) (it : pydict) : bool :=
  match dict_get it (lit "hash") with
  | Some (VStr x) => str_eqb x h
  | _ => false
  end.

(** A row as an item of a table whose key attribute is [key]. *)
Definition row_item (key : pystr) (row : pystr * pydict) : pydict :=
  (key, VStr (fst row)) :: snd row.

Definition stored_record_of (key : pystr) (t : list (pystr * pydict)) (h : pystr)
  : option pydict :=
  head (List.filter (hash_is h) (map (row_item key) t)).

Definition stored_record (w : world) (h : pystr) : option pydict :=
  stored_record_of (pk w) (table w) h.

(** The text of [json.dumps({'error': msg})]. *)
Definition error_text (msg : string) : pystr :=
  [123] ++ Json.encode_basestring_ascii (lit "error") ++ lit ": "
  ++ Json.encode_basestring_ascii (lit msg) ++ [125].

(* ===================================================================== *)
(** ** The counters never decrease (C4) *)
(* ===================================================================== *)

(** The number a counter attribute holds; an absent one counts as 0. *)
Definition number_at (item : pydict) (a : pystr) : Z :=
  match dict_get item a with Some (VDecimal z) => z | _ => 0 end.

(** The value of a counter in a world; 0 before the item exists. *)
Definition counter_value (w : world) (a : pystr) : Z :=
  match counters w with
  | Some item => number_at item a
  | None => 0
  end.




(** A run that reads only: the stores are as before. *)
Definition same_stores (w w' : world) : Prop :=
  table w' = table w /\ counters w' = counters w /\ bucket w' = bucket w.

(* ===================================================================== *)
(** ** A sample world and sample events *)
(* ===================================================================== *)

Module Scenario.

(** A store of its own: empty tables and bucket, no failing call. *)
Definition fresh (key : string) : world :=
  World (lit key) (lit "bucket") (fun _ => false)
    (fun n => lit "uuid-" ++ str_of_int (Z.of_nat n)) (lit "2024-01-01T00:00:00")
    (fun b k ttl => lit "https://" ++ b ++ lit "/" ++ k ++ lit "?X-Amz-Expires="
                    ++ str_of_int ttl)
    [] None ∅ 0%nat [].

(** An upload of [body] as text, under the name [name]. *)
Definition text_upload (body name : string) : pyval :=
  VDict [(lit "body", VStr (lit body));
         (lit "headers", VDict [(lit "filename", VStr (lit name));
                                (lit "content-type", VStr (lit "text/plain"))]);
         (lit "isBase64Encoded", VBool false)].

Definition hello_a : pyval := text_upload "hello" "a.txt".
Definition hello_b : pyval := text_upload "hello" "b.txt".

(** A decodable body, no headers. *)
Definition no_headers : pyval := VDict [(lit "body", VStr (lit "hello"))].

Definition by_id (id : pyval) : pyval :=
  VDict [(lit "pathParameters", VDict [(lit "id", id)])].

Definition null_path_parameters : pyval := VDict [(lit "pathParameters", VNone)].

Definition page_request (limit : pyval) : pyval :=
  VDict [(lit "queryStringParameters", VDict [(lit "limit", limit)])].

(** The world after [hello_a] was uploaded to a fresh store. *)
Definition after_hello (key : string) : world :=
  snd (upload_file.lambda_handler hello_a (fresh key)).

End Scenario.

(* ===================================================================== *)
(** ** The order of the store calls of an upload (C1) *)
(* ===================================================================== *)

(** Kinds of log entries: a duplicate check that returned, a blob write
    (attempted, or done), a metadata put (attempted, or done). *)
Definition is_lookup_ok (x : call * bool) : bool :=
  match x with
  | (GetItem _ _, ok) | (ScanFilterHash _, ok) => ok
  | _ => false
  end.

Definition is_blob_write (x : call * bool) : bool :=
  match x with (PutObject _ _ _, _) => true | _ => false end.

Definition is_blob_write_ok (x : call * bool) : bool :=
  match x with (PutObject _ _ _, ok) => ok | _ => false end.

Definition is_metadata_put (x : call * bool) : bool :=
  match x with (PutItem _, _) => true | _ => false end.

Definition is_metadata_put_ok (x : call * bool) : bool :=
  match x with (PutItem _, ok) => ok | _ => false end.

(** Every entry of [t] that satisfies [q] comes after one that satisfies
    [p]. *)
Definition preceded (p q : call * bool -> bool) (t : list (call * bool)) : Prop :=
  forall pre x post, t = pre ++ x :: post -> q x = true ->
    exists y, In y pre /\ p y = true.

(** The same, as a check along the log; [seen] records that an entry
    satisfying [p] was met. *)
Fixpoint precededb (p q : call * bool -> bool) (seen : bool) (t : list (call * bool))
  : bool :=
  match t with
  | [] => true
  | x :: r => (negb (q x) || seen) && precededb p q (seen || p x) r
  end.

(** The call order every upload keeps: a lookup that returned, then the
    blob, then the metadata. *)
Definition upload_order (t : list (call * bool)) : bool :=
  precededb is_blob_write_ok is_metadata_put false t
  && precededb is_lookup_ok is_blob_write false t.

(* ===================================================================== *)
(** ** Rejected uploads (C3) *)
(* ===================================================================== *)

(** What the specification calls an invalid payload: no body, or a body
    that the declared transfer encoding cannot decode. *)
Definition payload_missing_or_undecodable (event : pyval) : Prop :=
  match event with
  | VDict ev =>
      dict_has ev (lit "body") = false
      \/ exists e,
           upload_file.decode_body
             (dict_get_or ev (lit "isBase64Encoded") (VBool false))
             (dict_get_or ev (lit "body") VNone) = Raise e
  | _ => True
  end.

(** What the handler rejects: an event that is not a dict, has no body,
    has no headers dict, or whose body cannot be decoded. *)
Definition invalid_event (event : pyval) : Prop :=
  match event with
  | VDict ev =>
      dict_has ev (lit "body") = false
      \/ (forall hdrs, dict_get ev (lit "headers") <> Some (VDict hdrs))
      \/ exists e,
           upload_file.decode_body
             (dict_get_or ev (lit "isBase64Encoded") (VBool false))
             (dict_get_or ev (lit "body") VNone) = Raise e
  | _ => True
  end.

(* ===================================================================== *)
(** ** The fingerprint depends on the bytes alone (C6) *)
(* ===================================================================== *)

(** The payload of an event the handler accepts. *)
Definition accepted_payload (event : pyval) : option bytes :=
  match event with
  | VDict ev =>
      if dict_has ev (lit "body") then
        match dict_get ev (lit "headers") with
        | Some (VDict _) =>
            match upload_file.decode_body
                    (dict_get_or ev (lit "isBase64Encoded") (VBool false))
                    (dict_get_or ev (lit "body") VNone) with
            | Ok b => Some b
            | _ => None
            end
        | _ => None
        end
      else None
  | _ => None
  end.

(** The hash a run looked up: the key of its first store call. *)
Definition content_hash_of_run (w w' : world) : option pystr :=
  match calls_since w w' with
  | (GetItem _ (VStr h), _) :: _ => Some h
  | _ => None
  end.

(* ===================================================================== *)
(** ** The duplicate path (C2) *)
(* ===================================================================== *)

(** Induction on Python values, through the lists they nest. *)
Section pyval_induction.
Variable P : pyval -> Prop.
Hypothesis HNone : P VNone.
Hypothesis HBool : forall b, P (VBool b).
Hypothesis HInt : forall z, P (VInt z).
Hypothesis HDecimal : forall z, P (VDecimal z).
Hypothesis HStr : forall s, P (VStr s).
Hypothesis HList : forall l, Forall P l -> P (VList l).
Hypothesis HDict : forall d, Forall (fun kv => P (snd kv)) d -> P (VDict d).

Fixpoint pyval_nested_ind (v : pyval) : P v :=
  match v with
  | VNone => HNone
  | VBool b => HBool b
  | VInt z => HInt z
  | VDecimal z => HDecimal z
  | VStr s => HStr s
  | VList l =>
      HList l
        ((fix go (l : list pyval) : Forall P l :=
            match l with
            | [] => @List.Forall_nil _ P
            | x :: r => @List.Forall_cons _ P x r (pyval_nested_ind x) (go r)
            end) l)
  | VDict d =>
      HDict d
        ((fix go (d : list (pystr * pyval)) : Forall (fun kv => P (snd kv)) d :=
            match d with
            | [] => @List.Forall_nil _ _
            | kv :: r =>
                @List.Forall_cons _ (fun kv => P (snd kv)) kv r (pyval_nested_ind (snd kv)) (go r)
            end) d)
  end.
End pyval_induction.

(** The serialization of the items of a list and of the members of a
    dict, as [dumps_at] computes them. *)
Fixpoint dumps_items (f : pyval -> outcome pystr) (l : list pyval)
  : outcome (list pystr) :=
  match l with
  | [] => Ok []
  | x :: r => p ← f x; ps ← dumps_items f r; Ok (p :: ps)
  end.

Fixpoint dumps_members (f : pyval -> outcome pystr) (d : list (pystr * pyval))
  : outcome (list pystr) :=
  match d with
  | [] => Ok []
  | (k, x) :: r =>
      p ← f x; ps ← dumps_members f r;
      Ok ((Json.encode_basestring_ascii k ++ lit ": " ++ p) :: ps)
  end.

(** A write to the bucket or to the metadata table, attempted or done. *)
Definition is_write (x : call * bool) : bool := is_blob_write x || is_metadata_put x.



(* ===================================================================== *)
(** ** Uploads sent as text (C10) *)
(* ===================================================================== *)



(** An attribute as the table stores it. *)
Definition to_ddb_attr (kv : pystr * pyval) : pystr * pyval :=
  let '(a, x) := kv in (a, to_ddb x).


(* ===================================================================== *)
(** ** Lookups by file id (C7) *)
(* ===================================================================== *)

(** The record as get_metadata returns it. *)
Definition record_dict (r : FileRecord) : pydict :=
  [(lit "file_id", VStr (file_id r)); (lit "name", VStr (name r));
   (lit "size", VInt (size r)); (lit "type", VStr (type r));
   (lit "hash", VStr (hash r)); (lit "created_at", VStr (created_at r));
   (lit "s3_key", VStr (s3_key r)); (lit "download_url", VStr (download_url r))].





(** The world after [hello_a], keyed by file id, holds the record. *)
Definition hello_file : FileRecord :=
  {| file_id := lit "uuid-0"; name := lit "a.txt"; size := 5; type := lit "text/plain";
     hash := Sha256.hexdigest (lit "hello");
     created_at := lit "2024-01-01T00:00:00";
     s3_key := lit "files/" ++ Sha256.hexdigest (lit "hello") ++ lit "/a.txt";
     download_url := lit "https://bucket.s3.amazonaws.com/files/"
                     ++ Sha256.hexdigest (lit "hello") ++ lit "/a.txt" |}.

(* ===================================================================== *)
(** ** The page size of a listing (C8) *)
(* ===================================================================== *)

(** The limits of the pages a run asked the store for. *)
Definition page_limits (t : list (call * bool)) : list Z :=
  omap (fun x => match fst x with ScanPage limit _ => Some limit | _ => None end) t.

(** Those of a listing request. *)
Definition requested_limits (ev : pyval) (w : world) : list Z :=
  page_limits (calls_since w (snd (get_hashes.lambda_handler ev w))).

(** The [limit] query parameter of an event, when it has one. *)
Definition supplied_limit (event : pyval) : option pyval :=
  match event with
  | VDict ev =>
      match dict_get ev (lit "queryStringParameters") with
      | Some (VDict params) => dict_get params (lit "limit")
      | _ => None
      end
  | _ => None
  end.

(** Every page of [t] was asked with the limit of the event, read as an
    integer, or with 10. *)
Definition limits_from (ev : pyval) (t : list (call * bool)) : Prop :=
  Forall (fun n => Builtins.int (default (VInt 10) (supplied_limit ev)) = Ok n)
         (page_limits t).

(* ===================================================================== *)
(** ** The cursor of a listing (C5) *)
(* ===================================================================== *)

(** A resume key whose attributes hold strings. *)
Definition string_key (k : list (pystr * pystr)) : pydict :=
  map (fun av => (fst av, VStr (snd av))) k.

(** Text that the store can hold: scalar values only. *)
Definition is_text (s : pystr) : Prop := Forall scalar s.

(** The characters of a token: unreserved ones, the plus and the percent
    sign. *)
Definition url_char (c : Z) : bool := Url.always_safe c || (c =? 43) || (c =? 37).

(** The characters [json.dumps] writes: space to tilde. *)
Definition printable (c : Z) : Prop := 32 <= c <= 126.

(** The surrogate pair that stands for a code point above the BMP. *)
Definition high_half (c : Z) : Z :=
  Z.lor 0xD800 (Z.land (Z.shiftr (c - 0x10000) 10) 0x3FF).

Definition low_half (c : Z) : Z :=
  Z.lor 0xDC00 (Z.land (c - 0x10000) 0x3FF).

(** One member of the object, as [dumps] writes it. *)
Definition member (av : pystr * pystr) : pystr :=
  Json.encode_basestring_ascii (fst av) ++ lit ": " ++ Json.encode_basestring_ascii (snd av).

(** A key whose attribute names and values are text. *)
Definition texts (k : list (pystr * pystr)) : Prop :=
  Forall (fun av => is_text (fst av) /\ is_text (snd av)) k.

(** The dict the parser builds: each member set in turn. *)
Definition set_all (k : list (pystr * pystr)) (acc : pydict) : pydict :=
  fold_left (fun d av => dict_set d (fst av) (VStr (snd av))) k acc.

(** [s.replace('+', ' ')], one character. *)
Definition plus_to_space (c : Z) : Z := if c =? 43 then 32 else c.

(** A character of an ASCII run. *)
Definition seven_bit (c : Z) : Prop := c < 0x80.

(* ===================================================================== *)
(** ** What an upload keeps true of the stores *)
(* ===================================================================== *)

(** The content hash a row carries, when it carries one. *)
Definition row_hash (key : pystr) (row : pystr * pydict) : option pystr :=
  match dict_get (row_item key row) (lit "hash") with
  | Some (VStr h) => Some h
  | _ => None
  end.

(** The content hashes of the records of the table, in scan order. *)
Definition stored_hashes (w : world) : list pystr :=
  omap (row_hash (pk w)) (table w).


(** What an upload does to the table: nothing, or one put of a row whose
    hash no record carried. *)
Definition table_step (w w' : world) : Prop :=
  pk w' = pk w
  /\ (table w' = table w
      \/ exists row h,
           table w' = put_row row (table w)
           /\ hash_is h (row_item (pk w) row) = true
           /\ stored_record_of (pk w) (table w) h = None).

(** The key of the blob a row points to, when it names one. *)
Definition row_s3_key (key : pystr) (row : pystr * pydict) : option pystr :=
  match dict_get (row_item key row) (lit "s3_key") with
  | Some (VStr k) => Some k
  | _ => None
  end.

(** The blob a row points to is in the bucket. *)
Definition backed (key : pystr) (b : gmap pystr s3_object) (row : pystr * pydict) : Prop :=
  match row_s3_key key row with
  | Some k => is_Some (b !! k)
  | None => True
  end.

(** Every record that names a blob names one the bucket holds. *)
Definition records_backed (w : world) : Prop :=
  Forall (backed (pk w) (bucket w)) (table w).

(** What an upload does to the bucket and the table together: it may
    store one blob, and may then put one row, which points to it. *)
Definition stores_step (w w' : world) : Prop :=
  pk w' = pk w
  /\ ((bucket w' = bucket w /\ table w' = table w)
      \/ exists k o,
           bucket w' = <[k := o]> (bucket w)
           /\ (table w' = table w
               \/ exists row, table w' = put_row row (table w)
                              /\ row_s3_key (pk w) row = Some k)).

(* ===================================================================== *)
(** ** The new-file path of an upload *)
(* ===================================================================== *)

(** An upload event that carries the bytes [b] under the name [fname],
    a non-empty string, with the content type [ct], given or defaulted. *)
Definition named_upload (event : pyval) (b : bytes) (fname ct : pystr) : Prop :=
  exists ev hdrs,
    event = VDict ev
    /\ dict_has ev (lit "body") = true
    /\ dict_get ev (lit "headers") = Some (VDict hdrs)
    /\ upload_file.decode_body
         (dict_get_or ev (lit "isBase64Encoded") (VBool false))
         (dict_get_or ev (lit "body") VNone) = Ok b
    /\ dict_get hdrs (lit "filename") = Some (VStr fname)
    /\ fname <> []
    /\ dict_get_or hdrs (lit "content-type") (VStr (lit "application/octet-stream"))
       = VStr ct.

(** The record the handler builds for it in the world [w]. *)
Definition new_record (w : world) (b : bytes) (fname ct : pystr) : FileRecord :=
  let h := Sha256.hexdigest b in
  let key := lit "files/" ++ h ++ lit "/" ++ fname in
  {| file_id := uuids w (uuid_next w);
     name := fname;
     size := Z.of_nat (length b);
     type := ct;
     hash := h;
     created_at := utcnow w;
     s3_key := key;
     download_url := lit "https://" ++ S3_BUCKET w ++ lit ".s3.amazonaws.com/" ++ key |}.

(** The run that creates the record [r] for the bytes [b]: answered 201
    with the record; the blob stored under the key of the record,
    encrypted with KMS; the row put; the counters untouched. *)
Definition created_outcome (ev : pyval) (w : world) (b : bytes) (r : FileRecord) : Prop :=
  let w' := snd (upload_file.lambda_handler ev w) in
  exists text,
    fst (upload_file.lambda_handler ev w) = Ok (Response 201 json_headers (Some text))
    /\ Json.dumps (VDict (record_dict r)) = Ok text
    /\ bucket w' = <[s3_key r := S3Object b (type r) (lit "aws:kms")]> (bucket w)
    /\ table w' = put_row (row_by_id r) (table w)
    /\ counters w' = counters w.

(** The world a created upload leaves, for the runs that follow. *)
Definition created_world (w w' : world) (b : bytes) (r : FileRecord) : Prop :=
  pk w' = pk w /\ faults w' = faults w /\ S3_BUCKET w' = S3_BUCKET w
  /\ signer w' = signer w
  /\ bucket w' = <[s3_key r := S3Object b (type r) (lit "aws:kms")]> (bucket w)
  /\ table w' = put_row (row_by_id r) (table w)
  /\ counters w' = counters w.


(* ===================================================================== *)
(** ** Writes that fail during an upload *)
(* ===================================================================== *)

(** The run was answered with the status [s]. *)
Definition answered (s : Z) (o : outcome response) : Prop :=
  match o with Ok r => statusCode r = s | _ => False end.

(** A blob write that failed: the answer is 500 and the stores are as
    they were. *)
Definition blob_failure (w w' : world) (o : outcome response) : Prop :=
  forall k b ct, In (PutObject k b ct, false) (calls_since w w') ->
    answered 500 o /\ same_stores w w'.

(** A metadata put that failed: the answer is 500, the table and the
    counters are as they were, and the bucket holds the blob the item
    points to, whose bytes have the hash of the item. *)
Definition orphaned_blob (w w' : world) (o : outcome response) : Prop :=
  forall item, In (PutItem item, false) (calls_since w w') ->
    answered 500 o
    /\ table w' = table w
    /\ counters w' = counters w
    /\ exists k b ct,
         dict_get item (lit "s3_key") = Some (VStr k)
         /\ dict_get item (lit "hash") = Some (VStr (Sha256.hexdigest b))
         /\ bucket w' = <[k := S3Object b ct (lit "aws:kms")]> (bucket w).

(** The world [w], with the call number [n] of its log failing. *)
Definition failing_at (n : nat) (w : world) : world :=
  World (pk w) (S3_BUCKET w) (fun i => Nat.eqb i n) (uuids w) (utcnow w) (signer w)
        (table w) (counters w) (bucket w) (uuid_next w) (log w).

(* ===================================================================== *)
(** ** Uploads without a name *)
(* ===================================================================== *)

(** An accepted upload of the bytes [b] whose headers give no file
    name, or an empty one, and no content type. *)
Definition bare_upload (event : pyval) (b : bytes) : Prop :=
  exists ev hdrs,
    event = VDict ev
    /\ dict_has ev (lit "body") = true
    /\ dict_get ev (lit "headers") = Some (VDict hdrs)
    /\ upload_file.decode_body
         (dict_get_or ev (lit "isBase64Encoded") (VBool false))
         (dict_get_or ev (lit "body") VNone) = Ok b
    /\ truthy (dict_get_or hdrs (lit "filename") VNone) = false
    /\ dict_get hdrs (lit "content-type") = None.

(** What the writes of such an upload carry: a name made of the next
    identifier, the default content type, and the identifier after it as
    the id of the record. *)
Definition default_named (w : world) (b : bytes) (x : call * bool) : Prop :=
  let generated := uuids w (uuid_next w) ++ lit ".bin" in
  match fst x with
  | PutObject k _ ct =>
      k = lit "files/" ++ Sha256.hexdigest b ++ lit "/" ++ generated
      /\ ct = VStr (lit "application/octet-stream")
  | PutItem item =>
      dict_get item (lit "name") = Some (VStr generated)
      /\ dict_get item (lit "type") = Some (VStr (lit "application/octet-stream"))
      /\ dict_get item (lit "file_id") = Some (VStr (uuids w (S (uuid_next w))))
  | _ => True
  end.

(* ===================================================================== *)
(** ** The attributes of a listed record *)
(* ===================================================================== *)

(** One step of the loop of [rename]. *)
Definition pick (item new_item : pydict) (attr : pystr) : pydict :=
  match dict_get item attr with
  | Some v => dict_set new_item attr v
  | None => new_item
  end.

(* ===================================================================== *)
(** ** Lookups without an id *)
(* ===================================================================== *)

(** An event that gives no id: no path parameters, or path parameters
    without an [id], or with a null one. *)
Definition no_id (event : pyval) : Prop :=
  exists ev,
    event = VDict ev
    /\ (dict_get ev (lit "pathParameters") = None
        \/ exists pp,
             dict_get ev (lit "pathParameters") = Some (VDict pp)
             /\ (dict_get pp (lit "id") = None \/ dict_get pp (lit "id") = Some VNone)).

(* ===================================================================== *)
(** ** Listing requests that cannot be read *)
(* ===================================================================== *)

(** The query parameters of a listing request, as the handler takes
    them: a missing, null or empty object counts as no parameter. *)
Definition query_parameters (event : pyval) (params : pydict) : Prop :=
  exists ev,
    event = VDict ev
    /\ let qs := dict_get_or ev (lit "queryStringParameters") (VDict []) in
       (if truthy qs then qs else VDict []) = VDict params.

(** The limit or the cursor of the request cannot be read: the limit is
    not an integer, or the cursor is not the quoted JSON text of a
    value. *)
Definition unreadable (params : pydict) : Prop :=
  (exists e, Builtins.int (dict_get_or params (lit "limit") (VInt 10)) = Raise e)
  \/ (exists n token e,
        Builtins.int (dict_get_or params (lit "limit") (VInt 10)) = Ok n
        /\ dict_get params (lit "last_evaluated_key") = Some token
        /\ get_hashes.decode_cursor token = Raise e).

(* ===================================================================== *)
(** ** The statistics *)
(* ===================================================================== *)

(** Every record carries a content hash. *)
Definition all_hashed (w : world) : Prop :=
  Forall (fun row => is_Some (row_hash (pk w) row)) (table w).

(** The two counters are numbers, where the item holds them. *)
Definition numeric (item : pydict) (a : pystr) : Prop :=
  dict_get item a = None \/ exists z, dict_get item a = Some (VDecimal z).

Definition counters_numeric (w : world) : Prop :=
  match counters w with
  | Some item =>
      numeric item (lit "duplicates_avoided") /\ numeric item (lit "total_s3_size_saved")
  | None => True
  end.


(** What an upload does to the counters item: nothing, or the two
    increments of the duplicate path. *)
Definition counters_update (w w' : world) : Prop :=
  counters w' = counters w
  \/ exists inc n it1 it2,
       incremented (counters_item w) (lit "duplicates_avoided") inc = Ok it1
       /\ incremented it1 (lit "total_s3_size_saved") n = Ok it2
       /\ counters w' = Some it2.

(* ===================================================================== *)
(** ** The pages of a listing *)
(* ===================================================================== *)






(* ===================================================================== *)
(** ** What the answer of an upload tells of the stores *)
(* ===================================================================== *)





(** The number of distinct content hashes of the table: what get_stats
    reports as [total_files]. *)
Definition total_files (w : world) : Z :=
  Z.of_nat (length (remove_dups (stored_hashes w))).


(* ===================================================================== *)
(** ** The blobs of the records *)
(* ===================================================================== *)

(** The key under which a blob with the hash [h] and the name [fname] is
    stored. *)
Definition blob_key (h fname : pystr) : pystr :=
  lit "files/" ++ h ++ lit "/" ++ fname.

(** The blob a row points to is in the bucket under a key made of the
    hash of the row, and its bytes have that hash. *)
Definition intact (key : pystr) (b : gmap pystr s3_object) (row : pystr * pydict)
  : Prop :=
  match row_s3_key key row, row_hash key row with
  | Some k, Some h =>
      exists fname blob,
        k = blob_key h fname
        /\ b !! k = Some blob
        /\ Sha256.hexdigest (Body blob) = h
  | _, _ => True
  end.

Definition records_intact (w : world) : Prop :=
  Forall (intact (pk w) (bucket w)) (table w).

(** What an upload does to the bucket and the table: it may store one
    blob under the key made of the hash of its bytes, and may then put
    one row, which points to it and carries that hash. *)
Definition blob_step (w w' : world) : Prop :=
  pk w' = pk w
  /\ ((bucket w' = bucket w /\ table w' = table w)
      \/ exists fname blob,
           bucket w'
           = <[blob_key (Sha256.hexdigest (Body blob)) fname := blob]> (bucket w)
           /\ (table w' = table w
               \/ exists row,
                    table w' = put_row row (table w)
                    /\ row_s3_key (pk w) row
                       = Some (blob_key (Sha256.hexdigest (Body blob)) fname)
                    /\ row_hash (pk w) row = Some (Sha256.hexdigest (Body blob)))).

(* ===================================================================== *)
(** ** Reads and counter updates that fail *)
(* ===================================================================== *)


(** A duplicate check whose fallback scan failed: the answer is 500, the
    stores are as they were, and no write was attempted. *)
Definition check_failure (w w' : world) (o : outcome response) : Prop :=
  forall h, In (ScanFilterHash h, false) (calls_since w w') ->
    answered 500 o
    /\ same_stores w w'
    /\ forallb (fun x => negb (is_write x)) (calls_since w w') = true.

(** A call that failed during the run: the answer is 500. *)
Definition failure_answered (w w' : world) (o : outcome response) : Prop :=
  forall c, In (c, false) (calls_since w w') -> answered 500 o.

(** The handler answers 500 whenever one of its calls failed. *)
Definition server_error_on_failure (handler : pyval -> M response) (ev : pyval)
    (w : world) : Prop :=
  failure_answered w (snd (handler ev w)) (fst (handler ev w)).

(* ===================================================================== *)
(** ** A cursor that reads as an empty value *)
(* ===================================================================== *)

(** The parameters carry a cursor that reads as a value Python takes for
    false: [null], [0], an empty string, list or object. *)
Definition empty_cursor (params : pydict) : Prop :=
  exists token v,
    dict_get params (lit "last_evaluated_key") = Some token
    /\ get_hashes.decode_cursor token = Ok v
    /\ truthy v = false.

(* ===================================================================== *)
(** ** A record that names no blob *)
(* ===================================================================== *)



(* ===================================================================== *)
(** * Samples of the runtime model *)
(* ===================================================================== *)

(** The functions of the runtime model on inputs for which the results
    of CPython 3.11 are known. *)

Module Sha256_samples.
Import Sha256.

Example hexdigest_hello :
  hexdigest (lit "hello")
  = lit "2cf24dba5fb0a30e26e83b2ac5b9e29e1b161e5c1fa7425e73043362938b9824".
Proof. vm_compute. reflexivity. Qed.

Example hexdigest_empty :
  hexdigest []
  = lit "e3b0c44298fc1c149afbf4c8996fb92427ae41e4649b934ca495991b7852b855".
Proof. vm_compute. reflexivity. Qed.

Example hexdigest_two_blocks :
  hexdigest (repeat 97 119)
  = lit "31eba51c313a5c08226adf18d4a359cfdfd8d2e816b13f4af952f7ea6584dcfb".
Proof. vm_compute. reflexivity. Qed.

End Sha256_samples.

Module Base64_samples.
Import Base64.

Example b64decode_hello : b64decode (VStr (lit "aGVsbG8=")) = Ok (lit "hello").
Proof. vm_compute. reflexivity. Qed.

Example b64decode_skips : b64decode (VStr (lit "aGV$s bG8=")) = Ok (lit "hello").
Proof. vm_compute. reflexivity. Qed.

Example b64decode_after_pad : b64decode (VStr (lit "abc=d")) = Ok [0x69; 0xB7].
Proof. vm_compute. reflexivity. Qed.

Example b64decode_errors :
  map (fun s => b64decode (VStr (lit s))) ["aGVsbG8"; "abcde"; "a=b="; "ab=c"]%string
  = repeat (raise "binascii.Error") 4.
Proof. vm_compute. reflexivity. Qed.

Example b64decode_pads :
  map (fun s => b64decode (VStr (lit s))) ["ab=="; "ab==="; "ab==cd"; "YQ==YQ=="; EmptyString]%string
  = [Ok [0x69]; Ok [0x69]; Ok [0x69]; Ok [97]; Ok []].
Proof. vm_compute. reflexivity. Qed.

End Base64_samples.

Module Json_samples.
Import Json.

Example loads_object :
  loads (lit " {'a' : 1 , 'b':[] } ") = raise "JSONDecodeError".
Proof. vm_compute. reflexivity. Qed.

Example dumps_loads_sample :
  let v := VDict [(lit "a", VStr (lit "b"));
                  (lit "c", VList [VInt 1; VBool true; VNone;
                                   VDict [(lit "x", VStr [0xE9; 0x1F600; 127; 31; 34; 92; 47; 8; 12; 10; 13; 9])]]);
                  (lit "d", VDict []); (lit "e", VList [])] in
  (s ← dumps v; loads s) = Ok v.
Proof. vm_compute. reflexivity. Qed.

Example dumps_sample :
  dumps (VDict [(lit "hash", VStr [97; 0xE9; 0x1F600; 127])])
  = Ok (lit "{" ++ [34] ++ lit "hash" ++ [34] ++ lit ": " ++ [34]
        ++ lit "a\u00e9\ud83d\ude00\u007f" ++ [34] ++ lit "}").
Proof. vm_compute. reflexivity. Qed.

Example dumps_indent_sample :
  dumps_indent 2 (VDict [(lit "a", VList [VInt 1; VList []]); (lit "d", VDict [])])
  = Ok (lit "{" ++ [10] ++ lit "  " ++ [34] ++ lit "a" ++ [34] ++ lit ": ["
        ++ [10] ++ lit "    1," ++ [10] ++ lit "    []" ++ [10] ++ lit "  ],"
        ++ [10] ++ lit "  " ++ [34] ++ lit "d" ++ [34] ++ lit ": {}" ++ [10] ++ lit "}").
Proof. vm_compute. reflexivity. Qed.

Example loads_cases :
  map (fun s => loads (lit s))
    ["null"; "-0"; "01"; "1."; "[1,2]"; "[1,]"; "1.5"; "NaN"; "tru"; " 7 "]%string
  = [Ok VNone; Ok (VInt 0); decode_error "Extra data"; decode_error "Extra data";
     Ok (VList [VInt 1; VInt 2]); decode_error "Expecting value"; Beyond; Beyond;
     decode_error "Expecting value"; Ok (VInt 7)].
Proof. vm_compute. reflexivity. Qed.

Example loads_pairs :
  map (fun s => loads ([34] ++ lit s ++ [34]))
    ["\ud800\udc00"; "\ud800"; "\ud800A"; "\u12"; "\x"; "\/"]%string
  = [Ok (VStr [0x10000]); Ok (VStr [0xD800]); Ok (VStr [0xD800; 65]);
     decode_error "Invalid \uXXXX escape"; decode_error "Invalid \escape";
     Ok (VStr [47])].
Proof. vm_compute. reflexivity. Qed.

End Json_samples.

Module Url_samples.
Import Url.

Example quote_plus_sample :
  (s ← Json.dumps (VDict [(lit "hash", VStr (lit "a+b% c"))]); quote_plus s)
  = Ok (lit "%7B%22hash%22%3A+%22a%2Bb%25+c%22%7D").
Proof. vm_compute. reflexivity. Qed.

Example quote_plus_cases :
  map quote_plus [lit "~_.-/"; [0xE9]; [0xD800]; []]
  = [Ok (lit "~_.-%2F"); Ok (lit "%C3%A9"); raise "UnicodeEncodeError"; Ok []].
Proof. vm_compute. reflexivity. Qed.

Example unquote_plus_cases :
  map (fun s => unquote_plus (VStr s))
    [lit "%7B%22a%22%3A+%22b%22%7D"; lit "%zz"; lit "%%41"; lit "%e9";
     lit "%C3%A9"; lit "%41" ++ [0xE9] ++ lit "%42"; lit "%E1%80A";
     lit "%F0%9F%98%80"; lit "%ed%a0%80"; lit "%c0%80"; lit "%f4%90%80%80";
     lit "%e1%80" ++ [0xE9] ++ lit "%80"; lit "%2"; lit "%aB"; [0x80] ++ lit "%41"]
  = map Ok
    [lit "{" ++ [34] ++ lit "a" ++ [34] ++ lit ": " ++ [34] ++ lit "b" ++ [34] ++ lit "}";
     lit "%zz"; lit "%A"; [0xFFFD]; [0xE9]; [65; 0xE9; 66]; [0xFFFD; 65];
     [0x1F600]; [0xFFFD; 0xFFFD; 0xFFFD]; [0xFFFD; 0xFFFD];
     [0xFFFD; 0xFFFD; 0xFFFD; 0xFFFD]; [0xFFFD; 0xE9; 0xFFFD]; lit "%2";
     [0xFFFD]; [0x80; 65]].
Proof. vm_compute. reflexivity. Qed.

End Url_samples.

Module Builtins_samples.
Import Builtins.

Example int_cases :
  map (fun s => int (VStr (lit s)))
    ["12"; "1_000"; "+5"; "-0"; "1__0"; "_1"; "0x10"; EmptyString; " "; "12 3"; "1_";
     "-_1"; "+ 1"; "00012"]%string
  = [Ok 12; Ok 1000; Ok 5; Ok 0; raise "ValueError"; raise "ValueError";
     raise "ValueError"; raise "ValueError"; raise "ValueError";
     raise "ValueError"; raise "ValueError"; raise "ValueError";
     raise "ValueError"; Ok 12].
Proof. vm_compute. reflexivity. Qed.

Example int_spaces :
  map (fun s => int (VStr s))
    [[32; 49; 50; 10]; [0x1C; 49; 50]; [11; 55]; [12; 55; 11]; [49; 0];
     [0x661; 0x662]]
  = [Ok 12; raise "ValueError"; Ok 7; Ok 7; raise "ValueError"; Beyond].
Proof. vm_compute. reflexivity. Qed.

End Builtins_samples.

(* ===================================================================== *)
(** * Properties: proofs *)
(* ===================================================================== *)

(* ===================================================================== *)
(** ** Handlers whose body stands in a [try] *)
(* ===================================================================== *)

(** A handler that answers every exception raises none. *)
Lemma try_except_total {A} (m : M A) (h : exn -> M A) w :
  (forall e w1, exists a w2, h e w1 = (Ok a, w2)) ->
  forall e, fst (try_except m h w) <> Raise e.
Proof.
  intros Hh e. unfold try_except.
  destruct (m w) as [[a|e'|] w1] eqn:E; cbn; try congruence.
  destruct (Hh e' w1) as (a & w2 & ->). cbn. congruence.
Qed.

(** Four of the handlers are of that shape. *)
Lemma upload_never_raises ev w e : fst (upload_file.lambda_handler ev w) <> Raise e.
Proof.
  apply try_except_total. intros e' w1. eexists _, _. reflexivity.
Qed.

Lemma get_hashes_never_raises ev w e : fst (get_hashes.lambda_handler ev w) <> Raise e.
Proof.
  apply try_except_total. intros e' w1. eexists _, _. reflexivity.
Qed.

Lemma get_metadata_never_raises ev w e : fst (get_metadata.lambda_handler ev w) <> Raise e.
Proof.
  apply try_except_total. intros e' w1. eexists _, _. reflexivity.
Qed.

Lemma get_stats_never_raises ev w e : fst (get_stats.lambda_handler ev w) <> Raise e.
Proof.
  apply try_except_total. intros e' w1. eexists _, _. reflexivity.
Qed.

(* ===================================================================== *)
(** ** Runs of the handlers *)
(* ===================================================================== *)

Lemma key_value_str s : s <> [] -> key_value (VStr s) = Some s.
Proof. destruct s; [congruence | reflexivity]. Qed.

Lemma str_eqb_refl s : str_eqb s s = true.
Proof. unfold str_eqb. apply bool_decide_eq_true. reflexivity. Qed.


(** The equations of [dumps_at] on a list and on a dict. *)
Lemma dumps_at_list indent dec level l :
  Json.dumps_at indent dec level (VList l)
  = (parts ← dumps_items (Json.dumps_at indent dec (S level)) l;
     Ok (Json.bracket indent level 91 93 parts)).
Proof.
  cbn [Json.dumps_at].
  match goal with |- (?a ≫= _) = _ =>
    assert (E : a = dumps_items (Json.dumps_at indent dec (S level)) l);
    [|rewrite E; reflexivity] end.
  induction l as [|x r IH]; [reflexivity|]. cbn [dumps_items]. rewrite <- IH. reflexivity.
Qed.

Lemma dumps_at_dict indent dec level d :
  Json.dumps_at indent dec level (VDict d)
  = (parts ← dumps_members (Json.dumps_at indent dec (S level)) d;
     Ok (Json.bracket indent level 123 125 parts)).
Proof.
  cbn [Json.dumps_at].
  match goal with |- (?a ≫= _) = _ =>
    assert (E : a = dumps_members (Json.dumps_at indent dec (S level)) d);
    [|rewrite E; reflexivity] end.
  induction d as [|[k x] r IH]; [reflexivity|]. cbn [dumps_members]. rewrite <- IH. reflexivity.
Qed.

#[local] Arguments lit : simpl never.
#[local] Arguments Sha256.hexdigest : simpl never.
#[local] Arguments Json.dumps_at : simpl never.
#[local] Arguments Json.loads : simpl never.
#[local] Arguments str_eqb : simpl never.

(** Comparisons of literals are decided by computation. *)
Ltac str_eqb_lit :=
  repeat match goal with
    | |- context [str_eqb ?a ?b] =>
        let r := eval vm_compute in (str_eqb a b) in
        lazymatch r with
        | true => change (str_eqb a b) with true
        | false => change (str_eqb a b) with false
        end
    end.

Lemma dict_get_cons k v d k' :
  dict_get ((k, v) :: d) k' = if str_eqb k k' then Some v else dict_get d k'.
Proof. reflexivity. Qed.

(** Evaluation of a run on an event given by its fields. *)
Ltac sim :=
  repeat (first
    [ progress cbn
    | progress str_eqb_lit
    | rewrite dict_get_cons
    | progress unfold dict_get_or, dict_has, get_method, subscript ]).

(** *** Reasoning about runs: postconditions *)

(** One rule for each way of building a run. *)
Lemma post_ret {A} (a : A) w Q : Q (Ok a) w -> post (ret a) w Q.
Proof. exact id. Qed.

Lemma post_lift {A} (o : outcome A) w Q : Q o w -> post (lift o) w Q.
Proof. exact id. Qed.

Lemma post_bind {A B} (m : M A) (k : A -> M B) w Q :
  post m w (fun o w1 =>
    match o with
    | Ok a => post (k a) w1 Q
    | Raise e => Q (Raise e) w1
    | Beyond => Q Beyond w1
    end) ->
  post (bind m k) w Q.
Proof. unfold post, bind. destruct (m w) as [[a|e|] w1]; exact id. Qed.

Lemma post_try_except {A} (m : M A) (h : exn -> M A) w Q :
  post m w (fun o w1 =>
    match o with
    | Raise e => post (h e) w1 Q
    | _ => Q o w1
    end) ->
  post (try_except m h) w Q.
Proof. unfold post, try_except. destruct (m w) as [[a|e|] w1]; exact id. Qed.

Lemma post_try_return {A B} (m : M A) (h : exn -> M B) (k : A -> M B) w Q :
  post m w (fun o w1 =>
    match o with
    | Ok a => post (k a) w1 Q
    | Raise e => post (h e) w1 Q
    | Beyond => Q Beyond w1
    end) ->
  post (try_return m h k) w Q.
Proof. unfold post, try_return. destruct (m w) as [[a|e|] w1]; exact id. Qed.

Lemma post_service {A} (c : call) (eff : world -> outcome (A * world)) w Q :
  (faults w (length (log w)) = true ->
     Q (raise "ClientError") (with_log (log w ++ [(c, false)]) w)) ->
  (faults w (length (log w)) = false ->
     match eff w with
     | Ok (a, w1) => Q (Ok a) (with_log (log w ++ [(c, true)]) w1)
     | Raise e => Q (Raise e) (with_log (log w ++ [(c, false)]) w)
     | Beyond => Q Beyond w
     end) ->
  post (service c eff) w Q.
Proof.
  unfold post, service. intros H1 H2.
  destruct (faults w (length (log w))); [exact (H1 eq_refl)|].
  specialize (H2 eq_refl). destruct (eff w) as [[a w1]|e|]; exact H2.
Qed.

Lemma post_respond status hdrs (text : outcome pystr) w Q :
  match text with
  | Ok b => Q (Ok (Response status hdrs (Some b))) w
  | Raise e => Q (Raise e) w
  | Beyond => Q Beyond w
  end ->
  post (respond status hdrs text) w Q.
Proof. unfold post, respond, bind, lift, ret. destruct text; exact id. Qed.

Lemma post_respond_with_message status hdrs e w Q :
  Q (Ok (Response status hdrs None)) w ->
  post (respond_with_message status hdrs e) w Q.
Proof. exact id. Qed.

Lemma post_uuid4 w Q :
  Q (Ok (uuids w (uuid_next w))) (with_uuid_next (S (uuid_next w)) w) ->
  post uuid4 w Q.
Proof. exact id. Qed.

Lemma post_utcnow w Q : Q (Ok (utcnow w)) w -> post utcnow_isoformat w Q.
Proof. exact id. Qed.

Lemma post_get_S3_BUCKET w Q : Q (Ok (S3_BUCKET w)) w -> post get_S3_BUCKET w Q.
Proof. exact id. Qed.

(** *** Rules for the calls on the stores

    Each rule says what a call can do: fail, with no effect but the log
    entry, or return, with its effect.  *)

Lemma post_get_item a v w Q :
  (forall e, faults w (length (log w)) = true \/ a <> pk w \/ key_value v = None ->
     Q (Raise e) (logged (GetItem a v) false w)) ->
  (forall k, faults w (length (log w)) = false -> a = pk w -> key_value v = Some k ->
     Q (Ok (item_of w <$> find_row k (table w))) (logged (GetItem a v) true w)) ->
  post (get_item a v) w Q.
Proof.
  intros Hr Hk. apply post_service; [intros Hf; apply Hr; auto|]. intros Hf.
  unfold str_eqb. case_bool_decide as Ha; [|apply Hr; auto].
  destruct (key_value v) as [k|] eqn:Ev; [|apply Hr; auto].
  destruct w; apply (Hk k); auto.
Qed.

Lemma post_scan_filter_hash h w Q :
  (forall e, faults w (length (log w)) = true ->
     Q (Raise e) (logged (ScanFilterHash h) false w)) ->
  (faults w (length (log w)) = false ->
   Q (Ok (List.filter
            (fun it => match dict_get it (lit "hash") with
                       | Some (VStr x) => str_eqb x h
                       | _ => false
                       end)
            (map (item_of w) (table w))))
     (logged (ScanFilterHash h) true w)) ->
  post (scan_filter_hash h) w Q.
Proof.
  intros Hr Hk. apply post_service; [intros Hf; apply Hr; auto|]. intros Hf.
  destruct w; apply Hk; auto.
Qed.

Lemma post_scan_page limit start attrs w Q :
  (forall e, Q (Raise e) (logged (ScanPage limit start) false w)) ->
  Q Beyond w ->
  (forall page, faults w (length (log w)) = false -> 1 <= limit ->
     Q (Ok page) (logged (ScanPage limit start) true w)) ->
  post (scan_page limit start attrs) w Q.
Proof.
  intros Hr Hb Hk. apply post_service; [intros _; apply Hr|]. intros Hf.
  destruct (limit <? 1) eqn:El; [apply Hr|]. apply Z.ltb_ge in El.
  match goal with |- match (?x ≫= _) with _ => _ end => destruct x as [rows|e|] end;
    cbn; [|apply Hr|apply Hb].
  destruct w; apply Hk; auto.
Qed.

Lemma post_scan_hashes w Q :
  (forall e, faults w (length (log w)) = true -> Q (Raise e) (logged ScanHashes false w)) ->
  (faults w (length (log w)) = false ->
   Q (Ok (map (fun row => project [lit "hash"] (item_of w row)) (table w)))
     (logged ScanHashes true w)) ->
  post scan_hashes w Q.
Proof.
  intros Hr Hk. apply post_service; [intros Hf; apply Hr; auto|]. intros Hf.
  destruct w; apply Hk; auto.
Qed.

Lemma post_update_counters inc file_size w Q :
  (forall e, Q (Raise e) (logged (UpdateCounters inc file_size) false w)) ->
  (forall it1 it2,
     faults w (length (log w)) = false ->
     incremented (counters_item w) (lit "duplicates_avoided") inc = Ok it1 ->
     incremented it1 (lit "total_s3_size_saved") file_size = Ok it2 ->
     Q (Ok tt) (logged (UpdateCounters inc file_size) true (with_counters (Some it2) w))) ->
  post (update_counters inc file_size) w Q.
Proof.
  intros Hr Hk. apply post_service; [intros _; apply Hr|]. intros Hf.
  unfold counters_item in Hk. cbn beta zeta.
  assert (Hnb : forall it a d, incremented it a d <> Beyond).
  { intros it a d. unfold incremented, raise. destruct (dict_get it a) as [[]|]; discriminate. }
  destruct (incremented _ (lit "duplicates_avoided") inc) as [it1|e|] eqn:E1;
    cbn; [|apply Hr|destruct (Hnb _ _ _ E1)].
  destruct (incremented it1 (lit "total_s3_size_saved") file_size) as [it2|e|] eqn:E2;
    cbn; [|apply Hr|destruct (Hnb _ _ _ E2)].
  destruct w; apply (Hk it1 it2); auto.
Qed.

Lemma post_get_counters w Q :
  (forall e, faults w (length (log w)) = true -> Q (Raise e) (logged GetCounters false w)) ->
  (faults w (length (log w)) = false ->
   Q (Ok (default [] (counters w))) (logged GetCounters true w)) ->
  post get_counters w Q.
Proof.
  intros Hr Hk. apply post_service; [intros Hf; apply Hr; auto|]. intros Hf.
  destruct w; apply Hk; auto.
Qed.

Lemma post_put_item item w Q :
  (forall e, faults w (length (log w)) = true
             \/ (dict_get item (pk w) ≫= key_value) = None ->
     Q (Raise e) (logged (PutItem item) false w)) ->
  (forall k, faults w (length (log w)) = false ->
     (dict_get item (pk w) ≫= key_value) = Some k ->
     Q (Ok tt)
       (logged (PutItem item) true
          (with_table
             (put_row (k, map (fun kv => let '(a, x) := kv in (a, to_ddb x))
                            (remove_attr (pk w) item))
                (table w)) w))) ->
  post (put_item item) w Q.
Proof.
  intros Hr Hk. apply post_service; [intros Hf; apply Hr; auto|]. intros Hf.
  destruct (dict_get item (pk w)) as [v|] eqn:Ev; [|apply Hr; auto].
  destruct (key_value v) as [k|] eqn:Ek; [|apply Hr; auto].
  destruct w; apply (Hk k); cbn in *; auto.
Qed.

Lemma post_put_object key body ct w Q :
  (forall e, faults w (length (log w)) = true \/ (forall s, ct <> VStr s) ->
     Q (Raise e) (logged (PutObject key body ct) false w)) ->
  (forall s, faults w (length (log w)) = false -> ct = VStr s ->
     Q (Ok tt)
       (logged (PutObject key body ct) true
          (with_bucket (<[key := S3Object body s (lit "aws:kms")]> (bucket w)) w))) ->
  post (put_object key body ct) w Q.
Proof.
  intros Hr Hk. apply post_service; [intros Hf; apply Hr; auto|]. intros Hf.
  destruct ct; try (apply Hr; right; congruence). destruct w; apply (Hk s); auto.
Qed.

Lemma post_generate_presigned_url b key ttl w Q :
  (forall e, (forall k, key <> VStr k) -> Q (Raise e) w) ->
  (forall e k, key = VStr k -> faults w (length (log w)) = true ->
     Q (Raise e) (logged (GeneratePresignedUrl b k ttl) false w)) ->
  (forall k, faults w (length (log w)) = false -> key = VStr k ->
     Q (Ok (signer w b k ttl)) (logged (GeneratePresignedUrl b k ttl) true w)) ->
  post (generate_presigned_url b key ttl) w Q.
Proof.
  intros Hr Hr' Hk. unfold generate_presigned_url.
  destruct key; try (apply post_lift, Hr; congruence).
  apply post_service; [intros Hf; apply Hr'; auto|]. intros Hf.
  destruct w; apply (Hk s); auto.
Qed.

Lemma stored_record_of_cons key r t h :
  stored_record_of key (r :: t) h
  = if hash_is h (row_item key r) then Some (row_item key r)
    else stored_record_of key t h.
Proof.
  unfold stored_record_of. cbn [map List.filter].
  destruct (hash_is h (row_item key r)); reflexivity.
Qed.

Lemma find_row_stored key t h :
  lit "hash" = key ->
  row_item key <$> find_row h t = stored_record_of key t h.
Proof.
  intros <-. unfold find_row.
  induction t as [|[k attrs] t IH]; [reflexivity|].
  rewrite stored_record_of_cons. cbn [List.find fst].
  assert (E : hash_is h (row_item (lit "hash") (k, attrs)) = str_eqb k h).
  { unfold hash_is, row_item. cbn [dict_get fst snd]. rewrite str_eqb_refl. reflexivity. }
  rewrite E. destruct (str_eqb k h); [reflexivity | exact IH].
Qed.

Lemma key_value_some v k : key_value v = Some k -> v = VStr k.
Proof. destruct v as [| | | |[|c s]| |]; cbn; congruence. Qed.

(** The duplicate check: it fails, having written nothing, or returns the
    stored record of the hash, found by key or by the scan. *)
Lemma post_find_existing h w Q :
  (faults w (length (log w)) = false ->
     Q (Ok (stored_record_of (pk w) (table w) h))
       (logged (GetItem (lit "hash") (VStr h)) true w)) ->
  (faults w (S (length (log w))) = false ->
     Q (Ok (stored_record_of (pk w) (table w) h))
       (logged (ScanFilterHash h) true (logged (GetItem (lit "hash") (VStr h)) false w))) ->
  (forall e, faults w (S (length (log w))) = true ->
     Q (Raise e)
       (logged (ScanFilterHash h) false (logged (GetItem (lit "hash") (VStr h)) false w))) ->
  post (upload_file.find_existing h) w Q.
Proof.
  intros H1 H2 H3. unfold upload_file.find_existing.
  assert (Hlen : forall c, length (log (logged c false w)) = S (length (log w))).
  { intros c. cbn. rewrite length_app. cbn. lia. }
  apply post_try_except, post_get_item.
  - intros e _. apply post_bind, post_scan_filter_hash.
    + intros e' Hf. rewrite Hlen in Hf. apply post_ret || apply H3. exact Hf.
    + intros Hf. rewrite Hlen in Hf. apply post_ret.
      specialize (H2 Hf).
      match goal with
      | |- Q (Ok ?r) _ =>
          assert (E : r = stored_record_of (pk w) (table w) h);
          [|rewrite E; exact H2]
      end.
      unfold stored_record_of, row_item, item_of. cbn [pk logged with_log].
      match goal with |- _ = head ?l => change (head l) with
        (match l with it :: _ => Some it | [] => None end) end.
      reflexivity.
  - intros k Hf Hpk Hk. apply key_value_some in Hk. inversion Hk; subst k.
    specialize (H1 Hf). rewrite <- (find_row_stored _ _ _ Hpk) in H1. exact H1.
Qed.

Lemma error_doc_ok msg : error_doc msg = Ok (error_text msg).
Proof. reflexivity. Qed.

Lemma post_respond_error status hdrs msg w Q :
  Q (Ok (Response status hdrs (Some (error_text msg)))) w ->
  post (respond status hdrs (error_doc msg)) w Q.
Proof. intros H. apply post_respond. rewrite error_doc_ok. exact H. Qed.

(** The fields of a world after an update, and the plumbing of outcomes. *)
Ltac wsimp :=
  cbn [logged raise fst snd pk S3_BUCKET faults uuids utcnow signer table counters
       bucket uuid_next log with_log with_table with_counters with_bucket
       with_uuid_next mbind mret outcome_bind outcome_ret obind].

Ltac innermost x :=
  lazymatch x with
  | match ?y with _ => _ end => innermost y
  | _ => x
  end.

Ltac case_on x :=
  let y := innermost x in
  destruct y eqn:?; try discriminate.

(** One step of a run: the rule for the head of the computation, or a
    case analysis on what its head inspects. *)
Ltac head_of t :=
  lazymatch t with
  | ?f _ => head_of f
  | _ => t
  end.

Ltac post_step :=
  lazymatch goal with
  | |- post (bind _ _) _ _ => apply post_bind
  | |- post (try_except _ _) _ _ => apply post_try_except
  | |- post (try_return _ _ _) _ _ => apply post_try_return
  | |- post (ret _) _ _ => apply post_ret
  | |- post (lift _) _ _ => apply post_lift
  | |- post (respond _ _ (error_doc _)) _ _ => apply post_respond_error
  | |- post (respond _ _ _) _ _ => apply post_respond
  | |- post (respond_with_message _ _ _) _ _ => apply post_respond_with_message
  | |- post uuid4 _ _ => apply post_uuid4
  | |- post utcnow_isoformat _ _ => apply post_utcnow
  | |- post get_S3_BUCKET _ _ => apply post_get_S3_BUCKET
  | |- post (upload_file.find_existing _) _ _ => apply post_find_existing; intros
  | |- post (get_item _ _) _ _ => apply post_get_item; intros
  | |- post (scan_filter_hash _) _ _ => apply post_scan_filter_hash; intros
  | |- post (scan_page _ _ _) _ _ => apply post_scan_page; intros
  | |- post scan_hashes _ _ => apply post_scan_hashes; intros
  | |- post (update_counters _ _) _ _ => apply post_update_counters; intros
  | |- post get_counters _ _ => apply post_get_counters; intros
  | |- post (put_item _) _ _ => apply post_put_item; intros
  | |- post (put_object _ _ _) _ _ => apply post_put_object; intros
  | |- post (generate_presigned_url _ _ _) _ _ =>
      apply post_generate_presigned_url; intros
  | |- post (match ?x with _ => _ end) _ _ => case_on x
  | |- match ?x with _ => _ end => case_on x
  | |- post ?m _ _ => let h := head_of m in unfold h
  end.

Ltac post_run := repeat (cbn beta iota zeta; wsimp; post_step).

Ltac wsimp_all := cbn [logged raise fst snd pk S3_BUCKET faults uuids utcnow signer
  table counters bucket uuid_next log with_log with_table with_counters with_bucket
  with_uuid_next] in *.

(* ===================================================================== *)
(** ** The counters never decrease (C4) *)
(* ===================================================================== *)

Lemma dict_get_set_eq d k v : dict_get (dict_set d k v) k = Some v.
Proof.
  induction d as [|[k' v'] d IH]; cbn.
  - rewrite str_eqb_refl. reflexivity.
  - destruct (str_eqb k' k) eqn:E; cbn; rewrite E; auto.
Qed.

Lemma dict_get_set_ne d k v k' : k' <> k -> dict_get (dict_set d k v) k' = dict_get d k'.
Proof.
  intros Hne. induction d as [|[k0 v0] d IH]; cbn.
  - unfold str_eqb. rewrite bool_decide_eq_false_2; congruence.
  - destruct (str_eqb k0 k) eqn:E; cbn; [|rewrite IH; reflexivity].
    apply bool_decide_eq_true in E. subst k0.
    unfold str_eqb. rewrite bool_decide_eq_false_2; congruence.
Qed.





(** The four queries read only. *)
Lemma get_hashes_reads ev w :
  post (get_hashes.lambda_handler ev) w (fun _ w' => same_stores w w').
Proof.
  unfold get_hashes.lambda_handler.
  post_run; wsimp_all; repeat split.
Qed.

Lemma get_file_reads ev w :
  post (get_file.lambda_handler ev) w (fun _ w' => same_stores w w').
Proof.
  unfold get_file.lambda_handler.
  post_run; wsimp_all; repeat split.
Qed.

Lemma get_metadata_reads ev w :
  post (get_metadata.lambda_handler ev) w (fun _ w' => same_stores w w').
Proof.
  unfold get_metadata.lambda_handler.
  post_run; wsimp_all; repeat split.
Qed.

Lemma get_stats_reads ev w :
  post (get_stats.lambda_handler ev) w (fun _ w' => same_stores w w').
Proof.
  unfold get_stats.lambda_handler, get_stats.get_unique_file_count,
    get_stats.get_deduplication_stats.
  post_run; wsimp_all; repeat split.
Qed.

(* ===================================================================== *)
(** ** The order of the store calls of an upload (C1) *)
(* ===================================================================== *)

(** The check decides the order. *)
Lemma precededb_sound p q t seen :
  precededb p q seen t = true ->
  forall pre x post, t = pre ++ x :: post -> q x = true ->
    seen = true \/ exists y, In y pre /\ p y = true.
Proof.
  revert seen. induction t as [|a t IH]; intros seen H pre x post Heq Hq.
  - destruct pre; discriminate.
  - cbn in H. apply andb_true_iff in H as [H1 H2].
    destruct pre as [|b pre]; cbn in Heq; inversion Heq; subst.
    + rewrite Hq in H1. cbn in H1. auto.
    + destruct (IH _ H2 pre x post eq_refl Hq) as [Hs | (y & Hy & Hp)].
      * apply orb_true_iff in Hs as [Hs|Hs]; [auto|]. right. exists b. cbn. auto.
      * right. exists y. cbn. auto.
Qed.

Lemma precededb_preceded p q t : precededb p q false t = true -> preceded p q t.
Proof.
  intros H pre x post Heq Hq.
  destruct (precededb_sound p q t false H pre x post Heq Hq) as [?|?]; [discriminate|auto].
Qed.

Lemma calls_since_app w w' t : log w' = log w ++ t -> calls_since w w' = t.
Proof. intros H. unfold calls_since. rewrite H. apply drop_app_length. Qed.

(** The calls of a run, read off the final log. *)
Ltac trace :=
  wsimp_all;
  lazymatch goal with
  | |- context [calls_since ?w ?w'] =>
      let t := fresh "t" in
      let Ht := fresh "Ht" in
      evar (t : list (call * bool));
      assert (Ht : calls_since w w' = t);
      [ apply calls_since_app; wsimp; rewrite <- ?app_assoc;
        first [ subst t; reflexivity
              | subst t; symmetry; apply app_nil_r ]
      | rewrite Ht; clear Ht; subst t; cbn [app] ]
  end.

(** Every run of the upload handler keeps the order, whatever the event
    and whichever calls fail. *)
Lemma upload_calls_ordered ev w :
  post (upload_file.lambda_handler ev) w
    (fun _ w' => upload_order (calls_since w w') = true).
Proof.
  unfold upload_file.lambda_handler.
  post_run; trace; reflexivity.
Qed.

(** C1, as the specification states it, fails: uploading [hello] to a
    fresh store writes the blob while no metadata insert has been
    attempted, let alone reported. *)
Lemma blob_is_written_before_metadata :
  ~ preceded is_metadata_put_ok is_blob_write
      (calls_since (Scenario.fresh "hash")
         (snd (upload_file.lambda_handler Scenario.hello_a (Scenario.fresh "hash")))).
Proof.
  intros H.
  set (h := Sha256.hexdigest (lit "hello")).
  set (key := lit "files/" ++ h ++ lit "/" ++ lit "a.txt").
  destruct (H [(GetItem (lit "hash") (VStr h), true)]
              (PutObject key (lit "hello") (VStr (lit "text/plain")), true)
              [(PutItem
                  [(lit "file_id", VStr (lit "uuid-0"));
                   (lit "name", VStr (lit "a.txt"));
                   (lit "size", VInt 5);
                   (lit "type", VStr (lit "text/plain"));
                   (lit "hash", VStr h);
                   (lit "created_at", VStr (lit "2024-01-01T00:00:00"));
                   (lit "s3_key", VStr key);
                   (lit "download_url",
                    VStr (lit "https://bucket.s3.amazonaws.com/" ++ key))],
                true)])
    as (y & Hy & Hp).
  - vm_compute. reflexivity.
  - reflexivity.
  - destruct Hy as [<- | []]. discriminate Hp.
Qed.

(** C1, amended: in every upload, a metadata put comes only after a blob
    write that succeeded, and a blob write only after a duplicate check
    (get_item, or the filtered scan) that returned. *)
Theorem metadata_is_written_after_blob ev w pre x rest :
  calls_since w (snd (upload_file.lambda_handler ev w)) = pre ++ x :: rest ->
  (is_metadata_put x = true -> exists y, In y pre /\ is_blob_write_ok y = true)
  /\ (is_blob_write x = true -> exists y, In y pre /\ is_lookup_ok y = true).
Proof.
  intros Heq.
  pose proof (upload_calls_ordered ev w) as H. unfold post in H.
  apply andb_true_iff in H as [H1 H2].
  split; intros Hx.
  - exact (precededb_preceded _ _ _ H1 pre x rest Heq Hx).
  - exact (precededb_preceded _ _ _ H2 pre x rest Heq Hx).
Qed.

Lemma metadata_is_written_after_blob_witness :
  let w := Scenario.fresh "hash" in
  let h := Sha256.hexdigest (lit "hello") in
  let key := lit "files/" ++ h ++ lit "/" ++ lit "a.txt" in
  let put :=
    (PutItem
       [(lit "file_id", VStr (lit "uuid-0"));
        (lit "name", VStr (lit "a.txt"));
        (lit "size", VInt 5);
        (lit "type", VStr (lit "text/plain"));
        (lit "hash", VStr h);
        (lit "created_at", VStr (lit "2024-01-01T00:00:00"));
        (lit "s3_key", VStr key);
        (lit "download_url", VStr (lit "https://bucket.s3.amazonaws.com/" ++ key))],
     true) in
  let pre := [(GetItem (lit "hash") (VStr h), true);
              (PutObject key (lit "hello") (VStr (lit "text/plain")), true)] in
  (is_metadata_put put = true -> exists y, In y pre /\ is_blob_write_ok y = true)
  /\ (is_blob_write put = true -> exists y, In y pre /\ is_lookup_ok y = true).
Proof.
  intros w h key put pre.
  apply (metadata_is_written_after_blob Scenario.hello_a w pre put []).
  vm_compute. reflexivity.
Defined.

(* ===================================================================== *)
(** ** Rejected uploads (C3) *)
(* ===================================================================== *)

Lemma accepted_not_invalid d hdrs o :
  negb (dict_has d (lit "body")) = false ->
  dict_get d (lit "headers") = Some (VDict hdrs) ->
  upload_file.decode_body
    (dict_get_or d (lit "isBase64Encoded") (VBool false))
    (dict_get_or d (lit "body") VNone) = o ->
  (forall e, o <> Raise e) ->
  ~ invalid_event (VDict d).
Proof.
  intros Hb Hh Hd Ho [H | [H | [e H]]].
  - apply negb_false_iff in Hb. congruence.
  - exact (H _ Hh).
  - rewrite Hd in H. exact (Ho _ H).
Qed.

(** The runs of the upload handler, by status: 400 with the world
    untouched for an invalid event, another status otherwise. *)
Lemma upload_status ev w :
  post (upload_file.lambda_handler ev) w
    (fun o w' =>
       match o with
       | Ok r => (statusCode r = 400 /\ invalid_event ev /\ w' = w)
                 \/ (statusCode r <> 400 /\ ~ invalid_event ev)
       | Raise _ => False
       | Beyond => ~ invalid_event ev
       end).
Proof.
  unfold upload_file.lambda_handler.
  post_run; subst; cbn [invalid_event statusCode].
  all: try (left; split; [reflexivity|split; [|reflexivity]]).
  all: try exact I.
  all: try (right; split; [discriminate|]).
  all: try match goal with
    | H : negb (dict_has _ _) = true |- _ \/ _ =>
        left; apply negb_true_iff in H; exact H
    | H : upload_file.decode_body _ _ = Raise ?e |- _ \/ _ =>
        right; right; exists e; exact H
    | H : dict_get _ (lit "headers") = _ |- _ \/ _ =>
        right; left; intros hdrs; rewrite H; discriminate
    | Hb : negb (dict_has _ _) = false,
      Hh : dict_get _ (lit "headers") = Some (VDict _),
      Hd : upload_file.decode_body _ _ = _ |- ~ _ =>
        apply (accepted_not_invalid _ _ _ Hb Hh Hd); discriminate
    end.
Qed.

(** C3, as the specification states it, fails in the direction "only
    if": an upload with a present, decodable body and no headers is
    answered 400. *)
Lemma missing_headers_rejected :
  (exists r,
     upload_file.lambda_handler Scenario.no_headers (Scenario.fresh "hash")
       = (Ok r, Scenario.fresh "hash")
     /\ statusCode r = 400)
  /\ ~ payload_missing_or_undecodable Scenario.no_headers.
Proof.
  split.
  - eexists. split; reflexivity.
  - intros [H | [e H]]; vm_compute in H; discriminate.
Qed.

(** C3, amended: the upload is answered 400 exactly when the event is not
    a dict, has no body, has no headers dict, or its body cannot be
    decoded; then the world is left as it was: no store call, no counter
    change. *)
Theorem upload_rejects_invalid_events ev w :
  (invalid_event ev <->
     exists r w', upload_file.lambda_handler ev w = (Ok r, w') /\ statusCode r = 400)
  /\ (forall r w', upload_file.lambda_handler ev w = (Ok r, w') ->
        statusCode r = 400 -> w' = w).
Proof.
  pose proof (upload_status ev w) as H. unfold post in H.
  destruct (upload_file.lambda_handler ev w) as [o w1] eqn:E. cbn [fst snd] in H.
  split; [split|].
  - intros Hi. destruct o as [r|e|].
    + destruct H as [(Hs & _ & ->) | (_ & Hn)]; [eauto | contradiction].
    + destruct H.
    + contradiction.
  - intros (r & w' & Heq & Hs). inversion Heq; subst.
    destruct H as [(_ & Hi & _) | (Hn & _)]; [exact Hi | congruence].
  - intros r w' Heq Hs. inversion Heq; subst.
    destruct H as [(_ & _ & ->) | (Hn & _)]; [reflexivity | congruence].
Qed.

(* ===================================================================== *)
(** ** The fingerprint depends on the bytes alone (C6) *)
(* ===================================================================== *)

(** An accepted upload starts by looking up the digest of its bytes. *)
Lemma upload_looks_up_digest ev w :
  post (upload_file.lambda_handler ev) w
    (fun _ w' => forall b, accepted_payload ev = Some b ->
       content_hash_of_run w w' = Some (Sha256.hexdigest b)).
Proof.
  unfold upload_file.lambda_handler.
  post_run; subst; intros payload Hb; cbn [accepted_payload] in Hb.
  all: repeat match goal with
    | H : negb ?x = _ |- _ =>
        destruct x eqn:?; cbn [negb] in H; try discriminate H; clear H
    end.
  all: repeat match goal with
    | H : dict_has _ _ = _ |- _ => rewrite H in Hb
    | H : dict_get _ (lit "headers") = _ |- _ => rewrite H in Hb
    | H : upload_file.decode_body _ _ = _ |- _ => rewrite H in Hb
    end.
  all: try discriminate Hb.
  all: inversion Hb; subst; unfold content_hash_of_run; trace; reflexivity.
Qed.

(** C6: two uploads that carry the same bytes look up, and so store, the
    same content hash, the digest of those bytes, whatever their headers
    and whatever the state of the stores. *)
Theorem content_hash_depends_on_bytes_only ev1 ev2 w1 w2 b :
  accepted_payload ev1 = Some b ->
  accepted_payload ev2 = Some b ->
  content_hash_of_run w1 (snd (upload_file.lambda_handler ev1 w1))
    = Some (Sha256.hexdigest b)
  /\ content_hash_of_run w2 (snd (upload_file.lambda_handler ev2 w2))
    = content_hash_of_run w1 (snd (upload_file.lambda_handler ev1 w1)).
Proof.
  intros H1 H2.
  pose proof (upload_looks_up_digest ev1 w1 b H1) as E1.
  pose proof (upload_looks_up_digest ev2 w2 b H2) as E2.
  split; [exact E1 | congruence].
Qed.

Lemma content_hash_depends_on_bytes_only_witness :
  content_hash_of_run (Scenario.fresh "hash")
    (snd (upload_file.lambda_handler Scenario.hello_a (Scenario.fresh "hash")))
    = Some (Sha256.hexdigest (lit "hello"))
  /\ content_hash_of_run (Scenario.after_hello "file_id")
       (snd (upload_file.lambda_handler Scenario.hello_b (Scenario.after_hello "file_id")))
     = content_hash_of_run (Scenario.fresh "hash")
         (snd (upload_file.lambda_handler Scenario.hello_a (Scenario.fresh "hash"))).
Proof.
  apply (content_hash_depends_on_bytes_only Scenario.hello_a Scenario.hello_b
           (Scenario.fresh "hash") (Scenario.after_hello "file_id") (lit "hello"));
    vm_compute; reflexivity.
Defined.

(* ===================================================================== *)
(** ** Uncaught exceptions (C9) *)
(* ===================================================================== *)

(** C9 fails for get_file: its first statement stands before the [try],
    and an event whose [pathParameters] is null makes it raise. *)
Theorem get_file_raises_on_null_path_parameters w :
  get_file.lambda_handler Scenario.null_path_parameters w
  = (raise "AttributeError", w).
Proof. reflexivity. Qed.

(** The other four handlers, and get_file itself once past its first
    statement, answer every event. *)
Lemma other_handlers_never_raise ev w e :
  fst (upload_file.lambda_handler ev w) <> Raise e
  /\ fst (get_hashes.lambda_handler ev w) <> Raise e
  /\ fst (get_metadata.lambda_handler ev w) <> Raise e
  /\ fst (get_stats.lambda_handler ev w) <> Raise e.
Proof.
  repeat split.
  - apply upload_never_raises.
  - apply get_hashes_never_raises.
  - apply get_metadata_never_raises.
  - apply get_stats_never_raises.
Qed.

(* ===================================================================== *)
(** ** The counters never decrease: all five handlers (C4) *)
(* ===================================================================== *)




(* ===================================================================== *)
(** ** The duplicate path (C2) *)
(* ===================================================================== *)


(** A stored record is a non-empty dict, hence truthy. *)
Lemma stored_record_nonempty key t h it :
  stored_record_of key t h = Some it -> exists kv rest, it = kv :: rest.
Proof.
  unfold stored_record_of. induction t as [|row t IH]; cbn; [discriminate|].
  destruct (hash_is h _); cbn; [|exact IH].
  intros H. inversion H. eauto.
Qed.






(** The scenario of the specification: [hello] uploaded as [a.txt], then
    as [b.txt]; the answer names [a.txt], and the counters read 1 and 5. *)
Example reupload_names_the_first_upload :
  let r := upload_file.lambda_handler Scenario.hello_b (Scenario.after_hello "file_id") in
  (body <$> returned r)
  = Some (Some (lit "{" ++ [34] ++ lit "file_id" ++ [34] ++ lit ": " ++ [34] ++ lit "uuid-0"
      ++ [34] ++ lit ", " ++ [34] ++ lit "name" ++ [34] ++ lit ": " ++ [34] ++ lit "a.txt"
      ++ [34] ++ lit ", " ++ [34] ++ lit "size" ++ [34] ++ lit ": 5, " ++ [34] ++ lit "type"
      ++ [34] ++ lit ": " ++ [34] ++ lit "text/plain" ++ [34] ++ lit ", " ++ [34]
      ++ lit "hash" ++ [34] ++ lit ": " ++ [34]
      ++ lit "2cf24dba5fb0a30e26e83b2ac5b9e29e1b161e5c1fa7425e73043362938b9824" ++ [34]
      ++ lit ", " ++ [34] ++ lit "created_at" ++ [34] ++ lit ": " ++ [34]
      ++ lit "2024-01-01T00:00:00" ++ [34] ++ lit ", " ++ [34] ++ lit "s3_key" ++ [34]
      ++ lit ": " ++ [34]
      ++ lit "files/2cf24dba5fb0a30e26e83b2ac5b9e29e1b161e5c1fa7425e73043362938b9824/a.txt"
      ++ [34] ++ lit ", " ++ [34] ++ lit "download_url" ++ [34] ++ lit ": " ++ [34]
      ++ lit "https://bucket.s3.amazonaws.com/files/2cf24dba5fb0a30e26e83b2ac5b9e29e1b161e5c1fa7425e73043362938b9824/a.txt"
      ++ [34] ++ lit "}"))
  /\ counter_value (snd r) (lit "duplicates_avoided") = 1
  /\ counter_value (snd r) (lit "total_s3_size_saved") = 5.
Proof. vm_compute. repeat split. Qed.

(* ===================================================================== *)
(** ** Uploads sent as text (C10) *)
(* ===================================================================== *)




Lemma dict_get_rest a d k :
  str_eqb a k = false ->
  dict_get (map to_ddb_attr (remove_attr a d)) k = to_ddb <$> dict_get d k.
Proof.
  intros Hak. induction d as [|[k0 v0] d IH]; [reflexivity|].
  unfold remove_attr in *. cbn [List.filter fst negb dict_get].
  destruct (str_eqb k0 a) eqn:E0; cbn [negb].
  - apply bool_decide_eq_true in E0. subst k0. rewrite Hak. exact IH.
  - cbn [map to_ddb_attr dict_get]. destruct (str_eqb k0 k); [reflexivity | exact IH].
Qed.

Lemma new_item_hash key metadata k h :
  dict_get metadata (lit "hash") = Some (VStr h) ->
  (dict_get metadata key ≫= key_value) = Some k ->
  hash_is h ((key, VStr k) :: map to_ddb_attr (remove_attr key metadata)) = true.
Proof.
  intros Hh Hk. unfold hash_is. cbn [dict_get].
  destruct (str_eqb key (lit "hash")) eqn:E.
  - apply bool_decide_eq_true in E. subst key. rewrite Hh in Hk.
    change (key_value (VStr h) = Some k) in Hk.
    apply key_value_some in Hk. inversion Hk; subst. apply str_eqb_refl.
  - rewrite dict_get_rest by exact E. rewrite Hh. cbn. apply str_eqb_refl.
Qed.







(** Sizes are counted in octets: a body of five characters, one of them
    outside ASCII, is stored with size 6; and a different body is not a
    duplicate. *)
Example size_is_the_utf8_length :
  let ev := VDict [(lit "body", VStr [104; 0xE9; 108; 108; 111]);
                   (lit "headers", VDict [(lit "filename", VStr (lit "h.txt"))])] in
  let r := upload_file.lambda_handler ev (Scenario.after_hello "hash") in
  (statusCode <$> returned r) = Some 201
  /\ (exists item,
        last (log (snd r)) = Some (PutItem item, true)
        /\ dict_get item (lit "size") = Some (VInt 6)
        /\ dict_get item (lit "hash")
           = Some (VStr (lit "3c48591d8d098a4538f5e013dfcf406e948eac4d3277b10bf614e295d6068179"))).
Proof. split; [vm_compute; reflexivity|]. eexists. vm_compute. repeat split. Qed.

(* ===================================================================== *)
(** ** Lookups by file id (C7) *)
(* ===================================================================== *)


(** A lookup that the table fails is answered 500, not 404. *)
Lemma failed_lookup_is_a_server_error w fid :
  fid <> [] -> faults w (length (log w)) = true ->
  (statusCode <$> returned (get_metadata.lambda_handler (Scenario.by_id (VStr fid)) w))
    = Some 500
  /\ (statusCode <$> returned (get_file.lambda_handler (Scenario.by_id (VStr fid)) w))
    = Some 500.
Proof.
  intros Hne Hf. destruct fid as [|c fid']; [congruence|].
  split.
  - unfold get_metadata.lambda_handler, Scenario.by_id, try_except, bind, lift,
      get_item, service, returned.
    sim. rewrite Hf. reflexivity.
  - unfold get_file.lambda_handler, Scenario.by_id, try_except, bind, lift,
      get_item, service, returned.
    sim. rewrite Hf. reflexivity.
Qed.


Example hello_is_found_by_id :
  find_row (lit "uuid-0") (table (Scenario.after_hello "file_id"))
    = Some (row_by_id hello_file)
  /\ find_row (lit "uuid-9") (table (Scenario.after_hello "file_id")) = None.
Proof. split; vm_compute; reflexivity. Qed.

(* ===================================================================== *)
(** ** The page size of a listing (C8) *)
(* ===================================================================== *)

(** What the first two statements of the handler read is the supplied
    limit, or 10. *)
Lemma limit_argument ev qs limit_arg :
  get_method ev (lit "queryStringParameters") (VDict []) = Ok qs ->
  get_method (if truthy qs then qs else VDict []) (lit "limit") (VInt 10)
    = Ok limit_arg ->
  limit_arg = default (VInt 10) (supplied_limit ev).
Proof.
  unfold get_method, dict_get_or, supplied_limit, raise.
  destruct ev as [| | | | | |ev]; try discriminate.
  destruct (dict_get ev (lit "queryStringParameters")) as [v|];
    intros [= <-].
  - destruct v as [| | | | | |[|kv d]]; cbn [truthy];
      try (destruct (_ : bool); [discriminate|]);
      try (intros [= <-]; reflexivity).
  - cbn. intros [= <-]; reflexivity.
Qed.

(** Every page a listing asks for is asked with that limit. *)
Lemma get_hashes_limit ev w :
  post (get_hashes.lambda_handler ev) w
    (fun _ w' => limits_from ev (calls_since w w')).
Proof.
  unfold get_hashes.lambda_handler.
  post_run; trace; unfold limits_from; cbn [page_limits omap list_omap fst];
    repeat constructor.
  all: match goal with
       | H1 : get_method ?e (lit "queryStringParameters") _ = Ok ?qs, H2 : get_method _ (lit "limit") _ = Ok ?la,
         H3 : Builtins.int ?la = Ok _ |- _ =>
           rewrite <- (limit_argument e qs la H1); [exact H3|];
           first [ exact H2 | rewrite ?Heqb; exact H2 ]
       end.
Qed.

(** C8, amended: the page size asked of the store is the supplied limit
    read as an integer, and 10 when the request supplies none; nothing
    else bounds it. *)
Theorem page_size_is_the_supplied_limit ev w n :
  In n (requested_limits ev w) ->
  Builtins.int (default (VInt 10) (supplied_limit ev)) = Ok n.
Proof.
  intros Hn. pose proof (get_hashes_limit ev w) as H.
  unfold post, limits_from in H. rewrite List.Forall_forall in H.
  apply H. exact Hn.
Qed.

Lemma page_size_is_the_supplied_limit_witness :
  In 10 (requested_limits (VDict []) (Scenario.fresh "hash"))
  /\ Builtins.int (default (VInt 10) (supplied_limit (VDict []))) = Ok 10.
Proof.
  assert (H : In 10 (requested_limits (VDict []) (Scenario.fresh "hash")))
    by (vm_compute; left; reflexivity).
  split; [exact H|].
  exact (page_size_is_the_supplied_limit (VDict []) (Scenario.fresh "hash") 10 H).
Defined.

(** A request for [n] records of an empty table asks the store for [n]. *)
Lemma page_request_limit n :
  1 <= n ->
  requested_limits (Scenario.page_request (VInt n)) (Scenario.fresh "hash") = [n].
Proof.
  intros Hn.
  unfold requested_limits, get_hashes.lambda_handler, Scenario.page_request.
  unfold try_except, bind, lift, scan_page, service.
  sim. rewrite (proj2 (Z.ltb_ge n 1)) by lia. sim.
  rewrite !take_nil. cbn [length Z.of_nat].
  destruct n as [|p|p]; try lia.
  reflexivity.
Qed.

(** C8, as the specification states it, fails: whatever the cap, a
    request can ask the store for a larger page. *)
Lemma page_size_has_no_upper_cap :
  ~ exists cap : Z, forall ev w n, In n (requested_limits ev w) -> n <= cap.
Proof.
  intros [cap H].
  specialize (H (Scenario.page_request (VInt (Z.max cap 0 + 1)))
                (Scenario.fresh "hash") (Z.max cap 0 + 1)).
  rewrite page_request_limit in H by lia.
  specialize (H (or_introl eq_refl)). lia.
Qed.

(** A page of a million records is asked for as such. *)
Example a_million_is_requested :
  requested_limits (Scenario.page_request (VStr (lit "1000000")))
    (Scenario.fresh "hash") = [1000000].
Proof. vm_compute. reflexivity. Qed.

(* ===================================================================== *)
(** ** The cursor of a listing (C5) *)
(* ===================================================================== *)

(** Comparisons of integers that the context decides. *)
Ltac zbool :=
  repeat match goal with
    | |- context [?a <=? ?b] =>
        first [ rewrite (proj2 (Z.leb_le a b)) by lia
              | rewrite (proj2 (Z.leb_gt a b)) by lia ]
    | |- context [?a <? ?b] =>
        first [ rewrite (proj2 (Z.ltb_lt a b)) by lia
              | rewrite (proj2 (Z.ltb_ge a b)) by lia ]
    | |- context [?a =? ?b] =>
        first [ rewrite (proj2 (Z.eqb_eq a b)) by lia
              | rewrite (proj2 (Z.eqb_neq a b)) by lia ]
    end.

(** *** Bits *)

Lemma land_15 a : Z.land a 15 = a mod 16.
Proof. change 15 with (Z.ones 4). rewrite Z.land_ones by lia. reflexivity. Qed.

Lemma land_1023 a : Z.land a 1023 = a mod 1024.
Proof. change 1023 with (Z.ones 10). rewrite Z.land_ones by lia. reflexivity. Qed.

(** Bits put side by side add up. *)
Lemma lor_shiftl_add a b n :
  0 <= n -> 0 <= b < 2 ^ n -> Z.lor (Z.shiftl a n) b = a * 2 ^ n + b.
Proof.
  intros Hn Hb. rewrite Z.shiftl_mul_pow2 by lia.
  rewrite Z.add_nocarry_lxor, Z.lxor_lor; [reflexivity| |].
  all: apply Z.bits_inj'; intros i Hi; rewrite Z.land_spec, Z.bits_0.
  all: destruct (Z.lt_ge_cases i n) as [Hlt|Hge].
  all: try (rewrite Z.mul_pow2_bits_low by lia; reflexivity).
  all: rewrite <- (Z.mod_small b (2 ^ n)) by lia.
  all: rewrite Z.mod_pow2_bits_high by lia; apply andb_false_r.
Qed.

Lemma hex_val_digit upper d : 0 <= d < 16 -> hex_val (hex_digit upper d) = Some d.
Proof.
  intros Hd. unfold hex_val, hex_digit.
  destruct (Z.ltb_spec d 10), upper; zbool; cbn [andb]; f_equal; lia.
Qed.

Ltac zdm := Z.div_mod_to_equations; lia.

(** Four hexadecimal digits are read back as the number they write. *)
Lemma hex4_val_hex4 u r : 0 <= u < 65536 -> Json.hex4_val (Json.hex4 u ++ r) = Some (u, r).
Proof.
  intros Hu. unfold Json.hex4. cbn [app Json.hex4_val].
  rewrite !land_15, !Z.shiftr_div_pow2 by lia.
  rewrite !hex_val_digit by (apply Z.mod_pos_bound; lia).
  f_equal. f_equal.
  change (2 ^ 12) with 4096; change (2 ^ 8) with 256; change (2 ^ 4) with 16.
  rewrite (lor_shiftl_add _ (u mod 16) 4) by (change (2 ^ 4) with 16; zdm).
  rewrite (lor_shiftl_add _ _ 8) by (change (2 ^ 8) with 256; change (2 ^ 4) with 16; zdm).
  rewrite (lor_shiftl_add _ _ 12)
    by (change (2 ^ 12) with 4096; change (2 ^ 8) with 256; change (2 ^ 4) with 16; zdm).
  change (2 ^ 12) with 4096; change (2 ^ 8) with 256; change (2 ^ 4) with 16.
  zdm.
Qed.

(** *** Strings: [scanstring] reads back what [encode_basestring_ascii] wrote *)

(** The escape of a character, by cases. *)
Lemma escape_char_eq c :
  Json.escape_char c =
    if c =? 34 then [92; 34]
    else if c =? 92 then [92; 92]
    else if c =? 10 then [92; 110]
    else if c =? 13 then [92; 114]
    else if c =? 9 then [92; 116]
    else if c =? 8 then [92; 98]
    else if c =? 12 then [92; 102]
    else if (32 <=? c) && (c <=? 126) then [c]
    else if c <? 0x10000 then 92 :: 117 :: Json.hex4 c
    else 92 :: 117 :: Json.hex4 (high_half c) ++ 92 :: 117 :: Json.hex4 (low_half c).
Proof.
  unfold Json.escape_char.
  repeat match goal with |- (if ?b then _ else _) = _ => destruct b; [reflexivity|] end.
  reflexivity.
Qed.

Lemma halves c :
  0x10000 <= c < 0x110000 ->
  high_half c = 0xD800 + (c - 0x10000) / 1024
  /\ low_half c = 0xDC00 + (c - 0x10000) mod 1024.
Proof.
  intros Hc. unfold high_half, low_half.
  rewrite !land_1023, Z.shiftr_div_pow2 by lia. change (2 ^ 10) with 1024.
  change 0xD800 with (Z.shiftl 54 10). change 0xDC00 with (Z.shiftl 55 10).
  rewrite !lor_shiftl_add by (change (2 ^ 10) with 1024; zdm).
  change (2 ^ 10) with 1024. rewrite !Z.shiftl_mul_pow2 by lia.
  change (2 ^ 10) with 1024. split; zdm.
Qed.

Lemma join_halves c :
  0x10000 <= c < 0x110000 -> Json.join_surrogates (high_half c) (low_half c) = c.
Proof.
  intros Hc. destruct (halves c Hc) as [-> ->]. unfold Json.join_surrogates.
  rewrite !land_1023.
  rewrite lor_shiftl_add by (change (2 ^ 10) with 1024; zdm).
  change (2 ^ 10) with 1024. zdm.
Qed.

(** One character: the scanner consumes its escape and yields it. *)
Lemma scanstring_escape_char c f t acc :
  scalar c ->
  Json.scanstring (S f) (Json.escape_char c ++ t) acc = Json.scanstring f t (c :: acc).
Proof.
  intros [[Hlo Hhi] Hs]. unfold is_surrogate in Hs.
  rewrite escape_char_eq.
  destruct (Z.eqb_spec c 34) as [->|H34]; [reflexivity|].
  destruct (Z.eqb_spec c 92) as [->|H92]; [reflexivity|].
  destruct (Z.eqb_spec c 10) as [->|H10]; [reflexivity|].
  destruct (Z.eqb_spec c 13) as [->|H13]; [reflexivity|].
  destruct (Z.eqb_spec c 9) as [->|H9]; [reflexivity|].
  destruct (Z.eqb_spec c 8) as [->|H8]; [reflexivity|].
  destruct (Z.eqb_spec c 12) as [->|H12]; [reflexivity|].
  destruct ((32 <=? c) && (c <=? 126)) eqn:Hp.
  - apply andb_true_iff in Hp as [Hp1 Hp2].
    apply Z.leb_le in Hp1. apply Z.leb_le in Hp2.
    cbn [app Json.scanstring]. zbool. reflexivity.
  - destruct (Z.ltb_spec c 0x10000) as [Hb|Hb].
    + cbn [app Json.scanstring]. change (92 =? 34) with false.
      change (92 =? 92) with true. change (117 =? 117) with true. cbn iota.
      rewrite hex4_val_hex4 by lia.
      assert (Hh : Json.is_high_surrogate c = false).
      { unfold Json.is_high_surrogate.
        apply andb_false_iff. apply andb_false_iff in Hs as [Hs|Hs];
          [left; exact Hs|]. right. apply Z.leb_gt. apply Z.leb_gt in Hs. lia. }
      rewrite Hh. reflexivity.
    + destruct (halves c (conj Hb Hhi)) as [Eh El].
      cbn [app Json.scanstring]. change (92 =? 34) with false.
      change (92 =? 92) with true. change (117 =? 117) with true. cbn iota.
      rewrite <- app_assoc, <- !app_comm_cons.
      rewrite (hex4_val_hex4 (high_half c)) by (rewrite Eh; zdm).
      assert (Hh : Json.is_high_surrogate (high_half c) = true).
      { unfold Json.is_high_surrogate. rewrite Eh. apply andb_true_iff.
        split; apply Z.leb_le; zdm. }
      rewrite Hh.
      rewrite (hex4_val_hex4 (low_half c)) by (rewrite El; zdm).
      assert (Hl : Json.is_low_surrogate (low_half c) = true).
      { unfold Json.is_low_surrogate. rewrite El. apply andb_true_iff.
        split; apply Z.leb_le; zdm. }
      rewrite Hl, join_halves by lia. reflexivity.
Qed.

(** A whole string, up to its closing quote. *)
Lemma scanstring_escaped s : forall f t acc,
  is_text s -> (length s < f)%nat ->
  Json.scanstring f (concat (map Json.escape_char s) ++ 34 :: t) acc
  = Ok (rev acc ++ s, t).
Proof.
  induction s as [|c s IH]; intros f t acc Hs Hf.
  - destruct f; [cbn in Hf; lia|]. cbn. rewrite app_nil_r. reflexivity.
  - destruct f; [cbn in Hf; lia|].
    apply Forall_cons in Hs as [Hc Hs].
    cbn [map concat]. rewrite <- app_assoc.
    rewrite scanstring_escape_char by exact Hc.
    rewrite IH by (try exact Hs; cbn in Hf; lia).
    cbn [rev]. rewrite <- app_assoc. reflexivity.
Qed.

Lemma escape_char_length c : (1 <= length (Json.escape_char c))%nat.
Proof.
  rewrite escape_char_eq.
  repeat match goal with |- context [if ?b then _ else _] => destruct b end;
    cbn [length]; lia.
Qed.

Lemma escaped_length s : (length s <= length (concat (map Json.escape_char s)))%nat.
Proof.
  induction s as [|c s IH]; [reflexivity|].
  cbn [map concat length]. rewrite length_app.
  pose proof (escape_char_length c). lia.
Qed.

(** A string value at the head of the input. *)
Lemma scan_once_string f s t :
  is_text s ->
  Json.scan_once (S f) (Json.encode_basestring_ascii s ++ t) = Ok (VStr s, t).
Proof.
  intros Hs. unfold Json.encode_basestring_ascii.
  cbn [app Json.scan_once]. rewrite <- app_assoc. cbn [app].
  rewrite scanstring_escaped; [reflexivity|exact Hs|].
  rewrite length_app. cbn [length]. pose proof (escaped_length s). lia.
Qed.

(** *** Objects: [loads] reads back what [dumps] wrote for a string key *)

(** The text of a key: its members between braces. *)
Lemma dumps_string_key k :
  Json.dumps (VDict (string_key k))
  = Ok (Json.bracket None 0 123 125 (map member k)).
Proof.
  unfold Json.dumps. rewrite dumps_at_dict.
  assert (E : dumps_members (Json.dumps_at None false 1) (string_key k)
              = Ok (map member k)).
  { induction k as [|[a v] k IH]; [reflexivity|].
    change (string_key ((a, v) :: k)) with ((a, VStr v) :: string_key k).
    cbn [dumps_members]. rewrite IH. reflexivity. }
  rewrite E. reflexivity.
Qed.

Lemma member_head av r : exists r', member av ++ r = 34 :: r'.
Proof. unfold member, Json.encode_basestring_ascii. cbn [app]. eauto. Qed.

Lemma skip_ws_quote r : Json.skip_ws (34 :: r) = 34 :: r.
Proof. reflexivity. Qed.

(** One member, and what follows it. *)
Lemma parse_object_member f a v rest acc :
  is_text a -> is_text v ->
  Json.parse_object (S (S f)) (member (a, v) ++ rest) acc
  = match Json.skip_ws rest with
    | 125 :: t => Ok (VDict (dict_set acc a (VStr v)), t)
    | 44 :: r4 => Json.parse_object (S f) (Json.skip_ws r4) (dict_set acc a (VStr v))
    | _ => Json.decode_error "Expecting ',' delimiter"
    end.
Proof.
  intros Ha Hv. unfold member. cbn [fst snd].
  unfold Json.encode_basestring_ascii at 1. change (lit ": ") with [58; 32].
  cbn [app]. rewrite <- !app_assoc. cbn [app].
  cbn [Json.parse_object].
  rewrite scanstring_escaped;
    [|exact Ha|rewrite length_app; cbn [length]; pose proof (escaped_length a); lia].
  cbn [rev app mbind outcome_bind obind].
  change (Json.skip_ws (58 :: 32 :: ?r)) with (58 :: 32 :: r).
  cbn iota.
  change (Json.skip_ws (32 :: ?r)) with (Json.skip_ws r).
  unfold Json.encode_basestring_ascii at 1. cbn [app]. rewrite skip_ws_quote.
  change (34 :: (concat (map Json.escape_char v) ++ [34]) ++ rest)
    with (Json.encode_basestring_ascii v ++ rest).
  rewrite scan_once_string by exact Hv.
  reflexivity.
Qed.

(** The members of a key, up to the closing brace. *)
Lemma parse_object_members k : forall f acc t,
  k <> [] -> texts k -> (length k < f)%nat ->
  Json.parse_object f (Json.join (lit ", ") (map member k) ++ 125 :: t) acc
  = Ok (VDict (set_all k acc), t).
Proof.
  induction k as [|[a v] k IH]; intros f acc t Hne Hk Hf; [congruence|].
  apply Forall_cons in Hk as [[Ha Hv] Hk]. cbn [fst snd] in Ha, Hv.
  destruct f as [|[|f]]; try (cbn in Hf; lia).
  destruct k as [|av k].
  - cbn [map Json.join]. rewrite parse_object_member by assumption.
    reflexivity.
  - change (Json.join (lit ", ") (map member ((a, v) :: av :: k)))
      with (member (a, v) ++ [44; 32] ++ Json.join (lit ", ") (map member (av :: k))).
    rewrite <- !app_assoc. rewrite parse_object_member by assumption.
    cbn [app]. change (Json.skip_ws (44 :: ?r)) with (44 :: r). cbn iota.
    change (Json.skip_ws (32 :: ?r)) with (Json.skip_ws r).
    assert (Hq : forall r, Json.skip_ws (Json.join (lit ", ") (map member (av :: k)) ++ r)
                 = Json.join (lit ", ") (map member (av :: k)) ++ r).
    { intros r. destruct k as [|av' k].
      - cbn [map Json.join]. destruct (member_head av r) as [r' ->]. reflexivity.
      - change (Json.join (lit ", ") (map member (av :: av' :: k)))
          with (member av ++ [44; 32] ++ Json.join (lit ", ") (map member (av' :: k))).
        rewrite <- app_assoc. destruct (member_head av (([44; 32] ++
          Json.join (lit ", ") (map member (av' :: k))) ++ r)) as [r' ->].
        reflexivity. }
    rewrite Hq. rewrite IH; [reflexivity|discriminate|exact Hk|cbn in Hf |- *; lia].
Qed.

Lemma dict_set_fresh d a v :
  Forall (fun kv => fst kv <> a) d -> dict_set d a v = d ++ [(a, v)].
Proof.
  induction d as [|[k x] d IH]; intros H; [reflexivity|].
  apply Forall_cons in H as [Hk H]. cbn [fst] in Hk.
  cbn [dict_set app]. unfold str_eqb. rewrite bool_decide_eq_false_2 by exact Hk.
  rewrite IH by exact H. reflexivity.
Qed.

(** Members with distinct names are kept in order. *)
Lemma set_all_fresh k : forall acc,
  NoDup (map fst k) ->
  Forall (fun kv => ~ In (fst kv) (map fst k)) acc ->
  set_all k acc = acc ++ string_key k.
Proof.
  induction k as [|[a v] k IH]; intros acc Hnd Hacc.
  - cbn. rewrite app_nil_r. reflexivity.
  - cbn [map fst] in Hnd. apply NoDup_cons in Hnd as [Ha Hnd].
    cbn [set_all fold_left fst snd].
    rewrite dict_set_fresh.
    + change (fold_left _ k ?x) with (set_all k x).
      rewrite IH; [rewrite <- app_assoc; reflexivity|exact Hnd|].
      apply Forall_app. split.
      * eapply Forall_impl; [exact Hacc|]. cbn. intros kv H Hin. apply H. right. exact Hin.
      * constructor; [|constructor]. cbn [fst]. intros Hin. apply Ha.
        apply list_elem_of_In. exact Hin.
    + eapply Forall_impl; [exact Hacc|]. cbn. intros kv H E. apply H. left. symmetry. exact E.
Qed.

Lemma members_length k :
  (length k <= length (Json.join (lit ", ") (map member k)))%nat.
Proof.
  induction k as [|av k IH]; [cbn; lia|].
  assert (Hm : (1 <= length (member av))%nat).
  { destruct (member_head av []) as [r' E]. rewrite app_nil_r in E. rewrite E. cbn. lia. }
  destruct k as [|av' k].
  - cbn [map Json.join length]. lia.
  - change (Json.join (lit ", ") (map member (av :: av' :: k)))
      with (member av ++ [44; 32] ++ Json.join (lit ", ") (map member (av' :: k))).
    rewrite !length_app. cbn [length] in *. lia.
Qed.

(** The text [dumps] writes for a key is read back as the key. *)
Lemma loads_dumps_string_key k s :
  NoDup (map fst k) -> texts k ->
  Json.dumps (VDict (string_key k)) = Ok s ->
  Json.loads s = Ok (VDict (string_key k)).
Proof.
  intros Hnd Hk. rewrite dumps_string_key. intros [= <-].
  destruct k as [|av k]; [reflexivity|].
  unfold Json.bracket. cbn [map Json.newline_indent Json.item_separator app].
  set (body := Json.join (lit ", ") (member av :: map member k)).
  unfold Json.loads.
  assert (Hlen : (length (av :: k) <= length body)%nat) by apply members_length.
  change (Json.skip_ws (123 :: ?r)) with (123 :: r).
  remember (2 * length ((123 :: body ++ [125])%Z : list Z) + 2)%nat as fuel eqn:Hfuel.
  cbn [length] in Hfuel. rewrite length_app in Hfuel. cbn [length] in Hfuel, Hlen.
  destruct fuel as [|fuel]; [lia|].
  cbn [Json.scan_once].
  assert (Hq : Json.skip_ws (body ++ [125]) = body ++ [125] /\
               exists r', body ++ [125] = 34 :: r').
  { subst body. destruct k as [|av' k].
    - cbn [map Json.join]. destruct (member_head av [125]) as [r' ->]. eauto.
    - change (Json.join (lit ", ") (member av :: map member (av' :: k)))
        with (member av ++ [44; 32] ++ Json.join (lit ", ") (map member (av' :: k))).
      rewrite <- app_assoc.
      destruct (member_head av (([44; 32] ++ Json.join (lit ", ")
        (map member (av' :: k))) ++ [125])) as [r' ->]. eauto. }
  destruct Hq as [Hq [r' Hr']]. rewrite Hq.
  assert (Hp : Json.parse_object fuel (body ++ [125]) []
               = Ok (VDict (set_all (av :: k) []), [])).
  { apply (parse_object_members (av :: k)); [discriminate|exact Hk|cbn [length]; lia]. }
  rewrite Hr' in Hp |- *. rewrite Hp.
  cbn [mbind outcome_bind obind Json.skip_ws].
  rewrite set_all_fresh; [reflexivity|exact Hnd|constructor].
Qed.

(** *** The text of a key is printable ASCII *)

Lemma hex_digit_printable upper d : 0 <= d < 16 -> printable (hex_digit upper d).
Proof.
  intros Hd. unfold printable, hex_digit.
  destruct (Z.ltb_spec d 10), upper; lia.
Qed.

Lemma hex4_printable u : Forall printable (Json.hex4 u).
Proof.
  unfold Json.hex4. rewrite !land_15.
  repeat constructor; apply hex_digit_printable; apply Z.mod_pos_bound; lia.
Qed.

Lemma escape_char_printable c : Forall printable (Json.escape_char c).
Proof.
  rewrite escape_char_eq.
  repeat match goal with
    | |- context [if ?b then _ else _] => destruct b eqn:?
    end;
    repeat first [ apply Forall_app; split
                 | apply hex4_printable
                 | apply Forall_cons; split
                 | apply Forall_nil ];
    unfold printable; lia.
Qed.

Lemma basestring_printable s : Forall printable (Json.encode_basestring_ascii s).
Proof.
  unfold Json.encode_basestring_ascii. apply Forall_app. split; [|apply Forall_app; split].
  - repeat constructor; unfold printable; lia.
  - induction s as [|c s IH]; [constructor|].
    cbn [map concat]. apply Forall_app. split; [apply escape_char_printable|exact IH].
  - repeat constructor; unfold printable; lia.
Qed.

Lemma member_printable av : Forall printable (member av).
Proof.
  unfold member. change (lit ": ") with [58; 32].
  apply Forall_app. split; [apply basestring_printable|].
  apply Forall_app. split; [|apply basestring_printable].
  repeat constructor; unfold printable; lia.
Qed.

Lemma dumps_string_key_printable k s :
  Json.dumps (VDict (string_key k)) = Ok s -> Forall printable s.
Proof.
  rewrite dumps_string_key. intros [= <-].
  assert (Hj : Forall printable (Json.join (lit ", ") (map member k))).
  { induction k as [|av k IH]; [constructor|].
    destruct k as [|av' k]; [exact (member_printable av)|].
    change (Json.join (lit ", ") (map member (av :: av' :: k)))
      with (member av ++ [44; 32] ++ Json.join (lit ", ") (map member (av' :: k))).
    apply Forall_app. split; [apply member_printable|].
    apply Forall_app. split; [repeat constructor; unfold printable; lia|exact IH]. }
  destruct k as [|av k]; [repeat constructor; unfold printable; lia|].
  unfold Json.bracket. cbn [map Json.newline_indent Json.item_separator app].
  apply Forall_cons. split; [unfold printable; lia|].
  apply Forall_app. split; [exact Hj|repeat constructor; unfold printable; lia].
Qed.

(** *** Quoting and unquoting *)

Lemma encode_printable s : Forall printable s -> Utf8.encode s = Some s.
Proof.
  induction 1 as [|c s Hc _ IH]; [reflexivity|].
  cbn [Utf8.encode]. rewrite IH. unfold Utf8.encode_cp, printable in *. zbool. reflexivity.
Qed.

(** One octet: what [quote_byte] writes, with the plus signs turned into
    spaces, is unquoted to the octet. *)
Lemma unquote_quote_byte b t :
  printable b ->
  Url.unquote_to_bytes (map plus_to_space (Url.quote_byte b) ++ t)
  = b :: Url.unquote_to_bytes t.
Proof.
  intros Hb. unfold printable in Hb. unfold Url.quote_byte.
  destruct (Url.always_safe b) eqn:Hsafe.
  - assert (b <> 43 /\ b <> 37) as [H43 H37].
    { split; intros ->; discriminate. }
    cbn [map app Url.unquote_to_bytes]. unfold plus_to_space. zbool. reflexivity.
  - destruct (Z.eqb_spec b 32) as [->|H32]; [reflexivity|].
    cbn [map app]. unfold plus_to_space.
    assert (Hd : forall d, 0 <= d < 16 -> (hex_digit true d =? 43) = false).
    { intros d Hd. pose proof (hex_digit_printable true d Hd) as Hp.
      unfold hex_digit in *. destruct (d <? 10) eqn:E; apply Z.eqb_neq.
      - apply Z.ltb_lt in E. lia.
      - apply Z.ltb_ge in E. lia. }
    rewrite land_15, Z.shiftr_div_pow2 by lia. change (2 ^ 4) with 16.
    rewrite !Hd by zdm.
    change (37 =? 43) with false. cbn iota.
    cbn [Url.unquote_to_bytes]. change (37 =? 37) with true. cbn iota.
    rewrite !hex_val_digit by zdm.
    f_equal. zdm.
Qed.

Lemma unquote_quoted s :
  Forall printable s ->
  Url.unquote_to_bytes (map plus_to_space (concat (map Url.quote_byte s))) = s.
Proof.
  induction 1 as [|c s Hc _ IH]; [reflexivity|].
  cbn [map concat]. rewrite map_app, unquote_quote_byte by exact Hc.
  rewrite IH. reflexivity.
Qed.

Lemma decode_replace_ascii b : Forall seven_bit b -> Utf8.decode_replace b = b.
Proof.
  unfold Utf8.decode_replace. induction 1 as [|c b Hc _ IH]; [reflexivity|].
  cbn [length Utf8.decode_replace_fuel]. unfold seven_bit in Hc. zbool. rewrite IH. reflexivity.
Qed.

Lemma unquote_runs_ascii t : forall run,
  Forall seven_bit t -> Url.unquote_runs t run = Url.unquote_run (rev t ++ run).
Proof.
  induction t as [|c t IH]; intros run Ht; [reflexivity|].
  apply Forall_cons in Ht as [Hc Ht]. unfold seven_bit in Hc.
  cbn [Url.unquote_runs rev]. zbool. rewrite IH by exact Ht.
  rewrite <- app_assoc. reflexivity.
Qed.

Lemma unquote_to_bytes_plain t :
  existsb (Z.eqb 37) t = false -> Url.unquote_to_bytes t = t.
Proof.
  induction t as [|c t IH]; [reflexivity|].
  cbn [existsb]. intros H. apply orb_false_iff in H as [Hc Ht].
  cbn [Url.unquote_to_bytes]. rewrite Z.eqb_sym, Hc, IH by exact Ht. reflexivity.
Qed.

Lemma quote_byte_url b : printable b -> forallb url_char (Url.quote_byte b) = true.
Proof.
  intros Hb. unfold Url.quote_byte, url_char.
  destruct (Url.always_safe b) eqn:Hsafe; [cbn; rewrite Hsafe; reflexivity|].
  destruct (b =? 32); [reflexivity|].
  assert (Hd : forall d, 0 <= d < 16 -> Url.always_safe (hex_digit true d) = true).
  { intros d Hd. unfold Url.always_safe, hex_digit.
    destruct (Z.ltb_spec d 10); zbool; reflexivity. }
  unfold printable in Hb.
  cbn [forallb]. rewrite land_15, Z.shiftr_div_pow2 by lia. change (2 ^ 4) with 16.
  rewrite !Hd by zdm. reflexivity.
Qed.

(** An ASCII string is one run. *)
Lemma unquote_ascii t : Forall seven_bit t ->
  Url.unquote t = Utf8.decode_replace (Url.unquote_to_bytes t).
Proof.
  intros Ht. unfold Url.unquote. destruct (existsb (Z.eqb 37) t) eqn:E.
  - rewrite unquote_runs_ascii by exact Ht. unfold Url.unquote_run.
    rewrite app_nil_r, rev_involutive. reflexivity.
  - rewrite unquote_to_bytes_plain by exact E.
    rewrite decode_replace_ascii by exact Ht. reflexivity.
Qed.

(** What [quote_plus] writes for printable text, [unquote_plus] reads
    back. *)
Lemma unquote_plus_quote_plus s token :
  Forall printable s -> Url.quote_plus s = Ok token ->
  forallb url_char token = true /\ Url.unquote_plus (VStr token) = Ok s.
Proof.
  intros Hs. unfold Url.quote_plus. rewrite encode_printable by exact Hs.
  intros [= <-]. split.
  - induction Hs as [|c s Hc _ IH]; [reflexivity|].
    cbn [map concat]. rewrite forallb_app, quote_byte_url, IH by exact Hc. reflexivity.
  - unfold Url.unquote_plus. f_equal.
    change (fun c : Z => if c =? 43 then 32 else c) with plus_to_space.
    assert (Ha : Forall seven_bit (map plus_to_space (concat (map Url.quote_byte s)))).
    { apply Forall_forall. intros c Hc. apply list_elem_of_In in Hc.
      apply in_map_iff in Hc as [c' [<- Hc']].
      assert (Hu : url_char c' = true).
      { assert (Hall : forallb url_char (concat (map Url.quote_byte s)) = true).
        { clear Hc'. induction Hs as [|x s Hx _ IH]; [reflexivity|].
          cbn [map concat]. rewrite forallb_app, quote_byte_url, IH by exact Hx.
          reflexivity. }
        rewrite forallb_forall in Hall. apply Hall. exact Hc'. }
      unfold url_char, Url.always_safe, plus_to_space, seven_bit in *.
      destruct (Z.eqb_spec c' 43); [lia|].
      repeat match goal with
        | H : _ || _ = true |- _ => apply orb_true_iff in H as [H|H]
        | H : _ && _ = true |- _ => apply andb_true_iff in H as [? ?]
        | H : (_ <=? _) = true |- _ => apply Z.leb_le in H
        | H : (_ =? _) = true |- _ => apply Z.eqb_eq in H
        end; lia. }
    rewrite unquote_ascii by exact Ha.
    rewrite unquote_quoted by exact Hs.
    apply decode_replace_ascii.
    eapply Forall_impl; [exact Hs|]. unfold printable, seven_bit. intros; lia.
Qed.

(** C5: the token written for a resume key whose attributes hold text is
    made of URL characters only, and reading it gives the key back. *)
Theorem cursor_round_trip (k : list (pystr * pystr)) :
  NoDup (map fst k) -> texts k ->
  exists token,
    get_hashes.encode_cursor (string_key k) = Ok token
    /\ forallb url_char token = true
    /\ get_hashes.decode_cursor (VStr token) = Ok (VDict (string_key k)).
Proof.
  intros Hnd Hk. unfold get_hashes.encode_cursor, get_hashes.decode_cursor.
  destruct (Json.dumps (VDict (string_key k))) as [s| |] eqn:Hs;
    try (rewrite dumps_string_key in Hs; discriminate).
  pose proof (dumps_string_key_printable k s Hs) as Hp.
  cbn [mbind outcome_bind obind].
  assert (Hq : exists token, Url.quote_plus s = Ok token).
  { unfold Url.quote_plus. rewrite encode_printable by exact Hp. eauto. }
  destruct Hq as [token Hq]. exists token.
  destruct (unquote_plus_quote_plus s token Hp Hq) as [Hu Hback].
  split; [exact Hq|]. split; [exact Hu|].
  rewrite Hback. cbn [mbind outcome_bind obind].
  exact (loads_dumps_string_key k s Hnd Hk Hs).
Qed.

Lemma cursor_round_trip_witness :
  exists token,
    get_hashes.encode_cursor (string_key [(lit "hash", lit "2cf24dba")]) = Ok token
    /\ forallb url_char token = true
    /\ get_hashes.decode_cursor (VStr token)
       = Ok (VDict (string_key [(lit "hash", lit "2cf24dba")])).
Proof.
  apply (cursor_round_trip [(lit "hash", lit "2cf24dba")]).
  - apply NoDup_singleton.
  - repeat constructor; vm_compute; congruence.
Defined.

(** The resume key of a page is such a key. *)
Lemma resume_key_is_string_key (w : world) (row : pystr * pydict) :
  [(pk w, VStr (fst row))] = string_key [(pk w, fst row)].
Proof. reflexivity. Qed.

(** A listing of one record per page over two stored files: the second
    request, made with the token of the first page, asks the store to
    resume after the key that page ended with. *)
Example second_page_resumes_after_the_first :
  let w := snd (upload_file.lambda_handler (Scenario.text_upload "world" "c.txt")
                  (Scenario.after_hello "hash")) in
  let key := [(lit "hash", VStr (Sha256.hexdigest (lit "hello")))] in
  (token ← get_hashes.encode_cursor key;
   Ok (calls_since w
         (snd (get_hashes.lambda_handler
                 (VDict [(lit "queryStringParameters",
                          VDict [(lit "limit", VStr (lit "1"));
                                 (lit "last_evaluated_key", VStr token)])]) w))))
  = Ok [(ScanPage 1 (Some (VDict key)), true)].
Proof. vm_compute. reflexivity. Qed.

(* ===================================================================== *)
(** ** What an upload keeps true of the stores *)
(* ===================================================================== *)

Lemma hash_is_row_hash key row h :
  hash_is h (row_item key row) = true <-> row_hash key row = Some h.
Proof.
  unfold hash_is, row_hash.
  destruct (dict_get (row_item key row) (lit "hash")) as [[]|]; try (split; discriminate).
  unfold str_eqb. rewrite bool_decide_eq_true. split; congruence.
Qed.




(** Every run of the upload handler steps the table so. *)
Lemma upload_table_step ev w :
  post (upload_file.lambda_handler ev) w (fun _ w' => table_step w w').
Proof.
  unfold upload_file.lambda_handler, table_step.
  post_run; wsimp_all; (split; [reflexivity|]); try (left; reflexivity).
  all: right; eexists _, _; split; [reflexivity|].
  all: split; [unfold row_item; cbn [fst snd]; apply new_item_hash; [reflexivity|assumption]|].
  all: try assumption.
  all: match goal with
       | H : stored_record_of _ _ _ = Some [] |- _ =>
           destruct (stored_record_nonempty _ _ _ _ H) as (? & ? & ?); discriminate
       end.
Qed.



(** An attribute of the item put, read back from the row. *)
Lemma new_item_attr key metadata k a x :
  dict_get metadata a = Some (VStr x) ->
  (dict_get metadata key ≫= key_value) = Some k ->
  dict_get ((key, VStr k) :: map to_ddb_attr (remove_attr key metadata)) a = Some (VStr x).
Proof.
  intros Ha Hk. cbn [dict_get].
  destruct (str_eqb key a) eqn:E.
  - apply bool_decide_eq_true in E. subst key. rewrite Ha in Hk.
    change (key_value (VStr x) = Some k) in Hk.
    apply key_value_some in Hk. congruence.
  - rewrite dict_get_rest by exact E. rewrite Ha. reflexivity.
Qed.

Lemma put_row_Forall (P : pystr * pydict -> Prop) row t :
  Forall P t -> P row -> Forall P (put_row row t).
Proof.
  intros Ht Hrow. induction Ht as [|r t Hr Ht IH]; cbn [put_row].
  - constructor; [exact Hrow|constructor].
  - destruct (str_eqb (fst r) (fst row)); constructor; assumption.
Qed.

Lemma backed_insert key b k o row : backed key b row -> backed key (<[k := o]> b) row.
Proof.
  unfold backed. destruct (row_s3_key key row) as [k'|]; [|trivial].
  intros H. destruct (decide (k = k')) as [->|Hne].
  - rewrite lookup_insert_eq. eauto.
  - rewrite lookup_insert_ne by exact Hne. exact H.
Qed.

Lemma upload_stores_step ev w :
  post (upload_file.lambda_handler ev) w (fun _ w' => stores_step w w').
Proof.
  unfold upload_file.lambda_handler, stores_step.
  post_run; wsimp_all; (split; [reflexivity|]);
    try (left; split; reflexivity).
  all: right; eexists _, _; split; [reflexivity|].
  all: try (left; reflexivity).
  all: right; eexists; split; [reflexivity|].
  all: unfold row_s3_key, row_item; cbn [fst snd].
  all: erewrite new_item_attr; [reflexivity|reflexivity|assumption].
Qed.

(** X2: an upload keeps every record backed by a blob: if each record
    that names a blob named one of the bucket before, so it is after,
    whatever the event and the calls that fail. *)
Theorem upload_keeps_records_backed ev w :
  records_backed w ->
  records_backed (snd (upload_file.lambda_handler ev w)).
Proof.
  intros Hb. pose proof (upload_stores_step ev w) as H. unfold post, stores_step in H.
  unfold records_backed in *.
  destruct H as [Hpk [[Hbk Ht] | (k & o & Hbk & [Ht | (row & Ht & Hrow)])]];
    rewrite Hpk, Hbk, Ht; [exact Hb| |].
  - eapply Forall_impl; [exact Hb|]. intros row. apply backed_insert.
  - apply put_row_Forall.
    + eapply Forall_impl; [exact Hb|]. intros r. apply backed_insert.
    + unfold backed. rewrite Hrow, lookup_insert_eq. eauto.
Qed.

Lemma upload_keeps_records_backed_witness :
  records_backed (snd (upload_file.lambda_handler
                         (Scenario.text_upload "world" "c.txt")
                         (Scenario.after_hello "file_id"))).
Proof.
  apply (upload_keeps_records_backed (Scenario.text_upload "world" "c.txt")
           (Scenario.after_hello "file_id")).
  unfold records_backed. vm_compute.
  repeat constructor. eexists. reflexivity.
Defined.

(* ===================================================================== *)
(** ** The new-file path of an upload *)
(* ===================================================================== *)

Lemma record_dict_dumps r : exists text, Json.dumps (VDict (record_dict r)) = Ok text.
Proof. eexists. unfold Json.dumps. rewrite dumps_at_dict. reflexivity. Qed.

Lemma metadata_key (v : pyval) (rest : pydict) :
  dict_get ((lit "file_id", v) :: rest) (lit "file_id") = Some v.
Proof. reflexivity. Qed.

Lemma created_run ev w b fname ct :
  named_upload ev b fname ct ->
  pk w = lit "file_id" ->
  uuids w (uuid_next w) <> [] ->
  stored_record w (Sha256.hexdigest b) = None ->
  (forall n, faults w n = false) ->
  forall text, Json.dumps (VDict (record_dict (new_record w b fname ct))) = Ok text ->
  fst (upload_file.lambda_handler ev w) = Ok (Response 201 json_headers (Some text))
  /\ created_world w (snd (upload_file.lambda_handler ev w)) b (new_record w b fname ct).
Proof.
  intros (d & hdrs & -> & Hbody & Hheaders & Hdecode & Hname & Hne & Hct) Hpk Hid Hst Hf
    text Htext.
  unfold stored_record in Hst.
  assert (Hfn : dict_get_or hdrs (lit "filename") VNone = VStr fname)
    by (unfold dict_get_or; rewrite Hname; reflexivity).
  change (post (upload_file.lambda_handler (VDict d)) w (fun o w' =>
    o = Ok (Response 201 json_headers (Some text))
    /\ created_world w w' b (new_record w b fname ct))).
  unfold created_world, new_record, record_dict, row_by_id in *.
  cbn [file_id name size type hash created_at s3_key download_url] in *.
  remember (Sha256.hexdigest b) as h eqn:Eh.
  remember (Z.of_nat (length b)) as n eqn:En.
  unfold upload_file.lambda_handler.
  rewrite Hbody, Hheaders, Hdecode. cbn [negb].
  rewrite !Hfn, Hct.
  destruct fname as [|c fname]; [congruence|].
  change (truthy (VStr (c :: fname))) with true. cbv iota.
  post_run; wsimp_all; rewrite <- ?Eh, <- ?En in *.
  all: try match goal with
       | H : faults _ _ = true |- _ => rewrite Hf in H; discriminate H
       | H : faults _ _ = true \/ _ |- _ =>
           destruct H as [H|H]; [rewrite Hf in H; discriminate H|]
       end.
  all: try match goal with
       | H : forall s, VStr ?c <> VStr s |- _ => destruct (H c eq_refl)
       | H : stored_record_of _ _ _ = Some _ |- _ => rewrite Hst in H; discriminate H
       | H : (dict_get _ (pk _) ≫= key_value) = None |- _ =>
           rewrite Hpk, metadata_key in H; cbn [mbind option_bind] in H;
           rewrite key_value_str in H by exact Hid; discriminate H
       end.
  all: repeat match goal with
       | H : Builtins.str (VStr _) = Ok _ |- _ => cbn in H; inversion H; subst; clear H
       | H : VStr _ = VStr _ |- _ => inversion H; subst; clear H
       | H : (dict_get _ (pk _) ≫= key_value) = Some _ |- _ =>
           rewrite Hpk, metadata_key in H; cbn [mbind option_bind] in H;
           rewrite key_value_str in H by exact Hid; inversion H; subst; clear H
       end.
  all: match goal with
       | H : Json.dumps _ = Ok ?a |- _ =>
           tryif constr_eq H Htext then fail
           else (rewrite Htext in H; inversion H; subst; clear H)
       end.
  all: repeat (split; [reflexivity|]).
  all: split; [|reflexivity].
  all: rewrite Hpk; unfold remove_attr; cbn [List.filter fst negb]; str_eqb_lit;
    cbn [negb map to_ddb]; reflexivity.
Qed.

(** X3: in a table keyed by [file_id] whose calls do not fail, an upload
    of bytes that no record carries, under a name, is answered 201 with
    the new record; the blob is stored under [files/<hash>/<name>] with
    KMS encryption, the record is put in the table, and the counters are
    left as they were. *)
Theorem upload_creates_record ev w b fname ct :
  named_upload ev b fname ct ->
  pk w = lit "file_id" ->
  uuids w (uuid_next w) <> [] ->
  stored_record w (Sha256.hexdigest b) = None ->
  (forall n, faults w n = false) ->
  created_outcome ev w b (new_record w b fname ct).
Proof.
  intros Hev Hpk Hid Hst Hf.
  destruct (record_dict_dumps (new_record w b fname ct)) as [text Htext].
  destruct (created_run ev w b fname ct Hev Hpk Hid Hst Hf text Htext)
    as (Hok & _ & _ & _ & _ & Hb & Ht & Hc).
  exists text. auto.
Qed.

Lemma upload_creates_record_witness :
  created_outcome Scenario.hello_a (Scenario.fresh "file_id") (lit "hello")
    (new_record (Scenario.fresh "file_id") (lit "hello") (lit "a.txt") (lit "text/plain")).
Proof.
  apply (upload_creates_record Scenario.hello_a (Scenario.fresh "file_id")
           (lit "hello") (lit "a.txt") (lit "text/plain")).
  - eexists _, _. repeat split; try (vm_compute; reflexivity). vm_compute. congruence.
  - reflexivity.
  - vm_compute. congruence.
  - vm_compute. reflexivity.
  - intros n. reflexivity.
Defined.




(* ===================================================================== *)
(** ** Writes that fail during an upload *)
(* ===================================================================== *)

Lemma upload_blob_failure ev w :
  post (upload_file.lambda_handler ev) w (fun o w' => blob_failure w w' o).
Proof.
  unfold upload_file.lambda_handler.
  post_run; unfold blob_failure; trace; intros k0 b0 ct0 Hin; cbn [In] in Hin.
  all: repeat (destruct Hin as [Hin|Hin]; [try discriminate Hin|]); try contradiction.
  all: split; [reflexivity|repeat split].
Qed.

Lemma upload_orphaned_blob ev w :
  post (upload_file.lambda_handler ev) w (fun o w' => orphaned_blob w w' o).
Proof.
  unfold upload_file.lambda_handler.
  post_run; unfold orphaned_blob; trace; intros item0 Hin; cbn [In] in Hin.
  all: repeat (destruct Hin as [Hin|Hin]; [try discriminate Hin|]); try contradiction.
  all: inversion Hin; subst; clear Hin.
  all: split; [reflexivity|]; split; [reflexivity|]; split; [reflexivity|].
  all: eexists _, _, _; split; [reflexivity|]; split; reflexivity.
Qed.

(** X5: when the blob write of an upload fails, the upload is answered
    500 and nothing was written: the table, the counters and the bucket
    are as before. *)
Theorem failed_blob_write_changes_nothing ev w k b ct :
  In (PutObject k b ct, false)
     (calls_since w (snd (upload_file.lambda_handler ev w))) ->
  answered 500 (fst (upload_file.lambda_handler ev w))
  /\ same_stores w (snd (upload_file.lambda_handler ev w)).
Proof. intros Hin. exact (upload_blob_failure ev w k b ct Hin). Qed.

(** X6: when the metadata put of an upload fails, the upload is answered
    500 and no record is stored, but the blob written before stays in
    the bucket, under the key the record would have had. *)
Theorem failed_metadata_put_leaves_blob ev w item :
  In (PutItem item, false)
     (calls_since w (snd (upload_file.lambda_handler ev w))) ->
  answered 500 (fst (upload_file.lambda_handler ev w))
  /\ table (snd (upload_file.lambda_handler ev w)) = table w
  /\ counters (snd (upload_file.lambda_handler ev w)) = counters w
  /\ exists k b ct,
       dict_get item (lit "s3_key") = Some (VStr k)
       /\ dict_get item (lit "hash") = Some (VStr (Sha256.hexdigest b))
       /\ bucket (snd (upload_file.lambda_handler ev w))
          = <[k := S3Object b ct (lit "aws:kms")]> (bucket w).
Proof. intros Hin. exact (upload_orphaned_blob ev w item Hin). Qed.

Lemma failed_blob_write_changes_nothing_witness :
  answered 500
    (fst (upload_file.lambda_handler Scenario.hello_a
            (failing_at 1 (Scenario.fresh "hash"))))
  /\ same_stores (failing_at 1 (Scenario.fresh "hash"))
       (snd (upload_file.lambda_handler Scenario.hello_a
               (failing_at 1 (Scenario.fresh "hash")))).
Proof.
  apply (failed_blob_write_changes_nothing Scenario.hello_a
           (failing_at 1 (Scenario.fresh "hash"))
           (lit "files/" ++ Sha256.hexdigest (lit "hello") ++ lit "/a.txt")
           (lit "hello") (VStr (lit "text/plain"))).
  vm_compute. right. left. reflexivity.
Defined.

Lemma failed_metadata_put_leaves_blob_witness :
  exists item,
    In (PutItem item, false)
       (calls_since (failing_at 2 (Scenario.fresh "hash"))
          (snd (upload_file.lambda_handler Scenario.hello_a
                  (failing_at 2 (Scenario.fresh "hash")))))
    /\ table (snd (upload_file.lambda_handler Scenario.hello_a
                     (failing_at 2 (Scenario.fresh "hash")))) = []
    /\ bucket (snd (upload_file.lambda_handler Scenario.hello_a
                      (failing_at 2 (Scenario.fresh "hash"))))
         !! (lit "files/" ++ Sha256.hexdigest (lit "hello") ++ lit "/a.txt")
       <> None.
Proof.
  eexists.
  assert (Hin : In (PutItem _, false)
       (calls_since (failing_at 2 (Scenario.fresh "hash"))
          (snd (upload_file.lambda_handler Scenario.hello_a
                  (failing_at 2 (Scenario.fresh "hash"))))))
    by (vm_compute; right; right; left; reflexivity).
  split; [exact Hin|].
  destruct (failed_metadata_put_leaves_blob Scenario.hello_a
              (failing_at 2 (Scenario.fresh "hash")) _ Hin)
    as (_ & Ht & _ & k & b & ct & Hk & _ & Hb).
  split; [exact Ht|].
  rewrite Hb. vm_compute in Hk. inversion Hk; subst k.
  intros H. vm_compute in H. discriminate H.
Defined.

(* ===================================================================== *)
(** ** Uploads without a name *)
(* ===================================================================== *)

(** X7: an upload without a file name and a content type is stored under
    the name [<uuid>.bin] with the type [application/octet-stream], and
    its record takes the identifier drawn after the one of the name. *)
Theorem unnamed_upload_gets_generated_name ev w b :
  bare_upload ev b ->
  Forall (default_named w b) (calls_since w (snd (upload_file.lambda_handler ev w))).
Proof.
  intros (d & hdrs & -> & Hbody & Hheaders & Hdecode & Hname & Hct).
  change (post (upload_file.lambda_handler (VDict d)) w
            (fun _ w' => Forall (default_named w b) (calls_since w w'))).
  unfold upload_file.lambda_handler.
  rewrite Hbody, Hheaders, Hdecode. cbn [negb].
  assert (Hty : dict_get_or hdrs (lit "content-type")
                  (VStr (lit "application/octet-stream"))
                = VStr (lit "application/octet-stream"))
    by (unfold dict_get_or; rewrite Hct; reflexivity).
  rewrite Hname, Hty.
  post_run; trace.
  all: repeat match goal with
       | H : Builtins.str (VStr _) = Ok _ |- _ => cbn in H; inversion H; subst; clear H
       end.
  all: repeat constructor.
Qed.

Lemma unnamed_upload_gets_generated_name_witness :
  Forall (default_named (Scenario.fresh "hash") (lit "hello"))
    (calls_since (Scenario.fresh "hash")
       (snd (upload_file.lambda_handler
               (VDict [(lit "body", VStr (lit "hello")); (lit "headers", VDict [])])
               (Scenario.fresh "hash")))).
Proof.
  apply (unnamed_upload_gets_generated_name
           (VDict [(lit "body", VStr (lit "hello")); (lit "headers", VDict [])])
           (Scenario.fresh "hash") (lit "hello")).
  eexists _, _. repeat split; vm_compute; reflexivity.
Defined.

(* ===================================================================== *)
(** ** The queries *)
(* ===================================================================== *)

(** X8: the four queries write nothing: after get_hashes, get_file,
    get_metadata or get_stats the table, the counters and the bucket are
    as before, whatever the event and the calls that fail. *)
Theorem queries_change_no_store ev w :
  same_stores w (snd (get_hashes.lambda_handler ev w))
  /\ same_stores w (snd (get_file.lambda_handler ev w))
  /\ same_stores w (snd (get_metadata.lambda_handler ev w))
  /\ same_stores w (snd (get_stats.lambda_handler ev w)).
Proof.
  split; [exact (get_hashes_reads ev w)|].
  split; [exact (get_file_reads ev w)|].
  split; [exact (get_metadata_reads ev w)|exact (get_stats_reads ev w)].
Qed.

(* ===================================================================== *)
(** ** Decimals *)
(* ===================================================================== *)

(** The encoder and the conversion agree at every level of a document. *)
Lemma dumps_at_convert indent v : forall level,
  Json.dumps_at indent true level v
  = Json.dumps_at indent false level (get_hashes.convert_decimals v).
Proof.
  induction v using pyval_nested_ind; intros level; try reflexivity.
  - cbn [get_hashes.convert_decimals]. rewrite !dumps_at_list. f_equal.
    induction H as [|x l Hx _ IH]; [reflexivity|].
    cbn [map dumps_items]. rewrite Hx, IH. reflexivity.
  - cbn [get_hashes.convert_decimals]. rewrite !dumps_at_dict. f_equal.
    induction H as [|[k x] d Hx _ IH]; [reflexivity|].
    cbn [map dumps_members]. cbn [snd] in Hx. rewrite Hx, IH. reflexivity.
Qed.

Lemma replace_is_convert v :
  get_metadata.replace_decimals v = get_hashes.convert_decimals v.
Proof. reflexivity. Qed.


(** X10: the encoder of the upload handler writes, for every value, the
    text that [json.dumps] writes for the converted value: the record of
    a duplicate reads the same in the 409 of upload and in the 200 of
    get_metadata. *)
Theorem decimal_encoder_is_conversion v :
  upload_file.dumps_DecimalEncoder v = Json.dumps (get_metadata.replace_decimals v).
Proof.
  rewrite replace_is_convert.
  unfold upload_file.dumps_DecimalEncoder, Json.dumps_DecimalEncoder, Json.dumps.
  apply dumps_at_convert.
Qed.

(* ===================================================================== *)
(** ** The attributes of a listed record *)
(* ===================================================================== *)

Lemma str_eqb_eq a b : str_eqb a b = true <-> a = b.
Proof. unfold str_eqb. apply bool_decide_eq_true. Qed.

Lemma str_eqb_sym a b : str_eqb a b = str_eqb b a.
Proof.
  destruct (str_eqb a b) eqn:E1, (str_eqb b a) eqn:E2; try reflexivity.
  - apply str_eqb_eq in E1. subst. rewrite str_eqb_refl in E2. discriminate.
  - apply str_eqb_eq in E2. subst. rewrite str_eqb_refl in E1. discriminate.
Qed.

Lemma fold_pick item attrs : forall acc a,
  dict_get (fold_left (pick item) attrs acc) a
  = match (if existsb (str_eqb a) attrs then dict_get item a else None) with
    | Some v => Some v
    | None => dict_get acc a
    end.
Proof.
  induction attrs as [|attr attrs IH]; intros acc a; [reflexivity|].
  cbn [fold_left existsb]. rewrite IH.
  destruct (existsb (str_eqb a) attrs) eqn:Ex.
  - rewrite orb_true_r. destruct (dict_get item a) as [v|] eqn:Ea; [reflexivity|].
    unfold pick. destruct (dict_get item attr) as [v'|] eqn:Et; [|reflexivity].
    apply dict_get_set_ne. intros ->. congruence.
  - rewrite orb_false_r. destruct (str_eqb a attr) eqn:E.
    + apply str_eqb_eq in E. subst attr. unfold pick.
      destruct (dict_get item a) as [v|]; [apply dict_get_set_eq|reflexivity].
    + unfold pick. destruct (dict_get item attr) as [v'|]; [|reflexivity].
      apply dict_get_set_ne. intros ->. rewrite str_eqb_refl in E. discriminate.
Qed.

(** X11: a listed record carries the attributes of the stored one that
    are among the eight the listing names, each with its value, and no
    other attribute. *)
Theorem rename_keeps_listed_attributes item a :
  dict_get (get_hashes.rename item) a
  = if existsb (str_eqb a) (map snd get_hashes.alias_map)
    then dict_get item a
    else None.
Proof.
  unfold get_hashes.rename.
  change (fold_left _ (map snd get_hashes.alias_map) [])
    with (fold_left (pick item) (map snd get_hashes.alias_map) []).
  rewrite fold_pick.
  destruct (existsb (str_eqb a) (map snd get_hashes.alias_map));
    [destruct (dict_get item a)|]; reflexivity.
Qed.

(* ===================================================================== *)
(** ** Lookups without an id *)
(* ===================================================================== *)

(** X12: a lookup without an id is answered 400 by both handlers, before
    any call on the stores; get_file answers without headers. *)
Theorem lookup_without_id_is_rejected event w :
  no_id event ->
  get_metadata.lambda_handler event w
  = (Ok (Response 400 json_headers
           (Some (error_text "File ID is required in the path"))), w)
  /\ get_file.lambda_handler event w
     = (Ok (Response 400 None (Some (error_text "File ID is required"))), w).
Proof.
  intros (ev & -> & [Hp | (pp & Hp & [Hi | Hi])]);
    unfold get_metadata.lambda_handler, get_file.lambda_handler, try_except, bind, lift,
      get_method, dict_get_or;
    rewrite Hp; cbn [dict_get]; rewrite ?Hi; split; reflexivity.
Qed.

Lemma lookup_without_id_is_rejected_witness :
  get_metadata.lambda_handler (VDict []) (Scenario.fresh "file_id")
  = (Ok (Response 400 json_headers
           (Some (error_text "File ID is required in the path"))),
     Scenario.fresh "file_id")
  /\ get_file.lambda_handler (VDict []) (Scenario.fresh "file_id")
     = (Ok (Response 400 None (Some (error_text "File ID is required"))),
        Scenario.fresh "file_id").
Proof.
  apply (lookup_without_id_is_rejected (VDict []) (Scenario.fresh "file_id")).
  exists []. split; [reflexivity|]. left. reflexivity.
Defined.

Lemma falsy_is_no_key v : truthy v = false -> key_value v = None.
Proof. destruct v as [| | | |[|c s]| |]; cbn; congruence. Qed.

(** X13: an id that is empty, or otherwise false without being null, is
    told apart by the two handlers: get_file answers 400 without a call,
    get_metadata asks the table, which rejects the key, and answers 500. *)
Theorem empty_id_divides_the_lookups v w :
  truthy v = false -> v <> VNone ->
  get_file.lambda_handler (Scenario.by_id v) w
  = (Ok (Response 400 None (Some (error_text "File ID is required"))), w)
  /\ get_metadata.lambda_handler (Scenario.by_id v) w
     = (Ok (Response 500 json_headers (Some (error_text "Internal server error"))),
        logged (GetItem (lit "file_id") v) false w).
Proof.
  intros Hv Hn. pose proof (falsy_is_no_key v Hv) as Hk. split.
  - unfold get_file.lambda_handler, Scenario.by_id, bind, lift. sim.
    rewrite Hv. reflexivity.
  - assert (Hg : get_item (lit "file_id") v w
                 = (raise "ClientError", logged (GetItem (lit "file_id") v) false w)).
    { unfold get_item, service. rewrite Hk.
      destruct (faults w (length (log w))); [reflexivity|].
      destruct (str_eqb (lit "file_id") (pk w)); reflexivity. }
    unfold get_metadata.lambda_handler, Scenario.by_id, try_except, bind, lift. sim.
    destruct v; try congruence; rewrite Hg; reflexivity.
Qed.

Lemma empty_id_divides_the_lookups_witness :
  get_file.lambda_handler (Scenario.by_id (VStr [])) (Scenario.fresh "file_id")
  = (Ok (Response 400 None (Some (error_text "File ID is required"))),
     Scenario.fresh "file_id")
  /\ get_metadata.lambda_handler (Scenario.by_id (VStr [])) (Scenario.fresh "file_id")
     = (Ok (Response 500 json_headers (Some (error_text "Internal server error"))),
        logged (GetItem (lit "file_id") (VStr [])) false (Scenario.fresh "file_id")).
Proof.
  apply (empty_id_divides_the_lookups (VStr []) (Scenario.fresh "file_id"));
    [reflexivity|discriminate].
Defined.

(* ===================================================================== *)
(** ** Listing requests that cannot be read *)
(* ===================================================================== *)

(** X14: a listing request whose limit or cursor cannot be read is
    answered 500 without any call on the table. *)
Theorem unreadable_listing_request_is_a_server_error event params w :
  query_parameters event params -> unreadable params ->
  get_hashes.lambda_handler event w = (Ok (Response 500 json_headers None), w).
Proof.
  intros (ev & -> & Hq) Hbad. cbn zeta in Hq.
  unfold get_hashes.lambda_handler, try_except, bind, lift.
  unfold get_method at 1. rewrite Hq. unfold get_method.
  destruct Hbad as [(e & He) | (n & token & e & Hn & Ht & Hd)].
  - rewrite He. reflexivity.
  - rewrite Hn, Ht, Hd. reflexivity.
Qed.

Lemma unreadable_listing_request_is_a_server_error_witness :
  get_hashes.lambda_handler (Scenario.page_request (VStr (lit "ten")))
    (Scenario.fresh "hash")
  = (Ok (Response 500 json_headers None), Scenario.fresh "hash").
Proof.
  apply (unreadable_listing_request_is_a_server_error
           (Scenario.page_request (VStr (lit "ten")))
           [(lit "limit", VStr (lit "ten"))] (Scenario.fresh "hash")).
  - eexists. split; reflexivity.
  - left. eexists. vm_compute. reflexivity.
Defined.

(* ===================================================================== *)
(** ** The statistics *)
(* ===================================================================== *)







Lemma upload_counters_update ev w :
  post (upload_file.lambda_handler ev) w (fun _ w' => counters_update w w').
Proof.
  unfold upload_file.lambda_handler, counters_update.
  post_run; wsimp_all; try (left; reflexivity).
  all: right; eexists _, _, _, _; split; [eassumption|]; split; [eassumption|reflexivity].
Qed.

Lemma incremented_numeric item a d item' b :
  incremented item a d = Ok item' ->
  (a = b \/ numeric item b) -> numeric item' b.
Proof.
  unfold incremented, raise, numeric.
  destruct (dict_get item a) as [[]|] eqn:E; intros H; inversion H; subst; clear H.
  all: intros [<- | Hb]; [right; rewrite dict_get_set_eq; eauto|].
  all: destruct (decide (b = a)) as [->|Hne];
    [right; rewrite dict_get_set_eq; eauto|rewrite dict_get_set_ne by exact Hne; exact Hb].
Qed.

(** X16: an upload leaves stores that get_stats can report: if every
    record carried a content hash and the counters were numbers before,
    so it is after, whatever the event and the calls that fail. *)
Theorem upload_keeps_stats_readable ev w :
  all_hashed w -> counters_numeric w ->
  all_hashed (snd (upload_file.lambda_handler ev w))
  /\ counters_numeric (snd (upload_file.lambda_handler ev w)).
Proof.
  intros Hh Hc. split.
  - pose proof (upload_table_step ev w) as H. unfold post, table_step in H.
    unfold all_hashed in *.
    destruct H as [Hpk [Ht | (row & h & Ht & Hrow & _)]]; rewrite Hpk, Ht; [exact Hh|].
    apply put_row_Forall; [exact Hh|].
    apply hash_is_row_hash in Hrow. rewrite Hrow. eauto.
  - pose proof (upload_counters_update ev w) as H. unfold post, counters_update in H.
    unfold counters_numeric in *.
    destruct H as [Hcs | (inc & n & it1 & it2 & H1 & H2 & Hcs)]; rewrite Hcs; [exact Hc|].
    assert (Hi : numeric (counters_item w) (lit "duplicates_avoided")
                 /\ numeric (counters_item w) (lit "total_s3_size_saved")).
    { unfold counters_item. destruct (counters w); [exact Hc|].
      split; left; reflexivity. }
    destruct Hi as [Hd Hs]. split.
    + eapply incremented_numeric; [exact H2|]. right.
      eapply incremented_numeric; [exact H1|]. left. reflexivity.
    + eapply incremented_numeric; [exact H2|]. left. reflexivity.
Qed.

Lemma upload_keeps_stats_readable_witness :
  all_hashed (snd (upload_file.lambda_handler Scenario.hello_b
                     (Scenario.after_hello "file_id")))
  /\ counters_numeric (snd (upload_file.lambda_handler Scenario.hello_b
                              (Scenario.after_hello "file_id"))).
Proof.
  apply (upload_keeps_stats_readable Scenario.hello_b (Scenario.after_hello "file_id")).
  - unfold all_hashed. vm_compute. repeat constructor. eexists. reflexivity.
  - exact I.
Defined.

(* ===================================================================== *)
(** ** The pages of a listing *)
(* ===================================================================== *)










(* ===================================================================== *)
(** ** What the answer of an upload tells of the stores *)
(* ===================================================================== *)







(* ===================================================================== *)
(** ** The blobs of the records *)
(* ===================================================================== *)

Lemma round_length s kw : length (Sha256.round s kw) = length s.
Proof.
  unfold Sha256.round.
  do 9 (destruct s as [|? s]; try reflexivity).
Qed.

Lemma rounds_length l : forall s, length (fold_left Sha256.round l s) = length s.
Proof.
  induction l as [|kw l IH]; intros s; [reflexivity|].
  cbn [fold_left]. rewrite IH. apply round_length.
Qed.

Lemma compress_length h block : length (Sha256.compress h block) = length h.
Proof.
  unfold Sha256.compress. rewrite length_map, length_combine, rounds_length. lia.
Qed.

Lemma digest_words_length m : length (Sha256.digest_words m) = 8%nat.
Proof.
  unfold Sha256.digest_words.
  generalize (Sha256.chunks 64 (Sha256.pad m)). intros l.
  assert (H : forall h, length (fold_left Sha256.compress l h) = length h).
  { induction l as [|c l IH]; intros h; [reflexivity|].
    cbn [fold_left]. rewrite IH. apply compress_length. }
  rewrite H. reflexivity.
Qed.

(** A digest is written with 64 characters. *)
Lemma hexdigest_length m : length (Sha256.hexdigest m) = 64%nat.
Proof.
  unfold Sha256.hexdigest.
  pose proof (digest_words_length m) as H.
  destruct (Sha256.digest_words m) as [|a [|b [|c [|d [|e [|f [|g [|h [|]]]]]]]]];
    try discriminate H.
  reflexivity.
Qed.

(** The key of a blob tells the hash it was made of. *)
Lemma blob_key_hash h1 n1 h2 n2 :
  length h1 = length h2 -> blob_key h1 n1 = blob_key h2 n2 -> h1 = h2.
Proof.
  unfold blob_key. intros Hlen H. apply app_inv_head in H.
  apply app_inj_1 in H; [tauto|exact Hlen].
Qed.

Lemma intact_insert key b fname blob row :
  intact key b row ->
  intact key (<[blob_key (Sha256.hexdigest (Body blob)) fname := blob]> b) row.
Proof.
  unfold intact.
  destruct (row_s3_key key row) as [k|]; [|trivial].
  destruct (row_hash key row) as [h|]; [|trivial].
  intros (fname' & blob' & Hk & Hb & Hh).
  destruct (decide (blob_key (Sha256.hexdigest (Body blob)) fname = k)) as [E|Hne].
  - exists fname', blob. split; [exact Hk|]. rewrite E, lookup_insert_eq.
    split; [reflexivity|]. rewrite Hk in E.
    apply blob_key_hash in E; [exact E|].
    rewrite <- Hh, !hexdigest_length. reflexivity.
  - exists fname', blob'. rewrite lookup_insert_ne by exact Hne. auto.
Qed.

Lemma upload_blob_step ev w :
  post (upload_file.lambda_handler ev) w (fun _ w' => blob_step w w').
Proof.
  unfold upload_file.lambda_handler, blob_step.
  post_run; wsimp_all; (split; [reflexivity|]);
    try (left; split; reflexivity).
  all: right;
    match goal with
    | |- context [<[lit "files/" ++ Sha256.hexdigest ?b ++ lit "/" ++ ?n := ?o]> _] =>
        exists n, o
    end; cbn [Body]; unfold blob_key.
  all: split; [reflexivity|].
  all: try (left; reflexivity).
  all: right; eexists; split; [reflexivity|].
  all: split; [unfold row_s3_key, row_item; cbn [fst snd];
               erewrite new_item_attr; [reflexivity|reflexivity|assumption]|].
  all: apply hash_is_row_hash; unfold row_item; cbn [fst snd];
       apply new_item_hash; [reflexivity|assumption].
Qed.

(** X20: an upload keeps the blobs of the records intact: if every
    record that names a blob and a hash named a blob of the bucket,
    stored under a key made of that hash, whose bytes have that hash, so
    it is after the upload, whatever the event and the calls that
    fail. *)
Theorem upload_keeps_records_intact ev w :
  records_intact w ->
  records_intact (snd (upload_file.lambda_handler ev w)).
Proof.
  intros Hi. pose proof (upload_blob_step ev w) as H. unfold post, blob_step in H.
  unfold records_intact in *.
  destruct H as [Hpk [[Hbk Ht] | (fname & blob & Hbk & [Ht | (row & Ht & Hk & Hh)])]];
    rewrite Hpk, Hbk, Ht; [exact Hi| |].
  - eapply Forall_impl; [exact Hi|]. intros row. apply intact_insert.
  - apply put_row_Forall.
    + eapply Forall_impl; [exact Hi|]. intros r. apply intact_insert.
    + unfold intact. rewrite Hk, Hh. exists fname, blob.
      rewrite lookup_insert_eq. auto.
Qed.

Lemma upload_keeps_records_intact_witness :
  records_intact (snd (upload_file.lambda_handler (Scenario.text_upload "world" "c.txt")
                         (Scenario.after_hello "file_id"))).
Proof.
  apply (upload_keeps_records_intact (Scenario.text_upload "world" "c.txt")
           (Scenario.after_hello "file_id")).
  apply (upload_keeps_records_intact Scenario.hello_a (Scenario.fresh "file_id")).
  constructor.
Defined.

(* ===================================================================== *)
(** ** Reads and counter updates that fail *)
(* ===================================================================== *)


Lemma upload_check_failure ev w :
  post (upload_file.lambda_handler ev) w (fun o w' => check_failure w w' o).
Proof.
  unfold upload_file.lambda_handler.
  post_run; unfold check_failure; trace; intros h0 Hin; cbn [In] in Hin.
  all: repeat (destruct Hin as [Hin|Hin]; [try discriminate Hin|]); try contradiction.
  all: split; [reflexivity|]; split; [repeat split|reflexivity].
Qed.



(** X22: when the lookup by hash and the scan that stands in for it both
    fail, the upload is answered 500, no write is attempted and the
    stores are as they were. *)
Theorem failed_duplicate_check_changes_nothing ev w h :
  In (ScanFilterHash h, false)
     (calls_since w (snd (upload_file.lambda_handler ev w))) ->
  answered 500 (fst (upload_file.lambda_handler ev w))
  /\ same_stores w (snd (upload_file.lambda_handler ev w))
  /\ forallb (fun x => negb (is_write x))
       (calls_since w (snd (upload_file.lambda_handler ev w))) = true.
Proof. intros Hin. exact (upload_check_failure ev w h Hin). Qed.

Lemma failed_duplicate_check_changes_nothing_witness :
  answered 500
    (fst (upload_file.lambda_handler Scenario.hello_a
            (failing_at 1 (Scenario.fresh "file_id"))))
  /\ same_stores (failing_at 1 (Scenario.fresh "file_id"))
       (snd (upload_file.lambda_handler Scenario.hello_a
               (failing_at 1 (Scenario.fresh "file_id"))))
  /\ forallb (fun x => negb (is_write x))
       (calls_since (failing_at 1 (Scenario.fresh "file_id"))
          (snd (upload_file.lambda_handler Scenario.hello_a
                  (failing_at 1 (Scenario.fresh "file_id"))))) = true.
Proof.
  apply (failed_duplicate_check_changes_nothing Scenario.hello_a
           (failing_at 1 (Scenario.fresh "file_id"))
           (Sha256.hexdigest (lit "hello"))).
  vm_compute. right. left. reflexivity.
Defined.

Ltac failed_call :=
  post_run; unfold failure_answered; trace; intros c0 Hin; cbn [In] in Hin;
  repeat (destruct Hin as [Hin|Hin]; [try discriminate Hin|]); try contradiction;
  try reflexivity.

Lemma get_hashes_failure ev w :
  post (get_hashes.lambda_handler ev) w (fun o w' => failure_answered w w' o).
Proof. unfold get_hashes.lambda_handler. failed_call. Qed.

Lemma get_file_failure ev w :
  post (get_file.lambda_handler ev) w (fun o w' => failure_answered w w' o).
Proof. unfold get_file.lambda_handler. failed_call. Qed.

Lemma get_metadata_failure ev w :
  post (get_metadata.lambda_handler ev) w (fun o w' => failure_answered w w' o).
Proof. unfold get_metadata.lambda_handler. failed_call. Qed.

Lemma get_stats_failure ev w :
  post (get_stats.lambda_handler ev) w (fun o w' => failure_answered w w' o).
Proof.
  unfold get_stats.lambda_handler, get_stats.get_unique_file_count,
    get_stats.get_deduplication_stats.
  failed_call.
Qed.

(** X23: a query during which a call to a store failed is answered 500:
    a failed read is never reported as a missing record or as an empty
    listing. *)
Theorem failed_read_is_a_server_error ev w :
  server_error_on_failure get_hashes.lambda_handler ev w
  /\ server_error_on_failure get_file.lambda_handler ev w
  /\ server_error_on_failure get_metadata.lambda_handler ev w
  /\ server_error_on_failure get_stats.lambda_handler ev w.
Proof.
  split; [exact (get_hashes_failure ev w)|].
  split; [exact (get_file_failure ev w)|].
  split; [exact (get_metadata_failure ev w)|exact (get_stats_failure ev w)].
Qed.

(* ===================================================================== *)
(** ** A cursor that reads as an empty value *)
(* ===================================================================== *)

(** X24: a listing request whose cursor reads as an empty value is
    answered as the request with the same limit and no cursor: the
    listing starts over from the first row. *)
Theorem empty_cursor_starts_over event1 event2 params1 params2 w :
  query_parameters event1 params1 ->
  query_parameters event2 params2 ->
  dict_get_or params1 (lit "limit") (VInt 10) = dict_get_or params2 (lit "limit") (VInt 10) ->
  empty_cursor params1 ->
  dict_get params2 (lit "last_evaluated_key") = None ->
  get_hashes.lambda_handler event1 w = get_hashes.lambda_handler event2 w.
Proof.
  intros (ev1 & -> & Hq1) (ev2 & -> & Hq2) Hlimit (token & v & Ht & Hd & Hv) Hnone.
  cbn zeta in Hq1, Hq2.
  unfold get_hashes.lambda_handler, try_except, bind, lift.
  unfold get_method at 1 3. rewrite Hq1, Hq2. unfold get_method.
  rewrite Hlimit, Ht, Hd, Hnone.
  destruct (Builtins.int (dict_get_or params2 (lit "limit") (VInt 10))); [|reflexivity..].
  rewrite Hv. reflexivity.
Qed.

Lemma empty_cursor_starts_over_witness :
  get_hashes.lambda_handler
    (VDict [(lit "queryStringParameters",
             VDict [(lit "limit", VStr (lit "1"));
                    (lit "last_evaluated_key", VStr (lit "null"))])])
    (Scenario.after_hello "file_id")
  = get_hashes.lambda_handler (Scenario.page_request (VStr (lit "1")))
      (Scenario.after_hello "file_id").
Proof.
  apply (empty_cursor_starts_over _ _
           [(lit "limit", VStr (lit "1")); (lit "last_evaluated_key", VStr (lit "null"))]
           [(lit "limit", VStr (lit "1"))]).
  - eexists. split; reflexivity.
  - eexists. split; reflexivity.
  - reflexivity.
  - exists (VStr (lit "null")), VNone. split; [reflexivity|]. split; vm_compute; reflexivity.
  - reflexivity.
Defined.

(* ===================================================================== *)
(** ** A record that names no blob *)
(* ===================================================================== *)



